(** * Verification of the Microkit SDK build driver (build_sdk.py)

    A shallow embedding of the build script: the target catalogue, the
    rendering of kernel options, the tar metadata filter, the host triple
    detection and the staging pipeline driven by [main].  Effects (the
    external commands and the file-system operations) are recorded as an
    explicit trace of actions; what the host answers (exit statuses, directory
    listings, file existence) is a parameter of every run. *)

From Stdlib Require Import ZArith NArith List String Ascii Bool Lia.
From Stdlib Require Import Permutation Sorted.
From Stdlib Require Import Hexadecimal HexadecimalString.
Import ListNotations.

Local Open Scope string_scope.
Local Open Scope list_scope.

(* ================================================================== *)
(** * Python values and primitives used by the script *)
(* ================================================================== *)

Module Py.

(** The outcome of evaluating Python code: a value, or a raised
    exception carrying its message. *)
Inductive result (A : Type) : Type :=
| Ok (a : A)
| Raise (msg : string).
Arguments Ok {A} a.
Arguments Raise {A} msg.

Definition is_raise {A} (r : result A) : bool :=
  match r with Ok _ => false | Raise _ => true end.

(** Octal literals ([0o777]) written digit by digit. *)
Definition octal (digits : list nat) : Z :=
  fold_left (fun acc d => 8 * acc + Z.of_nat d)%Z digits 0%Z.

(** [sep.join(parts)] *)
Definition join (sep : string) (parts : list string) : string :=
  String.concat sep parts.

(** [needle in haystack] on strings. *)
Fixpoint contains (needle haystack : string) : bool :=
  String.prefix needle haystack
  || match haystack with
     | EmptyString => false
     | String _ rest => contains needle rest
     end.

(** [hex(n)] for a non-negative integer. *)
Definition hex (n : N) : string :=
  "0x" ++ NilZero.string_of_uint (N.to_hex_uint n).

End Py.
Export Py.

(* ================================================================== *)
(** * The target catalogue *)
(* ================================================================== *)

Definition NAME : string := "microkit".
Definition VERSION : string := "1.2.6".
Definition MICROKIT_EPOCH : Z := 1616367257.
Definition TOOLCHAIN_PREFIX : string := "aarch64-none-elf-".

(** [KERNEL_CONFIG_TYPE = Union[bool, str]] *)
Inductive KERNEL_CONFIG_TYPE : Type :=
| VBool (b : bool)
| VStr (s : string).

(** A Python [dict] with string keys, in insertion order. *)
Definition dict (V : Type) : Type := list (string * V).

Definition KERNEL_OPTIONS : Type := dict KERNEL_CONFIG_TYPE.

(** A [pathlib.Path], as the list of its components. *)
Definition Path : Type := list string.

Record BoardInfo : Type := {
  board_name : string;
  gcc_cpu : string;
  loader_link_address : N;
  board_kernel_options : KERNEL_OPTIONS;
  examples : dict Path
}.

Record ConfigInfo : Type := {
  config_name : string;
  debug : bool;
  config_kernel_options : KERNEL_OPTIONS
}.

Definition SUPPORTED_BOARDS : list BoardInfo :=
  [ {| board_name := "tqma8xqp1gb"; gcc_cpu := "cortex-a35";
       loader_link_address := 0x80280000;
       board_kernel_options :=
         [ ("KernelPlatform", VStr "tqma8xqp1gb");
           ("KernelIsMCS", VBool true);
           ("KernelArmExportPCNTUser", VBool true) ];
       examples := [ ("ethernet", ["example"; "tqma8xqp1gb"; "ethernet"]) ] |};
    {| board_name := "zcu102"; gcc_cpu := "cortex-a53";
       loader_link_address := 0x40000000;
       board_kernel_options :=
         [ ("KernelPlatform", VStr "zynqmp");
           ("KernelARMPlatform", VStr "zcu102");
           ("KernelIsMCS", VBool true);
           ("KernelArmExportPCNTUser", VBool true) ];
       examples := [ ("hello", ["example"; "zcu102"; "hello"]) ] |};
    {| board_name := "maaxboard"; gcc_cpu := "cortex-a53";
       loader_link_address := 0x40480000;
       board_kernel_options :=
         [ ("KernelPlatform", VStr "maaxboard");
           ("KernelIsMCS", VBool true);
           ("KernelArmExportPCNTUser", VBool true) ];
       examples := [ ("hello", ["example"; "maaxboard"; "hello"]) ] |};
    {| board_name := "imx8mm_evk"; gcc_cpu := "cortex-a53";
       loader_link_address := 0x41000000;
       board_kernel_options :=
         [ ("KernelPlatform", VStr "imx8mm-evk");
           ("KernelIsMCS", VBool true);
           ("KernelArmExportPCNTUser", VBool true) ];
       examples :=
         [ ("passive_server", ["example"; "imx8mm_evk"; "passive_server"]) ] |};
    {| board_name := "imx8mq_evk"; gcc_cpu := "cortex-a53";
       loader_link_address := 0x41000000;
       board_kernel_options :=
         [ ("KernelPlatform", VStr "imx8mq-evk");
           ("KernelIsMCS", VBool true);
           ("KernelArmExportPCNTUser", VBool true) ];
       examples := [ ("hello", ["example"; "imx8mq_evk"; "hello"]) ] |};
    {| board_name := "odroidc2"; gcc_cpu := "cortex-a53";
       loader_link_address := 0x20000000;
       board_kernel_options :=
         [ ("KernelPlatform", VStr "odroidc2");
           ("KernelIsMCS", VBool true);
           ("KernelArmExportPCNTUser", VBool true) ];
       examples := [ ("hello", ["example"; "odroidc2"; "hello"]) ] |};
    {| board_name := "odroidc4"; gcc_cpu := "cortex-a55";
       loader_link_address := 0x20000000;
       board_kernel_options :=
         [ ("KernelPlatform", VStr "odroidc4");
           ("KernelIsMCS", VBool true);
           ("KernelArmExportPCNTUser", VBool true) ];
       examples := [ ("timer", ["example"; "odroidc4"; "timer"]) ] |};
    {| board_name := "qemu_virt_aarch64"; gcc_cpu := "cortex-a53";
       loader_link_address := 0x70000000;
       board_kernel_options :=
         [ ("KernelPlatform", VStr "qemu-arm-virt");
           ("KernelIsMCS", VBool true);
           ("KernelArmExportPCNTUser", VBool true);
           ("QEMU_MEMORY", VStr "2048") ];
       examples := [ ("hello", ["example"; "qemu_virt_aarch64"; "hello"]) ] |} ].

Definition SUPPORTED_CONFIGS : list ConfigInfo :=
  [ {| config_name := "release"; debug := false;
       config_kernel_options := [] |};
    {| config_name := "debug"; debug := true;
       config_kernel_options :=
         [ ("KernelDebugBuild", VBool true);
           ("KernelPrinting", VBool true);
           ("KernelVerificationBuild", VBool false) ] |} ].

(* ================================================================== *)
(** * Rendering of the kernel options (the head of [build_sel4]) *)
(* ================================================================== *)

Module Options.

Definition item : Type := (string * KERNEL_CONFIG_TYPE)%type.

(** [dict.items()] *)
Definition items (d : KERNEL_OPTIONS) : list item := d.

Definition keys {V} (d : dict V) : list string := map fst d.

(** [d.get(k)] *)
Fixpoint get {V} (k : string) (d : dict V) : option V :=
  match d with
  | [] => None
  | (k', v) :: d' => if String.eqb k k' then Some v else get k d'
  end.

(** [v1 == v2]: a [bool] never equals a [str]. *)
Definition val_eqb (v1 v2 : KERNEL_CONFIG_TYPE) : bool :=
  match v1, v2 with
  | VBool b1, VBool b2 => Bool.eqb b1 b2
  | VStr s1, VStr s2 => String.eqb s1 s2
  | _, _ => false
  end.

(** [v1 < v2]: [False < True], strings compare lexicographically, and
    comparing a [bool] with a [str] raises [TypeError] ([None]). *)
Definition val_lt (v1 v2 : KERNEL_CONFIG_TYPE) : option bool :=
  match v1, v2 with
  | VBool b1, VBool b2 => Some (negb b1 && b2)
  | VStr s1, VStr s2 => Some (String.ltb s1 s2)
  | _, _ => None
  end.

(** [t1 < t2] on [(name, value)] tuples: the first components that differ
    decide; the values are only compared when the names are equal. *)
Definition tuple_lt (t1 t2 : item) : option bool :=
  if String.eqb (fst t1) (fst t2)
  then if val_eqb (snd t1) (snd t2) then Some false
       else val_lt (snd t1) (snd t2)
  else Some (String.ltb (fst t1) (fst t2)).

(** [sorted(l)]: a stable sort that uses [<] only.  It is written as an
    insertion sort; [None] is the [TypeError] of a comparison. *)
Fixpoint insert (x : item) (l : list item) : option (list item) :=
  match l with
  | [] => Some [x]
  | y :: l' =>
      match tuple_lt y x with
      | None => None
      | Some true => option_map (cons y) (insert x l')
      | Some false => Some (x :: l)
      end
  end.

Fixpoint sorted (l : list item) : option (list item) :=
  match l with
  | [] => Some []
  | x :: l' =>
      match sorted l' with
      | None => None
      | Some s => insert x s
      end
  end.

(** [config_args = list(board.kernel_options.items())
                   + list(config.kernel_options.items())] *)
Definition config_args (board : BoardInfo) (config : ConfigInfo) : list item :=
  items (board_kernel_options board) ++ items (config_kernel_options config).

(** The body of the loop: one [-D<arg>=<str_val>] token. *)
Definition str_val (val : KERNEL_CONFIG_TYPE) : string :=
  match val with
  | VBool b => if b then "ON" else "OFF"
  | VStr s => s
  end.

Definition render (it : item) : string :=
  "-D" ++ fst it ++ "=" ++ str_val (snd it).

(** [config_strs], the list built by the loop over [sorted(config_args)]. *)
Definition config_strs (board : BoardInfo) (config : ConfigInfo)
  : option (list string) :=
  option_map (map render) (sorted (config_args board config)).

(** [config_str = " ".join(config_strs)] *)
Definition config_str (board : BoardInfo) (config : ConfigInfo)
  : option string :=
  option_map (join " ") (config_strs board config).

(** The entries of an option list that carry a given name. *)
Definition entries_for (k : string) (l : list item) : list item :=
  filter (fun it => String.eqb k (fst it)) l.

End Options.

(* ================================================================== *)
(** * The tar metadata filter *)
(* ================================================================== *)

Module Tar.

(** The entry kinds of Python's [tarfile] ([TarInfo.type]). *)
Inductive tartype : Type :=
| REGTYPE | AREGTYPE | LNKTYPE | SYMTYPE | CHRTYPE | BLKTYPE
| DIRTYPE | FIFOTYPE | CONTTYPE | GNUTYPE_SPARSE.

(** The header fields of a [tarfile.TarInfo]. *)
Record TarInfo : Type := {
  name : string;
  mode : Z;
  uid : Z;
  gid : Z;
  size : Z;
  mtime : Z;
  type : tartype;
  linkname : string;
  uname : string;
  gname : string;
  devmajor : Z;
  devminor : Z;
  pax_headers : dict string
}.

(** [REGULAR_TYPES = (REGTYPE, AREGTYPE, CONTTYPE, GNUTYPE_SPARSE)] *)
Definition isfile (t : TarInfo) : bool :=
  match type t with
  | REGTYPE | AREGTYPE | CONTTYPE | GNUTYPE_SPARSE => true
  | _ => false
  end.

Definition isdir (t : TarInfo) : bool :=
  match type t with
  | DIRTYPE => true
  | _ => false
  end.

Definition set_owner (t : TarInfo) : TarInfo :=
  {| name := name t; mode := mode t; uid := 0; gid := 0; size := size t;
     mtime := MICROKIT_EPOCH; type := type t; linkname := linkname t;
     uname := "microkit"; gname := "microkit";
     devmajor := devmajor t; devminor := devminor t; pax_headers := [] |}.

Definition set_mode (t : TarInfo) (m : Z) : TarInfo :=
  {| name := name t; mode := m; uid := uid t; gid := gid t; size := size t;
     mtime := mtime t; type := type t; linkname := linkname t;
     uname := uname t; gname := gname t;
     devmajor := devmajor t; devminor := devminor t;
     pax_headers := pax_headers t |}.

(** [mode & ~0o777 | perm] *)
Definition with_perm (m perm : Z) : Z :=
  Z.lor (Z.land m (Z.lnot (octal [7; 7; 7]))) perm.

Definition tar_filter (tarinfo : TarInfo) : result TarInfo :=
  (* Force uid/gid, the names, the pax headers and the time *)
  let tarinfo := set_owner tarinfo in
  if negb (isfile tarinfo || isdir tarinfo) then Raise "AssertionError"
  else
    (* Set the permissions properly *)
    let tarinfo :=
      if isdir tarinfo
      then set_mode tarinfo (with_perm (mode tarinfo) (octal [5; 5; 7]))
      else tarinfo in
    let tarinfo :=
      if isfile tarinfo
      then if contains "/bin/" (name tarinfo)
           then set_mode tarinfo (with_perm (mode tarinfo) (octal [7; 5; 5]))
           else set_mode tarinfo (with_perm (mode tarinfo) (octal [6; 4; 4]))
      else tarinfo in
    Ok tarinfo.

(** Two entries agree on everything the filter does not overwrite: the
    name, the kind, the size, the link target, the device numbers and the
    mode bits above the nine permission bits. *)
Definition same_payload (t1 t2 : TarInfo) : Prop :=
  name t1 = name t2 /\ type t1 = type t2 /\ size t1 = size t2 /\
  linkname t1 = linkname t2 /\ devmajor t1 = devmajor t2 /\
  devminor t1 = devminor t2 /\
  Z.shiftr (mode t1) 9 = Z.shiftr (mode t2) 9.

End Tar.

(* ================================================================== *)
(** * Host triple detection *)
(* ================================================================== *)

Definition dquote : string := String "034"%char EmptyString.

(** [get_tool_target_triple], with [platform.system()] and
    [platform.machine()] as inputs. *)
Definition get_tool_target_triple (host_system host_arch : string)
  : result string :=
  if String.eqb host_system "Linux" then Ok "x86_64-unknown-linux-musl"
  else if String.eqb host_system "Darwin" then
    if String.eqb host_arch "x86_64" then Ok "x86_64-apple-darwin"
    else if String.eqb host_arch "arm64" then Ok "aarch64-apple-darwin"
    else Raise ("Unexpected Darwin architecture: " ++ host_arch)
  else Raise ("The platform " ++ dquote ++ host_system ++ dquote
              ++ " is not supported").

(* ================================================================== *)
(** * Command lines as the shell reads them *)
(* ================================================================== *)

Module Shell.

(** What is modelled of [/bin/sh -c cmd]: a command line made of blanks
    and of characters the shell takes as they are.  Such a line is cut
    into words at the blanks and nothing in it is expanded, quoted or
    run apart; the words [NAME=VALUE] before the command name go into the
    environment of the command.  Any other command line (one with a
    [$], an ampersand, a quote, a semicolon, a tab, a newline, ...) is
    not given a meaning: [command_env] is [None] on it. *)

Definition is_space (c : ascii) : bool := Ascii.eqb c " "%char.

(** A string without blanks: it stays one word on a command line. *)
Fixpoint plain (s : string) : bool :=
  match s with
  | EmptyString => true
  | String c rest => negb (is_space c) && plain rest
  end.

(** The words of a command line, the maximal runs of non-blank
    characters; [cur] is the word being read. *)
Fixpoint words_from (cur s : string) : list string :=
  match s with
  | EmptyString =>
      match cur with EmptyString => [] | _ => [cur] end
  | String c rest =>
      if is_space c
      then match cur with
           | EmptyString => words_from EmptyString rest
           | _ => cur :: words_from EmptyString rest
           end
      else words_from (cur ++ String c EmptyString) rest
  end.

Definition words (s : string) : list string := words_from EmptyString s.

(** A word [NAME=VALUE], cut at its first [=]. *)
Fixpoint split_assignment (w : string) : option (string * string) :=
  match w with
  | EmptyString => None
  | String c rest =>
      if Ascii.eqb c "="%char then Some (EmptyString, rest)
      else match split_assignment rest with
           | Some (k, v) => Some (String c k, v)
           | None => None
           end
  end.

Definition name_start (c : ascii) : bool :=
  (Ascii.leb "A" c && Ascii.leb c "Z")
  || (Ascii.leb "a" c && Ascii.leb c "z")
  || Ascii.eqb c "_".

Definition name_char (c : ascii) : bool :=
  name_start c || (Ascii.leb "0" c && Ascii.leb c "9").

Fixpoint all_chars (f : ascii -> bool) (s : string) : bool :=
  match s with
  | EmptyString => true
  | String c rest => f c && all_chars f rest
  end.

Definition is_name (k : string) : bool :=
  match k with
  | EmptyString => false
  | String c rest => name_start c && all_chars name_char rest
  end.

(** A character the shell takes as it is, wherever it stands in a word:
    a letter, a digit or one of [_ - . / + , : @ % =]. *)
Definition literal (c : ascii) : bool :=
  name_char c
  || existsb (Ascii.eqb c)
       [ "-"; "."; "/"; "+"; ","; ":"; "@"; "%"; "=" ]%char.

(** A string of literal characters. *)
Definition simple (s : string) : bool := all_chars literal s.

(** A command line within what is modelled. *)
Definition understood (cmd : string) : bool :=
  all_chars (fun c => is_space c || literal c) cmd.

(** The variable assignments that precede the command name: the shell
    puts them in the environment of the command. *)
Fixpoint assignments (ws : list string) : list (string * string) :=
  match ws with
  | [] => []
  | w :: ws' =>
      match split_assignment w with
      | Some (k, v) => if is_name k then (k, v) :: assignments ws' else []
      | None => []
      end
  end.

(** The environment the shell gives the command of [cmd]; [None] when
    [cmd] is outside what is modelled. *)
Definition command_env (cmd : string) : option (list (string * string)) :=
  if understood cmd then Some (assignments (words cmd)) else None.

End Shell.

(* ================================================================== *)
(** * The build pipeline *)
(* ================================================================== *)

Module Build.
Import Options.

(** ** Paths *)

Definition path_str (p : Path) : string := join "/" p.

(** A string that is one component of a path: not empty, not [.] or
    [..], and without a slash. *)
Definition component (s : string) : bool :=
  negb (String.eqb s "") && negb (String.eqb s ".")
  && negb (String.eqb s "..") && negb (contains "/" s).

(** [p / s] for a string [s] that is one component, as the names of the
    catalogue and the names the script writes out are.  (For another
    string pathlib cuts [s] at its slashes, starts again from the root
    when [s] is absolute and drops an empty [s]; a theorem that says
    where the files of a board or config of any name lie asks for
    components.) *)
Definition pdiv (p : Path) (s : string) : Path := p ++ [s].
Notation "p // s" := (pdiv p s) (at level 40, left associativity).

(** [p.parent] *)
Definition parent (p : Path) : Path := removelast p.

(** An absolute path starts with the empty component, so that
    [path_str] writes the leading slash. *)
Definition is_absolute (p : Path) : bool :=
  match p with
  | EmptyString :: _ => true
  | _ => false
  end.

(** [p == q] *)
Fixpoint path_eqb (p q : Path) : bool :=
  match p, q with
  | [], [] => true
  | x :: p', y :: q' => String.eqb x y && path_eqb p' q'
  | _, _ => false
  end.

(** [p.relative_to(d)]; [None] is the [ValueError] raised when [d] is not
    a prefix of [p]. *)
Fixpoint relative_to (p d : Path) : option Path :=
  match d with
  | [] => Some p
  | x :: d' =>
      match p with
      | [] => None
      | y :: p' => if String.eqb x y then relative_to p' d' else None
      end
  end.

(** ** Effects *)

(** What the script does to the world, in the order it does it. *)
Inductive Action : Type :=
| Mkdir (p : Path)                   (* p.mkdir(exist_ok=True, parents=True) *)
| Print (msg : string)               (* print(msg) *)
| System (cmd : string) (status : Z) (* os.system(cmd), and what it returned *)
| Unlink (p : Path)                  (* p.unlink(missing_ok=True) *)
| Copy (src dst : Path)              (* shutil.copy(src, dst) *)
| Chmod (p : Path) (mode : Z)        (* p.chmod(mode) *)
| TarOpen (p : Path).                (* tar_open(p, "w:gz"), imported only *)

(** What the host answers.  Every answer may depend on what the script
    has done so far. *)
Record Host : Type := {
  cwd : Path;                                   (* the working directory *)
  home_of : string -> option Path;  (* home of a user, [""] the current one *)
  executable : Path;                            (* sys.executable *)
  host_system : string;                         (* platform.system() *)
  host_machine : string;                        (* platform.machine() *)
  system_status : list Action -> string -> Z;   (* status of os.system *)
  path_exists : list Action -> Path -> bool;    (* p.exists() *)
  path_is_file : list Action -> Path -> bool;   (* p.is_file() *)
  path_rglob : list Action -> Path -> list Path (* list(p.rglob(star)) *)
}.

(** A computation reads the history and returns its outcome together
    with the actions it performed. *)
Definition M (A : Type) : Type := list Action -> result A * list Action.

Definition ret {A} (a : A) : M A := fun _ => (Ok a, []).

Definition raise {A} (msg : string) : M A := fun _ => (Raise msg, []).

Definition bind {A B} (m : M A) (f : A -> M B) : M B :=
  fun hist =>
    match m hist with
    | (Ok a, e1) =>
        match f a (hist ++ e1) with
        | (r, e2) => (r, e1 ++ e2)
        end
    | (Raise msg, e1) => (Raise msg, e1)
    end.

Notation "x <- c1 ;; c2" := (bind c1 (fun x => c2))
  (at level 61, c1 at next level, right associativity).
Notation "c1 ;; c2" := (bind c1 (fun _ => c2))
  (at level 61, right associativity).

Definition emit (a : Action) : M unit := fun _ => (Ok tt, [a]).

Definition lift {A} (r : result A) : M A := fun _ => (r, []).

(** [assert b] *)
Definition py_assert (b : bool) : M unit :=
  if b then ret tt else raise "AssertionError".

(** [for x in l: body(x)] *)
Fixpoint for_each {A} (l : list A) (body : A -> M unit) : M unit :=
  match l with
  | [] => ret tt
  | x :: l' => body x ;; for_each l' body
  end.

(** The file operations, as long as they succeed: each one is recorded
    and the run goes on.  A run of the script in which one of them
    raises ([OSError]: a source that is missing, a destination that
    cannot be written) ends at that action; what it did until then is a
    prefix of the trace given here. *)
Definition mkdir (p : Path) : M unit := emit (Mkdir p).
Definition print (msg : string) : M unit := emit (Print msg).
Definition unlink (p : Path) : M unit := emit (Unlink p).
Definition copy (src dst : Path) : M unit := emit (Copy src dst).
Definition chmod (p : Path) (mode : Z) : M unit := emit (Chmod p mode).

(** The fixed names of [main]. *)
Definition root_dir : Path :=
  ["release"] // (NAME ++ "-sdk-" ++ VERSION)%string.
Definition tar_file : Path :=
  ["release"] // (NAME ++ "-sdk-" ++ VERSION ++ ".tar.gz")%string.
Definition source_tar_file : Path :=
  ["release"] // (NAME ++ "-source-" ++ VERSION ++ ".tar.gz")%string.

Definition o444 : Z := octal [4; 4; 4].
Definition o777 : Z := octal [7; 7; 7].

Section WithHost.

Variable h : Host.

(** [p.absolute()] *)
Definition absolute (p : Path) : Path :=
  if is_absolute p then p else cwd h ++ p.

(** [p.expanduser()]: a relative path whose first component starts
    with a tilde has that component replaced by the home directory of
    the user named after the tilde (the current user when no name
    follows); [RuntimeError] when that home directory is not known. *)
Definition expanduser (p : Path) : result Path :=
  match p with
  | String "~" user :: rest =>
      match home_of h user with
      | Some d => Ok (d ++ rest)
      | None => Raise "RuntimeError"
      end
  | _ => Ok p
  end.

(** [ENV_BIN_DIR = Path(executable).parent] *)
Definition ENV_BIN_DIR : Path := parent (executable h).

Definition system (cmd : string) : M Z :=
  fun hist =>
    let r := system_status h hist cmd in (Ok r, [System cmd r]).

Definition exists_ (p : Path) : M bool :=
  fun hist => (Ok (path_exists h hist p), []).

Definition is_file (p : Path) : M bool :=
  fun hist => (Ok (path_is_file h hist p), []).

Definition rglob (p : Path) : M (list Path) :=
  fun hist => (Ok (path_rglob h hist p), []).

(** The loop that the script writes out four times (over the kernel
    headers, the library headers, the licenses and the examples): every
    regular file below [source_dir] is staged at the same relative
    place below [dest_dir]. *)
Definition stage_tree (source_dir dest_dir : Path) : M unit :=
  ps <- rglob source_dir ;;
  for_each ps (fun p =>
    f <- is_file p ;;
    if negb f then ret tt
    else
      match relative_to p source_dir with
      | None => raise "ValueError"
      | Some rel =>
          let dest := dest_dir ++ rel in
          mkdir (parent dest) ;;
          unlink dest ;;
          copy p dest ;;
          chmod dest o444
      end).

Definition test_tool : M unit :=
  r <- system (path_str (executable h)
               ++ " -m unittest discover -s tool -v")%string ;;
  py_assert (Z.eqb r 0).

Definition build_tool (tool_target : Path) (target_triple : string)
  : M unit :=
  let pyoxidizer := ENV_BIN_DIR // "pyoxidizer" in
  ex <- exists_ pyoxidizer ;;
  if negb ex
  then raise "pyoxidizer does not appear to be installed in your Python environment"
  else
    r <- system (path_str pyoxidizer
                 ++ " build --release --path tool --target-triple "
                 ++ target_triple)%string ;;
    py_assert (Z.eqb r 0) ;;
    let tool_output :=
      ["."; "tool"; "build"; target_triple; "release"; "install";
       "microkit"] in
    r <- system ("strip " ++ path_str tool_output)%string ;;
    py_assert (Z.eqb r 0) ;;
    copy tool_output tool_target ;;
    chmod tool_target o777.

(** The configure command of [build_sel4]. *)
Definition configure_cmd (sel4_dir sel4_install_dir sel4_build_dir : Path)
           (config_str : string) : string :=
  "cmake -GNinja -DCMAKE_INSTALL_PREFIX="
    ++ path_str (absolute sel4_install_dir) ++ " "
    ++ " -DPYTHON3=" ++ path_str (executable h) ++ " "
    ++ " -DCROSS_COMPILER_PREFIX=" ++ TOOLCHAIN_PREFIX
    ++ " " ++ config_str ++ " "
    ++ "-S " ++ path_str (absolute sel4_dir)
    ++ " -B " ++ path_str (absolute sel4_build_dir).

Definition build_sel4 (sel4_dir root_dir build_dir : Path)
           (board : BoardInfo) (config : ConfigInfo) : M unit :=
  let build_dir :=
    build_dir // board_name board // config_name config // "sel4" in
  mkdir build_dir ;;
  let sel4_install_dir := build_dir // "install" in
  let sel4_build_dir := build_dir // "build" in
  mkdir sel4_install_dir ;;
  mkdir sel4_build_dir ;;
  (* the message also shows the arguments; only its head is kept *)
  print "Building sel4" ;;
  match config_str board config with
  | None => raise "TypeError"
  | Some config_str =>
      let cmd :=
        configure_cmd sel4_dir sel4_install_dir sel4_build_dir config_str in
      r <- system cmd ;;
      if negb (Z.eqb r 0)
      then raise ("Error configuring sel4: cmd=" ++ cmd)%string
      else
        let cmd :=
          ("cmake --build " ++ path_str (absolute sel4_build_dir))%string in
        r <- system cmd ;;
        if negb (Z.eqb r 0)
        then raise ("Error building sel4: cmd=" ++ cmd)%string
        else
          let cmd :=
            ("cmake --install "
               ++ path_str (absolute sel4_build_dir))%string in
          r <- system cmd ;;
          if negb (Z.eqb r 0)
          then raise ("Error installing sel4: cmd=" ++ cmd)%string
          else
            let elf := sel4_install_dir // "bin" // "kernel.elf" in
            let dest :=
              root_dir // "board" // board_name board
                       // config_name config // "elf" // "sel4.elf" in
            unlink dest ;;
            copy elf dest ;;
            (* Make output read-only *)
            chmod dest o444 ;;
            let include_dir :=
              root_dir // "board" // board_name board
                       // config_name config // "include" in
            for_each
              [ ["kernel_Config"]; ["libsel4"]; ["libsel4"; "sel4_Config"];
                ["libsel4"; "autoconf"] ]
              (fun source =>
                 let source_dir :=
                   (sel4_install_dir ++ source) // "include" in
                 stage_tree source_dir include_dir)
  end.

(** [defines_str = " ".join(f"{k}={v}" for k, v in defines)] *)
Definition defines_str (defines : list (string * string)) : string :=
  join " " (map (fun kv => (fst kv ++ "=" ++ snd kv)%string) defines).

(** The command of [build_elf_component]. *)
Definition elf_cmd (component_name : string) (sel4_dir build_dir : Path)
           (board : BoardInfo) (defines : list (string * string))
  : string :=
  "BOARD=" ++ board_name board
    ++ " BUILD_DIR=" ++ path_str (absolute build_dir)
    ++ " GCC_CPU=" ++ gcc_cpu board
    ++ " SEL4_SDK=" ++ path_str (absolute sel4_dir)
    ++ " " ++ defines_str defines
    ++ " make  -C " ++ component_name.

Definition build_elf_component (component_name : string)
           (root_dir build_dir : Path)
           (board : BoardInfo) (config : ConfigInfo)
           (defines : list (string * string)) : M unit :=
  let sel4_dir :=
    root_dir // "board" // board_name board // config_name config in
  let build_dir :=
    build_dir // board_name board // config_name config
              // component_name in
  mkdir build_dir ;;
  r <- system (elf_cmd component_name sel4_dir build_dir board defines) ;;
  if negb (Z.eqb r 0)
  then raise ("Error building: " ++ component_name ++ " for board: "
              ++ board_name board ++ " config: "
              ++ config_name config)%string
  else
    let elf := build_dir // (component_name ++ ".elf")%string in
    let dest :=
      root_dir // "board" // board_name board // config_name config
               // "elf" // (component_name ++ ".elf")%string in
    unlink dest ;;
    copy elf dest ;;
    (* Make output read-only *)
    chmod dest o444.

Definition build_doc (root_dir : Path) : M unit :=
  let output := root_dir // "doc" // "microkit_user_manual.pdf" in
  r <- system ("pandoc docs/manual.md -o " ++ path_str output)%string ;;
  py_assert (Z.eqb r 0).

(** The command of [build_lib_component]. *)
Definition lib_cmd (component_name : string) (sel4_dir build_dir : Path)
           (board : BoardInfo) : string :=
  "BUILD_DIR=" ++ path_str (absolute build_dir)
    ++ " GCC_CPU=" ++ gcc_cpu board
    ++ " SEL4_SDK=" ++ path_str (absolute sel4_dir)
    ++ " make -C " ++ component_name.

Definition build_lib_component (component_name : string)
           (root_dir build_dir : Path)
           (board : BoardInfo) (config : ConfigInfo) : M unit :=
  let sel4_dir :=
    root_dir // "board" // board_name board // config_name config in
  let build_dir :=
    build_dir // board_name board // config_name config
              // component_name in
  mkdir build_dir ;;
  r <- system (lib_cmd component_name sel4_dir build_dir board) ;;
  if negb (Z.eqb r 0)
  then raise ("Error building: " ++ component_name ++ " for board: "
              ++ board_name board ++ " config: "
              ++ config_name config)%string
  else
    let lib := build_dir // (component_name ++ ".a")%string in
    let lib_dir :=
      root_dir // "board" // board_name board // config_name config
               // "lib" in
    let dest := lib_dir // (component_name ++ ".a")%string in
    unlink dest ;;
    copy lib dest ;;
    (* Make output read-only *)
    chmod dest o444 ;;
    let link_script := [component_name] // "microkit.ld" in
    let dest := lib_dir // "microkit.ld" in
    unlink dest ;;
    copy link_script dest ;;
    (* Make output read-only *)
    chmod dest o444 ;;
    let include_dir :=
      root_dir // "board" // board_name board // config_name config
               // "include" in
    let source_dir := [component_name] // "include" in
    stage_tree source_dir include_dir.

(** [loader_defines = [("LINK_ADDRESS", hex(board.loader_link_address))]] *)
Definition loader_defines (board : BoardInfo) : list (string * string) :=
  [ ("LINK_ADDRESS", hex (loader_link_address board)) ].

(** The directories [main] creates before anything is built. *)
Definition dir_structure : list Path :=
  [ root_dir // "doc"; root_dir // "bin"; root_dir // "board" ]
    ++ flat_map
         (fun board =>
            let board_dir := root_dir // "board" // board_name board in
            board_dir
              :: flat_map
                   (fun config =>
                      let config_dir := board_dir // config_name config in
                      [ config_dir; config_dir // "include";
                        config_dir // "lib"; config_dir // "elf" ])
                   SUPPORTED_CONFIGS)
         SUPPORTED_BOARDS.

(** The four stages of one cell of the matrix. *)
Definition build_cell (sel4_dir build_dir : Path)
           (board : BoardInfo) (config : ConfigInfo) : M unit :=
  build_sel4 sel4_dir root_dir build_dir board config ;;
  build_elf_component "loader" root_dir build_dir board config
                      (loader_defines board) ;;
  build_elf_component "monitor" root_dir build_dir board config [] ;;
  build_lib_component "libmicrokit" root_dir build_dir board config.

(** [main], with the two command-line arguments as inputs: [--sel4] and
    the optional [--tool-target-triple]. *)
Definition main (arg_sel4 : Path) (arg_tool_target_triple : option string)
  : M unit :=
  (* the default of the option is computed when the parser is built *)
  default_triple <-
    lift (get_tool_target_triple (host_system h) (host_machine h)) ;;
  let tool_target_triple :=
    match arg_tool_target_triple with
    | Some t => t
    | None => default_triple
    end in
  sel4_dir <- lift (expanduser arg_sel4) ;;
  ex <- exists_ sel4_dir ;;
  if negb ex
  then raise ("sel4_dir: " ++ path_str sel4_dir
              ++ " does not exist")%string
  else
    for_each dir_structure mkdir ;;
    copy ["LICENSE.md"] root_dir ;;
    let licenses_dir := ["LICENSES"] in
    let licenses_dest_dir := root_dir // "LICENSES" in
    stage_tree licenses_dir licenses_dest_dir ;;
    let tool_target := root_dir // "bin" // "microkit" in
    ex <- exists_ tool_target ;;
    (if negb ex
     then test_tool ;; build_tool tool_target tool_target_triple
     else ret tt) ;;
    build_doc root_dir ;;
    let build_dir := ["build"] in
    for_each SUPPORTED_BOARDS (fun board =>
      for_each SUPPORTED_CONFIGS (fun config =>
        build_cell sel4_dir build_dir board config) ;;
      (* Setup the examples *)
      for_each (examples board) (fun ex =>
        let include_dir :=
          root_dir // "board" // board_name board // "example"
                   // fst ex in
        let source_dir := snd ex in
        stage_tree source_dir include_dir)).

End WithHost.

End Build.

(* ================================================================== *)
(** * Fixtures: concrete inputs used to run the definitions *)
(* ================================================================== *)

Module Fixtures.
Import Options Tar Build.

(** The board and config of the option-merge example. *)
Definition example_board : BoardInfo :=
  {| board_name := "zcu102"; gcc_cpu := "cortex-a53";
     loader_link_address := 0x40000000;
     board_kernel_options :=
       [ ("KernelPlatform", VStr "zcu102"); ("KernelIsMCS", VBool true) ];
     examples := [] |}.

Definition example_config : ConfigInfo :=
  {| config_name := "debug"; debug := true;
     config_kernel_options := [ ("KernelDebugBuild", VBool true) ] |}.

(** A board and a config that both set [KernelIsMCS]. *)
Definition clash_board : BoardInfo :=
  {| board_name := "clash"; gcc_cpu := "cortex-a53";
     loader_link_address := 0x40000000;
     board_kernel_options := [ ("KernelIsMCS", VBool true) ];
     examples := [] |}.

Definition clash_config : ConfigInfo :=
  {| config_name := "nomcs"; debug := false;
     config_kernel_options := [ ("KernelIsMCS", VBool false) ] |}.

(** Two directory entries of the same name that differ in the set-gid
    bit only, as directories created below a set-gid directory do. *)
Definition plain_dir : TarInfo :=
  {| name := "microkit-sdk-1.2.6/board"; mode := octal [0; 7; 5; 5];
     uid := 1000; gid := 1000; size := 0; mtime := 1700000000;
     type := DIRTYPE; linkname := EmptyString;
     uname := "alice"; gname := "users";
     devmajor := 0; devminor := 0; pax_headers := [] |}.

Definition setgid_dir : TarInfo :=
  {| name := "microkit-sdk-1.2.6/board"; mode := octal [2; 7; 5; 5];
     uid := 1000; gid := 1000; size := 0; mtime := 1700000000;
     type := DIRTYPE; linkname := EmptyString;
     uname := "alice"; gname := "users";
     devmajor := 0; devminor := 0; pax_headers := [] |}.

(** The same file seen on two build hosts. *)
Definition tool_entry_a : TarInfo :=
  {| name := "microkit-sdk-1.2.6/bin/microkit"; mode := octal [7; 7; 7];
     uid := 1000; gid := 1000; size := 4096; mtime := 1700000000;
     type := REGTYPE; linkname := EmptyString;
     uname := "alice"; gname := "users";
     devmajor := 0; devminor := 0; pax_headers := [("comment", "a")] |}.

Definition tool_entry_b : TarInfo :=
  {| name := "microkit-sdk-1.2.6/bin/microkit"; mode := octal [7; 0; 0];
     uid := 0; gid := 50; size := 4096; mtime := 1600000000;
     type := REGTYPE; linkname := EmptyString;
     uname := "root"; gname := "staff";
     devmajor := 0; devminor := 0; pax_headers := [] |}.

Definition symlink_entry : TarInfo :=
  {| name := "microkit-sdk-1.2.6/bin/tool"; mode := octal [7; 7; 7];
     uid := 1000; gid := 1000; size := 0; mtime := 1700000000;
     type := SYMTYPE; linkname := "microkit";
     uname := "alice"; gname := "users";
     devmajor := 0; devminor := 0; pax_headers := [] |}.

(** A host on which every command succeeds, except those whose text
    starts with [failing]; every directory holds one file [a.h]; the
    packaged tool is not there yet. *)
Definition host_failing (failing : string) : Host :=
  {| cwd := [EmptyString; "work"];
     home_of :=
       fun user =>
         if String.eqb user "" then Some [EmptyString; "home"; "dev"]
         else None;
     executable := [EmptyString; "usr"; "bin"; "python3"];
     host_system := "Linux";
     host_machine := "x86_64";
     system_status :=
       fun _ cmd => if String.prefix failing cmd then 256%Z else 0%Z;
     path_exists :=
       fun _ p =>
         negb (path_eqb p (root_dir // "bin" // "microkit"));
     path_is_file := fun _ _ => true;
     path_rglob := fun _ p => [p // "a.h"] |}.

(** A host on which every command succeeds. *)
Definition good_host : Host := host_failing "no such command".

End Fixtures.

(* ================================================================== *)
(** * Predicates used to state the properties *)
(* ================================================================== *)

Module Props.
Import Options Tar Build.

(** Option entries ordered by name. *)
Definition key_le (a b : item) : Prop :=
  String.leb (fst a) (fst b) = true.

(** A well-formed [dict]: no key occurs twice. *)
Definition wf_dict {V} (d : dict V) : Prop := NoDup (keys d).

(** Two option maps share the key [k]. *)
Definition shared_key (k : string) (b c : KERNEL_OPTIONS) : Prop :=
  In k (keys b) /\ In k (keys c).

(** What the filter returns for a regular file or a directory. *)
Definition normalized (t : TarInfo) : TarInfo :=
  {| name := name t;
     mode :=
       with_perm (mode t)
         (if isdir t then octal [5; 5; 7]
          else if contains "/bin/" (name t) then octal [7; 5; 5]
               else octal [6; 4; 4]);
     uid := 0; gid := 0; size := size t; mtime := MICROKIT_EPOCH;
     type := type t; linkname := linkname t;
     uname := "microkit"; gname := "microkit";
     devmajor := devmajor t; devminor := devminor t; pax_headers := [] |}.


(** ** Traces *)

(** The commands of a trace, in the order they were run. *)
Definition commands (tr : list Action) : list string :=
  flat_map (fun a => match a with System cmd _ => [cmd] | _ => [] end) tr.

(** An action that puts nothing into the release tree: a directory
    creation, a message, an external command. *)
Definition neutral (a : Action) : Prop :=
  match a with
  | Mkdir _ | Print _ | System _ _ => True
  | _ => False
  end.

(** An action that is not an external command. *)
Definition silent (a : Action) : Prop :=
  match a with
  | System _ _ => False
  | _ => True
  end.

(** An action that is not a failed command. *)
Definition succeeded (a : Action) : Prop :=
  match a with
  | System _ status => status = 0%Z
  | _ => True
  end.

(** The outcome of one stage: either no command failed, or the stage
    raised right after the first failed command, having done nothing
    before it but neutral actions. *)
Definition stage_outcome {A} (o : result A * list Action) : Prop :=
  Forall succeeded (snd o)
  \/ (is_raise (fst o) = true
      /\ exists pre cmd status,
           snd o = pre ++ [System cmd status] /\ status <> 0%Z
           /\ Forall succeeded pre /\ Forall neutral pre).

(** The outcome of a run: a failed command can only be the last action,
    and then the run has raised. *)
Definition fail_fast_outcome {A} (o : result A * list Action) : Prop :=
  (is_raise (fst o) = false -> Forall succeeded (snd o))
  /\ Forall succeeded (removelast (snd o)).

(** ** The cells of the matrix *)

(** The kernel SDK subtree of a cell, as the component builds see it. *)
Definition cell_sdk (board : BoardInfo) (config : ConfigInfo) : Path :=
  root_dir // "board" // board_name board // config_name config.

(** The build directory of one component of a cell. *)
Definition cell_build_dir (component : string)
           (board : BoardInfo) (config : ConfigInfo) : Path :=
  ["build"] // board_name board // config_name config // component.

(** The names that go into a command line are made of characters the
    shell takes as they are, and the names of the board and of the config
    are path components. *)
Definition plain_cell (h : Host) (board : BoardInfo) (config : ConfigInfo)
  : Prop :=
  forallb Shell.simple (cwd h) = true
  /\ Shell.simple (board_name board) && component (board_name board) = true
  /\ Shell.simple (config_name config) && component (config_name config)
     = true
  /\ Shell.simple (gcc_cpu board) = true.

(** The four stages of a cell, as [main] calls them. *)
Definition cell_stages (h : Host) (sel4_dir : Path)
           (board : BoardInfo) (config : ConfigInfo) : list (M unit) :=
  [ build_sel4 h sel4_dir root_dir ["build"] board config;
    build_elf_component h "loader" root_dir ["build"] board config
                        (loader_defines board);
    build_elf_component h "monitor" root_dir ["build"] board config [];
    build_lib_component h "libmicrokit" root_dir ["build"] board config ].

(** ** Where files are put *)

Definition tool_target : Path := root_dir // "bin" // "microkit".

(** A destination below [board/] or [LICENSES/] of the release tree. *)
Definition frozen_dest (d : Path) : Prop :=
  exists rest,
    d = root_dir ++ "board" :: rest \/ d = root_dir ++ "LICENSES" :: rest.

(** The shape of what a run does to the release tree: neutral actions, the
    staging of a file below [board/] or [LICENSES/] (remove, copy, make
    read-only), the copy of the top-level license, and the copy of the
    packaged tool followed by its [chmod]. *)
Inductive Staged : list Action -> Prop :=
| Staged_nil : Staged []
| Staged_neutral : forall a l, neutral a -> Staged l -> Staged (a :: l)
| Staged_file : forall src d l,
    frozen_dest d -> Staged l ->
    Staged (Unlink d :: Copy src d :: Chmod d o444 :: l)
| Staged_license : forall l,
    Staged l -> Staged (Copy ["LICENSE.md"] root_dir :: l)
| Staged_tool : forall src l,
    Staged l -> Staged (Copy src tool_target :: Chmod tool_target o777 :: l).

(** The paths an action creates, removes or changes. *)
Definition written (a : Action) : list Path :=
  match a with
  | Mkdir p | Unlink p | Chmod p _ | TarOpen p => [p]
  | Copy src dst => [dst; dst ++ [last src EmptyString]]
  | Print _ | System _ _ => []
  end.

(** An action that neither opens an archive nor touches the paths of the
    two archives. *)
Definition no_archive (a : Action) : Prop :=
  match a with
  | TarOpen _ => False
  | _ => forall p, In p (written a) -> p <> tar_file /\ p <> source_tar_file
  end.

(** ** Properties of computations *)

(** Whatever the history, the actions of [m] satisfy [D]. *)
Definition always {A} (D : list Action -> Prop) (m : M A) : Prop :=
  forall hist, D (snd (m hist)).

Definition stage_ok {A} (m : M A) : Prop :=
  forall hist, stage_outcome (m hist).

Definition fail_fast {A} (m : M A) : Prop :=
  forall hist, fail_fast_outcome (m hist).

(** A continuation that raises at once, without acting, when the status
    it is given is not zero. *)
Definition checks_status {A} (k : Z -> M A) : Prop :=
  forall status hist,
    status <> 0%Z -> exists msg, k status hist = (Raise msg, []).

(** ** Looking into a trace *)

(** A path below [d]. *)
Definition under (d p : Path) : Prop := exists rest, p = d ++ rest.

(** The copy of the top-level license into the release tree. *)
Definition is_license_copy (a : Action) : bool :=
  match a with
  | Copy src dst => path_eqb src ["LICENSE.md"] && path_eqb dst root_dir
  | _ => false
  end.

(** The action removes [p] or sets its mode. *)
Definition removes_or_chmods (p : Path) (a : Action) : bool :=
  match a with
  | Unlink q | Chmod q _ => path_eqb p q
  | _ => false
  end.

(** The actions just before and just after the copy of the license. *)
Fixpoint around_license_copy (prev : option Action) (tr : list Action)
  : option (option Action * option Action) :=
  match tr with
  | [] => None
  | a :: tr' =>
      if is_license_copy a then Some (prev, hd_error tr')
      else around_license_copy (Some a) tr'
  end.

(** A complete run on the host where every command succeeds. *)
Definition good_run : result unit * list Action :=
  main Fixtures.good_host ["seL4"] None [].

(** A path the script may write to: below the release root or below the
    build directory. *)
Definition safe (p : Path) : Prop := under root_dir p \/ under ["build"] p.

End Props.

(* ================================================================== *)
(** * Further predicates *)
(* ================================================================== *)

Module MoreProps.
Import Options Tar Build Props.

(** The permission bits the filter gives an entry: directories, files
    below a [bin] directory, other files. *)
Definition perm_of (t : TarInfo) : Z :=
  if isdir t then octal [5; 5; 7]
  else if contains "/bin/" (name t) then octal [7; 5; 5]
       else octal [6; 4; 4].


(** A config that sets [KernelIsMCS] to a string, where
    [Fixtures.clash_board] sets it to a boolean. *)
Definition mixed_config : ConfigInfo :=
  {| config_name := "mixed"; debug := false;
     config_kernel_options := [ ("KernelIsMCS", VStr "yes") ] |}.


(** ** Runs that return normally *)

(** Whenever [m] returns normally, its actions satisfy [S]. *)
Definition when_ok {A} (S : list Action -> Prop) (m : M A) : Prop :=
  forall hist, is_raise (fst (m hist)) = false -> S (snd (m hist)).

(** Whenever [m] returns normally, the commands it ran satisfy [P]. *)
Definition runs_in {A} (P : list string -> Prop) (m : M A) : Prop :=
  when_ok (fun tr => P (commands tr)) m.

(** Whenever [m] returns normally, it has copied a file to each path of
    [dests]. *)
Definition copies_to {A} (dests : list Path) (m : M A) : Prop :=
  when_ok (fun tr => forall d, In d dests -> exists src, In (Copy src d) tr)
          m.

(** The three commands of the kernel stage of a cell. *)
Definition kernel_commands (h : Host) (sel4_dir : Path)
           (board : BoardInfo) (config : ConfigInfo) : list string :=
  match config_str board config with
  | Some flags =>
      [ configure_cmd h sel4_dir
          (cell_build_dir "sel4" board config // "install")
          (cell_build_dir "sel4" board config // "build") flags;
        ("cmake --build "
           ++ path_str (absolute h (cell_build_dir "sel4" board config
                                      // "build")))%string;
        ("cmake --install "
           ++ path_str (absolute h (cell_build_dir "sel4" board config
                                      // "build")))%string ]
  | None => []
  end.

(** The six commands of a cell. *)
Definition cell_commands (h : Host) (sel4_dir : Path)
           (board : BoardInfo) (config : ConfigInfo) : list string :=
  kernel_commands h sel4_dir board config
    ++ [ elf_cmd h "loader" (cell_sdk board config)
           (cell_build_dir "loader" board config) board
           (loader_defines board);
         elf_cmd h "monitor" (cell_sdk board config)
           (cell_build_dir "monitor" board config) board [];
         lib_cmd h "libmicrokit" (cell_sdk board config)
           (cell_build_dir "libmicrokit" board config) board ].

(** The commands of the whole matrix, board by board, config by config. *)
Definition matrix_commands (h : Host) (sel4_dir : Path) : list string :=
  flat_map
    (fun board =>
       flat_map (fun config => cell_commands h sel4_dir board config)
                SUPPORTED_CONFIGS)
    SUPPORTED_BOARDS.

(** The commands that test, build and strip the packaged tool. *)
Definition tool_commands (h : Host) (target_triple : string) : list string :=
  [ (path_str (executable h) ++ " -m unittest discover -s tool -v")%string;
    (path_str (ENV_BIN_DIR h // "pyoxidizer")
       ++ " build --release --path tool --target-triple "
       ++ target_triple)%string;
    ("strip "
       ++ path_str ["."; "tool"; "build"; target_triple; "release";
                    "install"; "microkit"])%string ].

Definition doc_command : string :=
  ("pandoc docs/manual.md -o "
     ++ path_str (root_dir // "doc" // "microkit_user_manual.pdf"))%string.

(** The target triple [main] builds the tool for. *)
Definition chosen_triple (h : Host) (arg : option string) : string :=
  match arg with
  | Some t => t
  | None =>
      match get_tool_target_triple (host_system h) (host_machine h) with
      | Ok t => t
      | Raise _ => EmptyString
      end
  end.

(** What [main] has done, after the history [hist], when it looks
    whether the packaged tool is there: the directories, the copy of the
    license and the staging of [LICENSES/]. *)
Definition before_tool (h : Host) (hist : list Action) : list Action :=
  map Mkdir dir_structure
    ++ Copy ["LICENSE.md"] root_dir
    :: snd (stage_tree h ["LICENSES"] (root_dir // "LICENSES")
              (hist ++ map Mkdir dir_structure
                    ++ [Copy ["LICENSE.md"] root_dir])).

(** The five files every cell stages at fixed places. *)
Definition cell_artifacts (board : BoardInfo) (config : ConfigInfo)
  : list Path :=
  [ cell_sdk board config // "elf" // "sel4.elf";
    cell_sdk board config // "elf" // "loader.elf";
    cell_sdk board config // "elf" // "monitor.elf";
    cell_sdk board config // "lib" // "libmicrokit.a";
    cell_sdk board config // "lib" // "microkit.ld" ].

(** ** The last thing done to a path *)

(** The action removes [p], copies to [p] or sets the mode of [p]. *)
Definition touches (p : Path) (a : Action) : bool :=
  match a with
  | Unlink q | Chmod q _ | Copy _ q => path_eqb p q
  | _ => false
  end.

(** The last action of a trace that touches [p]. *)
Definition last_touch (p : Path) (tr : list Action) : option Action :=
  fold_left (fun acc a => if touches p a then Some a else acc) tr None.

(** ** The part of the tree a cell works in *)



(** The action leaves the packaged tool alone. *)
Definition spares_tool (a : Action) : Prop :=
  match a with
  | Unlink p | Chmod p _ | Copy _ p => p <> tool_target
  | _ => True
  end.


(** [last_touch] with the touch seen so far. *)
Definition scan (p : Path) (acc : option Action) (tr : list Action)
  : option Action :=
  fold_left (fun acc a => if touches p a then Some a else acc) tr acc.


(** ** Two more hosts *)

(** A host the tool cannot be packaged for. *)
Definition windows_host : Host :=
  {| cwd := [EmptyString; "work"];
     home_of :=
       fun user =>
         if String.eqb user "" then Some [EmptyString; "home"; "dev"]
         else None;
     executable := [EmptyString; "usr"; "bin"; "python3"];
     host_system := "Windows";
     host_machine := "AMD64";
     system_status := fun _ _ => 0%Z;
     path_exists := fun _ _ => true;
     path_is_file := fun _ _ => true;
     path_rglob := fun _ p => [p // "a.h"] |}.

(** A host on which everything is there already, the packaged tool
    too, and every command succeeds. *)
Definition host_with_tool : Host :=
  {| cwd := [EmptyString; "work"];
     home_of :=
       fun user =>
         if String.eqb user "" then Some [EmptyString; "home"; "dev"]
         else None;
     executable := [EmptyString; "usr"; "bin"; "python3"];
     host_system := "Linux";
     host_machine := "x86_64";
     system_status := fun _ _ => 0%Z;
     path_exists := fun _ _ => true;
     path_is_file := fun _ _ => true;
     path_rglob := fun _ p => [p // "a.h"] |}.


(** ** Directories are there before files are put into them *)

(** The directory a copy to [d] writes into: [d] itself for the root of
    the release tree, the one destination that is a directory, and the
    parent of [d] otherwise. *)
Definition target_dir (d : Path) : Path :=
  if path_eqb d root_dir then d else parent d.

(** The action makes neither the [elf] nor the [lib] directory of the
    cell: it is no [mkdir] of one of them or of a path below. *)
Definition leaves_elf_lib (board : BoardInfo) (config : ConfigInfo)
           (a : Action) : Prop :=
  match a with
  | Mkdir q =>
      ~ under (cell_sdk board config // "elf") q
      /\ ~ under (cell_sdk board config // "lib") q
  | _ => True
  end.

(** Every copy of [tr] writes into a directory that exists: [made] or an
    earlier [mkdir] of [tr] names that directory or a path below it
    ([mkdir] creates the parents too). *)
Fixpoint prepared (made : list Path) (tr : list Action) : Prop :=
  match tr with
  | [] => True
  | Mkdir p :: tr' => prepared (p :: made) tr'
  | Copy _ d :: tr' =>
      (exists q, In q made /\ under (target_dir d) q) /\ prepared made tr'
  | _ :: tr' => prepared made tr'
  end.

End MoreProps.

(* ================================================================== *)
(** * Theorems: the kernel option list *)
(* ================================================================== *)

Module OptionFacts.
Import Options Props Fixtures.

Lemma insert_perm : forall x l s,
  insert x l = Some s -> Permutation (x :: l) s.
Proof.
  intros x l; induction l as [|y l IH]; intros s H; simpl in H.
  - injection H as <-. apply Permutation_refl.
  - destruct (tuple_lt y x) as [[|]|]; try discriminate.
    + destruct (insert x l) as [s'|] eqn:E; try discriminate.
      injection H as <-.
      apply perm_trans with (y :: x :: l); [apply perm_swap|].
      apply perm_skip, IH; reflexivity.
    + injection H as <-. apply Permutation_refl.
Qed.

Lemma sorted_perm : forall l s, sorted l = Some s -> Permutation l s.
Proof.
  induction l as [|x l IH]; intros s H; simpl in H.
  - injection H as <-. constructor.
  - destruct (sorted l) as [s'|]; try discriminate.
    apply perm_trans with (x :: s').
    + apply perm_skip, IH; reflexivity.
    + apply insert_perm; assumption.
Qed.

Lemma leb_refl_str : forall s, String.leb s s = true.
Proof.
  intros s. unfold String.leb.
  assert (H : String.compare s s = Eq).
  { induction s as [|c s IH]; simpl; [reflexivity|].
    rewrite IH.
    assert (Hc : Ascii.compare c c = Eq).
    { unfold Ascii.compare. apply N.compare_refl. }
    rewrite Hc; reflexivity. }
  rewrite H; reflexivity.
Qed.

Lemma ltb_leb : forall a b, String.ltb a b = true -> String.leb a b = true.
Proof.
  intros a b. unfold String.ltb, String.leb.
  destruct (String.compare a b); congruence.
Qed.

Lemma ltb_false_leb : forall a b,
  String.ltb a b = false -> String.leb b a = true.
Proof.
  intros a b. unfold String.ltb, String.leb.
  rewrite (String.compare_antisym a b).
  destruct (String.compare b a); simpl; congruence.
Qed.

Lemma tuple_lt_true_le : forall y x,
  tuple_lt y x = Some true -> key_le y x.
Proof.
  intros [ky vy] [kx vx]; unfold tuple_lt, key_le; simpl.
  destruct (String.eqb_spec ky kx) as [->|Hne].
  - intros _. apply leb_refl_str.
  - intros H. injection H as H. apply ltb_leb; assumption.
Qed.

Lemma tuple_lt_false_le : forall y x,
  tuple_lt y x = Some false -> key_le x y.
Proof.
  intros [ky vy] [kx vx]; unfold tuple_lt, key_le; simpl.
  destruct (String.eqb_spec ky kx) as [->|Hne].
  - intros _. apply leb_refl_str.
  - intros H. injection H as H. apply ltb_false_leb; assumption.
Qed.

Lemma insert_hd : forall x l s a,
  insert x l = Some s -> HdRel key_le a l -> key_le a x -> HdRel key_le a s.
Proof.
  intros x [|y l] s a H Hl Hx; simpl in H.
  - injection H as <-. constructor; assumption.
  - destruct (tuple_lt y x) as [[|]|]; try discriminate.
    + destruct (insert x l); try discriminate.
      injection H as <-. inversion Hl; subst. constructor; assumption.
    + injection H as <-. constructor; assumption.
Qed.

Lemma insert_Sorted : forall x l s,
  Sorted key_le l -> insert x l = Some s -> Sorted key_le s.
Proof.
  intros x l; induction l as [|y l IH]; intros s Hl H; simpl in H.
  - injection H as <-. repeat constructor.
  - destruct (tuple_lt y x) as [[|]|] eqn:Hlt; try discriminate.
    + destruct (insert x l) as [s'|] eqn:E; try discriminate.
      injection H as <-. inversion Hl; subst.
      constructor.
      * apply IH; [assumption|reflexivity].
      * eapply insert_hd; eauto. apply tuple_lt_true_le; assumption.
    + injection H as <-. constructor; [assumption|].
      constructor. apply tuple_lt_false_le; assumption.
Qed.

Lemma sorted_Sorted : forall l s, sorted l = Some s -> Sorted key_le s.
Proof.
  induction l as [|x l IH]; intros s H; simpl in H.
  - injection H as <-. constructor.
  - destruct (sorted l) as [s'|]; try discriminate.
    eapply insert_Sorted; [apply IH; reflexivity|eassumption].
Qed.

Lemma str_compare_trans : forall a b c,
  String.compare a b <> Gt -> String.compare b c <> Gt ->
  String.compare a c <> Gt.
Proof.
  induction a as [|x a IH]; intros [|y b] [|z c] Hab Hbc; simpl in *;
    try congruence.
  unfold Ascii.compare in *.
  destruct (N.compare_spec (N_of_ascii x) (N_of_ascii y)) as [Exy|Lxy|Gxy];
    destruct (N.compare_spec (N_of_ascii y) (N_of_ascii z)) as [Eyz|Lyz|Gyz];
    try congruence;
    destruct (N.compare_spec (N_of_ascii x) (N_of_ascii z)) as [Exz|Lxz|Gxz];
    try congruence; try lia.
  eapply IH; eassumption.
Qed.

Lemma key_le_trans : forall a b c, key_le a b -> key_le b c -> key_le a c.
Proof.
  intros a b c. unfold key_le, String.leb.
  pose proof (str_compare_trans (fst a) (fst b) (fst c)) as T.
  destruct (String.compare (fst a) (fst b)),
           (String.compare (fst b) (fst c)),
           (String.compare (fst a) (fst c));
    intros; try reflexivity; try discriminate;
    exfalso; apply T; congruence.
Qed.

(** The sorted list is ordered by option name, every entry before all the
    entries that follow it. *)
Lemma sorted_StronglySorted : forall l s,
  sorted l = Some s -> StronglySorted key_le s.
Proof.
  intros l s H. apply Sorted_StronglySorted.
  - intros a b c. apply key_le_trans.
  - eapply sorted_Sorted; eassumption.
Qed.

Lemma entries_for_perm : forall k l l',
  Permutation l l' -> Permutation (entries_for k l) (entries_for k l').
Proof.
  intros k l l' H; unfold entries_for.
  induction H; simpl.
  - constructor.
  - destruct (String.eqb k (fst x)); [apply perm_skip|]; assumption.
  - destruct (String.eqb k (fst x)), (String.eqb k (fst y));
      try apply perm_swap; try apply Permutation_refl.
  - eapply perm_trans; eassumption.
Qed.

Lemma entries_for_absent : forall k (d : KERNEL_OPTIONS),
  ~ In k (keys d) -> entries_for k d = [].
Proof.
  intros k d; induction d as [|[k' v] d IH]; intros H; simpl; [reflexivity|].
  destruct (String.eqb_spec k k') as [->|Hne].
  - exfalso; apply H; left; reflexivity.
  - apply IH. intros Hin; apply H; right; assumption.
Qed.

Lemma entries_for_get : forall k v (d : KERNEL_OPTIONS),
  wf_dict d -> get k d = Some v -> entries_for k d = [(k, v)].
Proof.
  intros k v d; induction d as [|[k' v'] d IH]; intros Hwf Hget;
    simpl in *; [discriminate|].
  inversion Hwf as [|? ? Hnotin Hwf']; subst.
  destruct (String.eqb_spec k k') as [->|Hne].
  - injection Hget as ->. f_equal. apply entries_for_absent; assumption.
  - apply IH; assumption.
Qed.

Lemma get_absent : forall k (d : KERNEL_OPTIONS),
  get k d = None -> ~ In k (keys d).
Proof.
  intros k d; induction d as [|[k' v] d IH]; simpl; intros H; [tauto|].
  destruct (String.eqb_spec k k') as [->|Hne]; [discriminate|].
  intros [Heq|Hin]; [congruence|]. apply IH; assumption.
Qed.

Lemma entries_for_config_args : forall k board config,
  entries_for k (config_args board config)
  = entries_for k (board_kernel_options board)
      ++ entries_for k (config_kernel_options config).
Proof.
  intros. unfold config_args, items, entries_for. apply filter_app.
Qed.

(** No board and config of the catalogue set the same option. *)
Lemma catalogue_options_disjoint : forall board config k,
  In board SUPPORTED_BOARDS -> In config SUPPORTED_CONFIGS ->
  ~ shared_key k (board_kernel_options board) (config_kernel_options config).
Proof.
  intros board config k Hb Hc [H1 H2].
  simpl in Hc.
  destruct Hc as [<-|[<-|[]]]; simpl in H2; [tauto|].
  simpl in Hb.
  repeat (destruct Hb as [<-|Hb];
          [simpl in H1; intuition (subst; discriminate)|]).
  destruct Hb.
Qed.

(** An option set by one of the two maps only has exactly one entry. *)
Lemma unshared_key_rendered_once : forall board config k v args,
  wf_dict (board_kernel_options board) ->
  wf_dict (config_kernel_options config) ->
  (get k (board_kernel_options board) = Some v
   /\ get k (config_kernel_options config) = None)
  \/ (get k (board_kernel_options board) = None
      /\ get k (config_kernel_options config) = Some v) ->
  sorted (config_args board config) = Some args ->
  entries_for k args = [(k, v)].
Proof.
  intros board config k v args Hwb Hwc Hget Hs.
  apply sorted_perm in Hs.
  apply (entries_for_perm k) in Hs.
  rewrite entries_for_config_args in Hs.
  destruct Hget as [[Hb Hc]|[Hb Hc]].
  - rewrite (entries_for_get _ _ _ Hwb Hb) in Hs.
    rewrite (entries_for_absent _ _ (get_absent _ _ Hc)) in Hs.
    simpl in Hs. apply Permutation_length_1_inv in Hs. exact Hs.
  - rewrite (entries_for_get _ _ _ Hwc Hc) in Hs.
    rewrite (entries_for_absent _ _ (get_absent _ _ Hb)) in Hs.
    simpl in Hs. apply Permutation_length_1_inv in Hs. exact Hs.
Qed.

(** C2 (as the code has it): the items of the board and of the config are
    concatenated and sorted, nothing is merged.  When both maps set an
    option [k] and the sort succeeds, the sorted list holds two entries for
    [k], one with the value of the board and one with the value of the
    config, and both are rendered into the flag list. *)
Theorem shared_key_rendered_twice : forall board config k vb vc args,
  wf_dict (board_kernel_options board) ->
  wf_dict (config_kernel_options config) ->
  get k (board_kernel_options board) = Some vb ->
  get k (config_kernel_options config) = Some vc ->
  sorted (config_args board config) = Some args ->
  Permutation (entries_for k args) [(k, vb); (k, vc)]
  /\ config_strs board config = Some (map render args)
  /\ In (render (k, vb)) (map render args)
  /\ In (render (k, vc)) (map render args).
Proof.
  intros board config k vb vc args Hwb Hwc Hb Hc Hs.
  assert (Hp : Permutation (entries_for k args) [(k, vb); (k, vc)]).
  { apply Permutation_sym.
    pose proof (entries_for_perm k _ _ (sorted_perm _ _ Hs)) as Hp.
    rewrite entries_for_config_args in Hp.
    rewrite (entries_for_get _ _ _ Hwb Hb) in Hp.
    rewrite (entries_for_get _ _ _ Hwc Hc) in Hp.
    exact Hp. }
  assert (Hin : forall it, In it [(k, vb); (k, vc)] -> In it args).
  { intros it Hit.
    apply (Permutation_in _ (Permutation_sym Hp)) in Hit.
    unfold entries_for in Hit. apply filter_In in Hit. tauto. }
  split; [exact Hp|].
  split; [unfold config_strs; rewrite Hs; reflexivity|].
  split; apply in_map, Hin; simpl; auto.
Qed.

(** The theorem at the board and config that both set [KernelIsMCS]. *)
Lemma shared_key_rendered_twice_witness :
  Permutation
    (entries_for "KernelIsMCS"
       [("KernelIsMCS", VBool false); ("KernelIsMCS", VBool true)])
    [("KernelIsMCS", VBool true); ("KernelIsMCS", VBool false)]
  /\ config_strs clash_board clash_config
     = Some (map render
               [("KernelIsMCS", VBool false); ("KernelIsMCS", VBool true)])
  /\ In (render ("KernelIsMCS", VBool true))
        (map render
           [("KernelIsMCS", VBool false); ("KernelIsMCS", VBool true)])
  /\ In (render ("KernelIsMCS", VBool false))
        (map render
           [("KernelIsMCS", VBool false); ("KernelIsMCS", VBool true)]).
Proof.
  apply (shared_key_rendered_twice clash_board clash_config).
  - constructor; [simpl; tauto|constructor].
  - constructor; [simpl; tauto|constructor].
  - reflexivity.
  - reflexivity.
  - reflexivity.
Defined.

(** C2 (as stated) fails: the board and the config both set [KernelIsMCS];
    the flag list passed to the configure command holds two entries for
    it, and the value of the board ([ON]) is among them, after the value
    of the config. *)
Lemma config_does_not_override_board :
  get "KernelIsMCS" (board_kernel_options clash_board) = Some (VBool true)
  /\ get "KernelIsMCS" (config_kernel_options clash_config)
     = Some (VBool false)
  /\ config_strs clash_board clash_config
     = Some ["-DKernelIsMCS=OFF"; "-DKernelIsMCS=ON"]
  /\ config_str clash_board clash_config
     = Some "-DKernelIsMCS=OFF -DKernelIsMCS=ON".
Proof.
  repeat split; reflexivity.
Qed.

(** C4: the option-merge example renders to the expected flag string; in
    general the entries are ordered by option name, [True] renders as
    [ON], [False] as [OFF], and a string value is rendered as it is. *)
Theorem option_merge_example :
  config_str example_board example_config
  = Some "-DKernelDebugBuild=ON -DKernelIsMCS=ON -DKernelPlatform=zcu102"
  /\ (forall board config,
        match sorted (config_args board config) with
        | Some args =>
            StronglySorted key_le args
            /\ Permutation (config_args board config) args
            /\ config_strs board config = Some (map render args)
        | None => config_strs board config = None
        end)
  /\ (forall k, render (k, VBool true) = ("-D" ++ k ++ "=ON")%string)
  /\ (forall k, render (k, VBool false) = ("-D" ++ k ++ "=OFF")%string)
  /\ (forall k s, render (k, VStr s) = ("-D" ++ k ++ "=" ++ s)%string).
Proof.
  split; [reflexivity|].
  split.
  - intros board config. unfold config_strs.
    destruct (sorted (config_args board config)) as [args|] eqn:Hs;
      [|reflexivity].
    split; [eapply sorted_StronglySorted; eassumption|].
    split; [apply sorted_perm; assumption|reflexivity].
  - repeat split; reflexivity.
Qed.

End OptionFacts.

(* ================================================================== *)
(** * Theorems: the tar metadata filter *)
(* ================================================================== *)

Module TarFacts.
Import Tar Props Fixtures.

Local Open Scope Z_scope.

(** The bits kept by [mode & ~0o777] are the bits above the ninth. *)
Lemma with_perm_high_bits : forall m perm,
  with_perm m perm = Z.lor (Z.shiftl (Z.shiftr m 9) 9) perm.
Proof.
  intros m perm. unfold with_perm. f_equal.
  change (octal [7%nat; 7%nat; 7%nat]) with (Z.ones 9).
  rewrite <- Z.ldiff_land. apply Z.ldiff_ones_r. lia.
Qed.

Lemma with_perm_same_high : forall m1 m2 perm,
  Z.shiftr m1 9 = Z.shiftr m2 9 -> with_perm m1 perm = with_perm m2 perm.
Proof.
  intros m1 m2 perm H. rewrite !with_perm_high_bits, H. reflexivity.
Qed.

Lemma tar_filter_normalized : forall t,
  (isfile t || isdir t)%bool = true -> tar_filter t = Ok (normalized t).
Proof.
  intros t H. unfold tar_filter, normalized, isfile, isdir in *.
  destruct t as [n m u g s mt ty ln un gn dj dn px]; simpl in *.
  destruct ty; simpl in *; try discriminate;
    try destruct (contains "/bin/" n); reflexivity.
Qed.

Lemma normalized_same_payload : forall t1 t2,
  same_payload t1 t2 -> normalized t1 = normalized t2.
Proof.
  intros t1 t2 (Hn & Ht & Hs & Hl & Hdj & Hdn & Hm).
  unfold normalized, isdir.
  rewrite Hn, Ht, Hs, Hl, Hdj, Hdn.
  f_equal. apply with_perm_same_high; assumption.
Qed.

(** What the filter does hide: two entries that agree on the name, the
    kind (regular file or directory), the size, the link target, the
    device numbers and the mode bits above the nine permission bits are
    filtered to the same entry, whatever their uid, gid, owner and group
    names, pax headers, modification time and permission bits were; in
    the result uid and gid are 0, both names are [microkit], the pax
    headers are empty and the time is [MICROKIT_EPOCH]. *)
Theorem tar_filter_hides_host_metadata : forall t1 t2,
  same_payload t1 t2 ->
  (isfile t1 || isdir t1)%bool = true ->
  tar_filter t1 = tar_filter t2
  /\ exists t', tar_filter t1 = Ok t'
       /\ uid t' = 0 /\ gid t' = 0
       /\ uname t' = "microkit"%string /\ gname t' = "microkit"%string
       /\ pax_headers t' = [] /\ mtime t' = MICROKIT_EPOCH.
Proof.
  intros t1 t2 Hp Hk.
  assert (Hk2 : (isfile t2 || isdir t2)%bool = true).
  { destruct Hp as (_ & Ht & _). unfold isfile, isdir in *.
    rewrite <- Ht; assumption. }
  rewrite (tar_filter_normalized t1 Hk), (tar_filter_normalized t2 Hk2).
  split.
  - f_equal. apply normalized_same_payload; assumption.
  - exists (normalized t1). repeat split; reflexivity.
Qed.

(** The lemma at the packaged tool as two different hosts see it. *)
Lemma tar_filter_hides_host_metadata_witness :
  tar_filter tool_entry_a = tar_filter tool_entry_b
  /\ exists t', tar_filter tool_entry_a = Ok t'
       /\ uid t' = 0 /\ gid t' = 0
       /\ uname t' = "microkit"%string /\ gname t' = "microkit"%string
       /\ pax_headers t' = [] /\ mtime t' = MICROKIT_EPOCH.
Proof.
  apply (tar_filter_hides_host_metadata tool_entry_a tool_entry_b).
  - repeat split; reflexivity.
  - reflexivity.
Defined.

(** C3: the filter lets a mode bit of the build host through.  Two
    directory entries with the same name and the same kind, which differ
    in the set-gid bit only (a directory made below a set-gid directory
    inherits the bit), are filtered to entries with the modes [0o557]
    and [0o2557]: [mode & ~0o777 | perm] rewrites the nine permission
    bits and keeps set-uid, set-gid and sticky as the host has them,
    against the filter's own description (nothing of the build
    environment in the archive). *)
Lemma tar_filter_keeps_high_mode_bits :
  name plain_dir = name setgid_dir
  /\ type plain_dir = type setgid_dir
  /\ isdir plain_dir = true
  /\ option_map mode
       (match tar_filter plain_dir with Ok t => Some t | Raise _ => None end)
     = Some (octal [0; 5; 5; 7]%nat)
  /\ option_map mode
       (match tar_filter setgid_dir with Ok t => Some t | Raise _ => None end)
     = Some (octal [2; 5; 5; 7]%nat)
  /\ tar_filter plain_dir <> tar_filter setgid_dir.
Proof.
  repeat split; try reflexivity.
  intros H. discriminate H.
Qed.

(** An archive writer that passes every entry through the filter writes
    the same metadata for two trees whose entries agree pairwise. *)
Lemma tar_filter_map_same_payload : forall l1 l2,
  Forall2 same_payload l1 l2 ->
  Forall (fun t => (isfile t || isdir t)%bool = true) l1 ->
  map tar_filter l1 = map tar_filter l2.
Proof.
  intros l1 l2 H; induction H as [|t1 t2 l1 l2 Hp _ IH]; intros Hk;
    [reflexivity|].
  inversion Hk as [|? ? Hk1 Hk']; subst. simpl.
  rewrite (IH Hk'). f_equal.
  assert (Hk2 : (isfile t2 || isdir t2)%bool = true).
  { destruct Hp as (_ & Ht & _). unfold isfile, isdir in *.
    rewrite <- Ht; assumption. }
  rewrite (tar_filter_normalized t1 Hk1), (tar_filter_normalized t2 Hk2).
  f_equal. apply normalized_same_payload; assumption.
Qed.

(** C9: the filter raises for every entry that is neither a regular file
    nor a directory, and returns an entry for every regular file and every
    directory. *)
Theorem tar_filter_rejects_other_kinds : forall t,
  ((isfile t || isdir t)%bool = false ->
   tar_filter t = Raise "AssertionError")
  /\ ((isfile t || isdir t)%bool = true ->
      exists t', tar_filter t = Ok t')
  /\ (In (type t) [LNKTYPE; SYMTYPE; CHRTYPE; BLKTYPE; FIFOTYPE] ->
      is_raise (tar_filter t) = true).
Proof.
  intros t. split; [|split].
  - intros H. unfold tar_filter.
    change (isfile (set_owner t)) with (isfile t).
    change (isdir (set_owner t)) with (isdir t).
    rewrite H. reflexivity.
  - intros H. exists (normalized t). apply tar_filter_normalized; assumption.
  - intros H. unfold tar_filter, isfile, isdir; simpl.
    simpl in H.
    destruct H as [<-|[<-|[<-|[<-|[<-|[]]]]]]; reflexivity.
Qed.

(** The theorem at a symbolic link. *)
Lemma tar_filter_rejects_other_kinds_witness :
  tar_filter symlink_entry = Raise "AssertionError".
Proof.
  apply (proj1 (tar_filter_rejects_other_kinds symlink_entry)).
  reflexivity.
Defined.

End TarFacts.

(* ================================================================== *)
(** * Theorems: host triple detection *)
(* ================================================================== *)

Module HostFacts.

(** C8: the triple is fixed for a Linux host and for Darwin on x86_64 and
    arm64; every other host system and every other Darwin architecture
    raises. *)
Theorem get_tool_target_triple_cases : forall host_system host_arch,
  (host_system = "Linux" ->
   get_tool_target_triple host_system host_arch
   = Ok "x86_64-unknown-linux-musl")
  /\ (host_system = "Darwin" -> host_arch = "x86_64" ->
      get_tool_target_triple host_system host_arch
      = Ok "x86_64-apple-darwin")
  /\ (host_system = "Darwin" -> host_arch = "arm64" ->
      get_tool_target_triple host_system host_arch
      = Ok "aarch64-apple-darwin")
  /\ (host_system = "Darwin" ->
      host_arch <> "x86_64" -> host_arch <> "arm64" ->
      exists msg, get_tool_target_triple host_system host_arch = Raise msg)
  /\ (host_system <> "Linux" -> host_system <> "Darwin" ->
      exists msg, get_tool_target_triple host_system host_arch = Raise msg).
Proof.
  intros host_system host_arch. unfold get_tool_target_triple.
  repeat split.
  - intros ->. reflexivity.
  - intros -> ->. reflexivity.
  - intros -> ->. reflexivity.
  - intros -> H1 H2. simpl.
    destruct (String.eqb_spec host_arch "x86_64"); [contradiction|].
    destruct (String.eqb_spec host_arch "arm64"); [contradiction|].
    eexists; reflexivity.
  - intros H1 H2.
    destruct (String.eqb_spec host_system "Linux"); [contradiction|].
    destruct (String.eqb_spec host_system "Darwin"); [contradiction|].
    eexists; reflexivity.
Qed.

(** The theorem at a Windows host. *)
Lemma get_tool_target_triple_cases_witness :
  exists msg, get_tool_target_triple "Windows" "AMD64" = Raise msg.
Proof.
  apply (proj2 (proj2 (proj2 (proj2
           (get_tool_target_triple_cases "Windows" "AMD64")))));
    intros H; discriminate H.
Defined.

End HostFacts.

(* ================================================================== *)
(** * Lemmas: computations and their traces *)
(* ================================================================== *)

Module TraceFacts.
Import Build Props.

Section Always.
Variable D : list Action -> Prop.
Hypothesis D_nil : D [].
Hypothesis D_app : forall l1 l2, D l1 -> D l2 -> D (l1 ++ l2).

Lemma always_ret : forall A (a : A), always D (ret a).
Proof. intros A a hist; exact D_nil. Qed.

Lemma always_raise : forall A msg, always D (@raise A msg).
Proof. intros A msg hist; exact D_nil. Qed.

Lemma always_lift : forall A (r : result A), always D (lift r).
Proof. intros A r hist; exact D_nil. Qed.

Lemma always_bind : forall A B (m : M A) (f : A -> M B),
  always D m -> (forall a, always D (f a)) -> always D (bind m f).
Proof.
  intros A B m f Hm Hf hist. unfold bind.
  specialize (Hm hist).
  destruct (m hist) as [[a|msg] e1]; simpl in *; [|exact Hm].
  specialize (Hf a (hist ++ e1)).
  destruct (f a (hist ++ e1)) as [r e2]; simpl in *.
  apply D_app; assumption.
Qed.

Lemma always_emit : forall a, D [a] -> always D (emit a).
Proof. intros a H hist; exact H. Qed.

Lemma always_system : forall h cmd,
  (forall status, D [System cmd status]) -> always D (system h cmd).
Proof. intros h cmd H hist; apply H. Qed.

Lemma always_exists : forall h p, always D (exists_ h p).
Proof. intros h p hist; exact D_nil. Qed.

Lemma always_is_file : forall h p, always D (is_file h p).
Proof. intros h p hist; exact D_nil. Qed.

Lemma always_rglob : forall h p, always D (rglob h p).
Proof. intros h p hist; exact D_nil. Qed.

Lemma always_assert : forall b, always D (py_assert b).
Proof. intros [|] hist; exact D_nil. Qed.

Lemma always_for_each : forall A (l : list A) (body : A -> M unit),
  (forall x, In x l -> always D (body x)) -> always D (for_each l body).
Proof.
  intros A l body; induction l as [|x l IH]; intros H; simpl.
  - apply always_ret.
  - apply always_bind; [apply H; left; reflexivity|].
    intros _. apply IH. intros y Hy. apply H; right; assumption.
Qed.

End Always.

Section Each.
Variable P : Action -> Prop.

Lemma each_bind : forall A B (m : M A) (f : A -> M B),
  always (Forall P) m -> (forall a, always (Forall P) (f a)) ->
  always (Forall P) (bind m f).
Proof.
  intros. apply always_bind; auto. intros; apply Forall_app; auto.
Qed.

Lemma each_for_each : forall A (l : list A) (body : A -> M unit),
  (forall x, In x l -> always (Forall P) (body x)) ->
  always (Forall P) (for_each l body).
Proof.
  intros. apply always_for_each; auto. intros; apply Forall_app; auto.
Qed.

Lemma each_emit : forall a, P a -> always (Forall P) (emit a).
Proof. intros a H hist. repeat constructor; assumption. Qed.

Lemma each_stage_tree : forall h source_dir dest_dir,
  (forall p rel,
     P (Mkdir (parent (dest_dir ++ rel))) /\ P (Unlink (dest_dir ++ rel))
     /\ P (Copy p (dest_dir ++ rel)) /\ P (Chmod (dest_dir ++ rel) o444)) ->
  always (Forall P) (stage_tree h source_dir dest_dir).
Proof.
  intros h source_dir dest_dir H. unfold stage_tree.
  apply each_bind; [apply always_rglob; constructor|].
  intros ps. apply each_for_each. intros p _.
  apply each_bind; [apply always_is_file; constructor|].
  intros [|]; simpl; [|apply always_ret; constructor].
  destruct (relative_to p source_dir) as [rel|];
    [|apply always_raise; constructor].
  destruct (H p rel) as (H1 & H2 & H3 & H4).
  unfold mkdir, unlink, copy, chmod.
  repeat (apply each_bind; [apply each_emit; assumption|intros _]).
  apply each_emit; assumption.
Qed.

End Each.

Lemma bind_ok : forall A B (m : M A) (f : A -> M B) hist a e1,
  m hist = (Ok a, e1) ->
  bind m f hist
  = (fst (f a (hist ++ e1)), e1 ++ snd (f a (hist ++ e1))).
Proof.
  intros A B m f hist a e1 H. unfold bind. rewrite H.
  destruct (f a (hist ++ e1)); reflexivity.
Qed.

Lemma bind_raise : forall A B (m : M A) (f : A -> M B) hist msg e1,
  m hist = (Raise msg, e1) -> bind m f hist = (Raise msg, e1).
Proof. intros A B m f hist msg e1 H. unfold bind. rewrite H. reflexivity. Qed.

Lemma for_each_mkdir : forall l hist,
  for_each l mkdir hist = (Ok tt, map Mkdir l).
Proof.
  induction l as [|p l IH]; intros hist; [reflexivity|].
  simpl for_each. erewrite bind_ok; [|reflexivity].
  rewrite IH. reflexivity.
Qed.

Lemma bind_inv : forall A B (m : M A) (f : A -> M B) hist,
  is_raise (fst (bind m f hist)) = false ->
  exists a e1,
    m hist = (Ok a, e1)
    /\ is_raise (fst (f a (hist ++ e1))) = false
    /\ snd (bind m f hist) = e1 ++ snd (f a (hist ++ e1)).
Proof.
  intros A B m f hist. unfold bind.
  destruct (m hist) as [[a|msg] e1]; [|intros H; discriminate H].
  intros H. exists a, e1.
  destruct (f a (hist ++ e1)) as [r e2]. simpl in *.
  split; [reflexivity|split; [exact H|reflexivity]].
Qed.

Lemma silent_stage_tree : forall h source_dir dest_dir,
  always (Forall silent) (stage_tree h source_dir dest_dir).
Proof.
  intros. apply each_stage_tree. intros; simpl; tauto.
Qed.

Lemma commands_silent : forall tr, Forall silent tr -> commands tr = [].
Proof.
  induction 1 as [|a tr Ha _ IH]; [reflexivity|].
  unfold commands in *; simpl. rewrite IH.
  destruct a; simpl in *; try reflexivity; contradiction.
Qed.

Lemma commands_app : forall t1 t2,
  commands (t1 ++ t2) = commands t1 ++ commands t2.
Proof. intros. unfold commands. apply flat_map_app. Qed.

Lemma checked_commands : forall h a cmd msg (tail : M unit),
  silent a -> always (Forall silent) tail ->
  forall hist,
    commands
      (snd ((emit a ;;
             r <- system h cmd ;;
             if negb (Z.eqb r 0) then raise msg else tail) hist))
    = [cmd].
Proof.
  intros h a cmd msg tail Ha Ht hist.
  unfold bind at 1 2. unfold emit, system. simpl.
  destruct (Z.eqb (system_status h (hist ++ [a]) cmd) 0); simpl.
  - specialize
      (Ht ((hist ++ [a])
             ++ [System cmd (system_status h (hist ++ [a]) cmd)])).
    destruct (tail _) as [r e]; simpl in *.
    apply commands_silent in Ht. unfold commands in *. simpl.
    rewrite Ht.
    destruct a; simpl in Ha; try contradiction; reflexivity.
  - unfold commands.
    destruct a; simpl in Ha; try contradiction; reflexivity.
Qed.

Ltac each_steps :=
  repeat first
    [ apply each_emit; simpl; tauto
    | apply silent_stage_tree
    | apply each_bind; [|intros ?] ].

(** The commands issued by the component builds. *)
Lemma elf_component_commands : forall h name board config defines hist,
  commands (snd (build_elf_component h name root_dir ["build"] board config
                   defines hist))
  = [elf_cmd h name (cell_sdk board config)
       (cell_build_dir name board config) board defines].
Proof.
  intros. unfold build_elf_component, mkdir. cbv zeta.
  apply checked_commands; [exact I|].
  unfold unlink, copy, chmod. each_steps.
Qed.

Lemma lib_component_commands : forall h name board config hist,
  commands (snd (build_lib_component h name root_dir ["build"] board config
                   hist))
  = [lib_cmd h name (cell_sdk board config)
       (cell_build_dir name board config) board].
Proof.
  intros. unfold build_lib_component, mkdir. cbv zeta.
  apply checked_commands; [exact I|].
  unfold unlink, copy, chmod. each_steps.
Qed.

End TraceFacts.

(* ================================================================== *)
(** * Theorems: the environment of the component builds *)
(* ================================================================== *)

Module ShellFacts.
Import Shell Build Props Fixtures TraceFacts.

Lemma str_app_assoc : forall a b c : string,
  ((a ++ b) ++ c = a ++ (b ++ c))%string.
Proof.
  induction a as [|x a IH]; intros b c; simpl; [reflexivity|].
  rewrite IH; reflexivity.
Qed.

Lemma plain_app : forall a b : string,
  plain (a ++ b)%string = plain a && plain b.
Proof.
  induction a as [|x a IH]; intros b; simpl; [reflexivity|].
  rewrite IH, andb_assoc; reflexivity.
Qed.

Lemma all_chars_app : forall f (a b : string),
  all_chars f (a ++ b)%string = all_chars f a && all_chars f b.
Proof.
  induction a as [|x a IH]; intros b; simpl; [reflexivity|].
  rewrite IH, andb_assoc; reflexivity.
Qed.

Lemma literal_not_space : forall c, literal c = true -> is_space c = false.
Proof.
  intros c H. unfold is_space. destruct (Ascii.eqb_spec c " "); [|reflexivity].
  subst c. discriminate H.
Qed.

Lemma simple_plain : forall s, simple s = true -> plain s = true.
Proof.
  induction s as [|c s IH]; intros H; [reflexivity|].
  unfold simple in *. cbn [all_chars] in H. apply andb_prop in H as [Hc Hs].
  cbn [plain]. rewrite (literal_not_space c Hc), (IH Hs). reflexivity.
Qed.

Lemma simple_understood : forall s, simple s = true -> understood s = true.
Proof.
  induction s as [|c s IH]; intros H; [reflexivity|].
  unfold simple, understood in *. cbn [all_chars] in *.
  apply andb_prop in H as [Hc Hs].
  rewrite Hc, orb_true_r. apply IH; exact Hs.
Qed.

Lemma understood_app : forall a b : string,
  understood a = true -> understood b = true ->
  understood (a ++ b)%string = true.
Proof.
  intros a b Ha Hb. unfold understood in *.
  rewrite all_chars_app, Ha, Hb. reflexivity.
Qed.

Lemma simple_concat : forall p,
  forallb simple p = true -> simple (path_str p) = true.
Proof.
  unfold path_str, join.
  induction p as [|x p IH]; intros H; [reflexivity|].
  simpl in H. apply andb_prop in H as [Hx Hp].
  destruct p as [|y p]; [exact Hx|].
  change (String.concat "/" (x :: y :: p))
    with (x ++ "/" ++ String.concat "/" (y :: p))%string.
  unfold simple in *. rewrite !all_chars_app, Hx, (IH Hp). reflexivity.
Qed.

Lemma simple_hex_digits : forall u,
  simple (NilEmpty.string_of_uint u) = true.
Proof.
  induction u; simpl; auto.
Qed.

Lemma simple_hex : forall n, simple (hex n) = true.
Proof.
  intros n. unfold hex.
  change ("0x" ++ NilZero.string_of_uint (N.to_hex_uint n))%string
    with (String "0" (String "x" (NilZero.string_of_uint (N.to_hex_uint n)))).
  change (simple (NilZero.string_of_uint (N.to_hex_uint n)) = true).
  unfold NilZero.string_of_uint.
  destruct (N.to_hex_uint n) eqn:E; try reflexivity;
    rewrite <- E; apply simple_hex_digits.
Qed.

Lemma forallb_simple_plain : forall p,
  forallb simple p = true -> forallb plain p = true.
Proof.
  induction p as [|x p IH]; intros H; [reflexivity|].
  simpl in *. apply andb_prop in H as [Hx Hp].
  rewrite (simple_plain x Hx), (IH Hp). reflexivity.
Qed.

(** What [plain_cell] gives for the cutting into words. *)
Lemma plain_cell_plain : forall h board config,
  plain_cell h board config ->
  forallb plain (cwd h) = true
  /\ plain (board_name board) = true
  /\ plain (config_name config) = true
  /\ plain (gcc_cpu board) = true.
Proof.
  intros h board config (Hc & Hb & Hg & Hcpu).
  apply andb_prop in Hb as [Hb _]. apply andb_prop in Hg as [Hg _].
  repeat split;
    auto using forallb_simple_plain, simple_plain.
Qed.

Lemma simple_cell_sdk : forall h board config,
  plain_cell h board config ->
  simple (path_str (absolute h (cell_sdk board config))) = true.
Proof.
  intros h board config (Hc & Hb & Hg & _).
  apply andb_prop in Hb as [Hb _]. apply andb_prop in Hg as [Hg _].
  unfold cell_sdk, root_dir, pdiv, absolute. simpl.
  apply simple_concat. rewrite forallb_app, Hc. simpl.
  rewrite Hb, Hg. reflexivity.
Qed.

Lemma simple_cell_build_dir : forall h name board config,
  plain_cell h board config -> simple name = true ->
  simple (path_str (absolute h (cell_build_dir name board config))) = true.
Proof.
  intros h name board config (Hc & Hb & Hg & _) Hn.
  apply andb_prop in Hb as [Hb _]. apply andb_prop in Hg as [Hg _].
  unfold cell_build_dir, pdiv, absolute. simpl.
  apply simple_concat. rewrite forallb_app, Hc. simpl.
  rewrite Hb, Hg, Hn. reflexivity.
Qed.

Ltac understood_pieces :=
  repeat (apply understood_app;
          [first [ reflexivity | apply simple_understood; assumption ]|]);
  first [ reflexivity | apply simple_understood; assumption ].

Lemma elf_cmd_understood : forall h name board config defines,
  plain_cell h board config -> simple name = true ->
  simple (defines_str defines) = true ->
  understood (elf_cmd h name (cell_sdk board config)
                (cell_build_dir name board config) board defines) = true.
Proof.
  intros h name board config defines Hcell Hn Hd.
  pose proof (simple_cell_sdk _ _ _ Hcell) as Hsdk.
  pose proof (simple_cell_build_dir _ _ _ _ Hcell Hn) as Hbd.
  destruct Hcell as (_ & Hb & _ & Hg). apply andb_prop in Hb as [Hb _].
  unfold elf_cmd. understood_pieces.
Qed.

Lemma lib_cmd_understood : forall h name board config,
  plain_cell h board config -> simple name = true ->
  understood (lib_cmd h name (cell_sdk board config)
                (cell_build_dir name board config) board) = true.
Proof.
  intros h name board config Hcell Hn.
  pose proof (simple_cell_sdk _ _ _ Hcell) as Hsdk.
  pose proof (simple_cell_build_dir _ _ _ _ Hcell Hn) as Hbd.
  destruct Hcell as (_ & _ & _ & Hg).
  unfold lib_cmd. understood_pieces.
Qed.

Lemma words_from_plain : forall a cur s,
  plain a = true ->
  words_from cur (a ++ s)%string = words_from (cur ++ a)%string s.
Proof.
  induction a as [|x a IH]; intros cur s H; simpl in *.
  - replace (cur ++ EmptyString)%string with cur; [reflexivity|].
    clear. induction cur as [|c cur IH]; simpl; [|rewrite <- IH]; reflexivity.
  - apply andb_prop in H as [Hx Ha].
    destruct (is_space x); [discriminate|].
    rewrite IH by assumption.
    rewrite str_app_assoc. reflexivity.
Qed.

(** A plain, non-empty word followed by a blank is the first word. *)
Lemma words_cons : forall c w rest,
  plain (String c w) = true ->
  words (String c w ++ String " " rest)%string = String c w :: words rest.
Proof.
  intros c w rest H. unfold words.
  rewrite (words_from_plain (String c w) EmptyString _ H).
  reflexivity.
Qed.

Lemma plain_concat : forall p,
  forallb plain p = true -> plain (path_str p) = true.
Proof.
  unfold path_str, join.
  induction p as [|x p IH]; intros H; [reflexivity|].
  simpl in H. apply andb_prop in H as [Hx Hp].
  destruct p as [|y p]; [exact Hx|].
  change (String.concat "/" (x :: y :: p))
    with (x ++ "/" ++ String.concat "/" (y :: p))%string.
  rewrite !plain_app, Hx, (IH Hp). reflexivity.
Qed.

Lemma plain_hex_digits : forall u, plain (NilEmpty.string_of_uint u) = true.
Proof.
  induction u; simpl; auto.
Qed.

Lemma plain_hex : forall n, plain (hex n) = true.
Proof.
  intros n. unfold hex. 
  change ("0x" ++ NilZero.string_of_uint (N.to_hex_uint n))%string
    with (String "0" (String "x" (NilZero.string_of_uint (N.to_hex_uint n)))).
  simpl. unfold NilZero.string_of_uint.
  destruct (N.to_hex_uint n) eqn:E; try reflexivity;
    rewrite <- E; apply plain_hex_digits.
Qed.

Lemma words_word : forall w rest,
  plain w = true -> w <> EmptyString ->
  words (w ++ String " " rest)%string = w :: words rest.
Proof.
  intros [|c w] rest Hp Hne; [congruence|].
  apply words_cons; assumption.
Qed.

Lemma words_kv : forall k v rest,
  plain k = true -> plain v = true -> k <> EmptyString ->
  words (k ++ (v ++ String " " rest))%string = (k ++ v)%string :: words rest.
Proof.
  intros k v rest Hk Hv Hne.
  rewrite <- str_app_assoc. apply words_word.
  - rewrite plain_app, Hk, Hv; reflexivity.
  - destruct k; [congruence|discriminate].
Qed.

Lemma absolute_relative : forall h x p,
  x <> EmptyString -> absolute h (x :: p) = cwd h ++ x :: p.
Proof.
  intros h x p H. unfold absolute, is_absolute.
  destruct x; [congruence|reflexivity].
Qed.

Lemma plain_cell_sdk : forall h board config,
  plain_cell h board config ->
  plain (path_str (absolute h (cell_sdk board config))) = true.
Proof.
  intros h board config Hcell.
  destruct (plain_cell_plain _ _ _ Hcell) as (Hc & Hb & Hg & _).
  unfold cell_sdk, root_dir, pdiv. simpl.
  rewrite absolute_relative by discriminate.
  apply plain_concat. rewrite forallb_app, Hc. simpl.
  rewrite Hb, Hg. reflexivity.
Qed.

Lemma plain_cell_build_dir : forall h name board config,
  plain_cell h board config -> plain name = true ->
  plain (path_str (absolute h (cell_build_dir name board config))) = true.
Proof.
  intros h name board config Hcell Hn.
  destruct (plain_cell_plain _ _ _ Hcell) as (Hc & Hb & Hg & _).
  unfold cell_build_dir, pdiv. simpl.
  rewrite absolute_relative by discriminate.
  apply plain_concat. rewrite forallb_app, Hc. simpl.
  rewrite Hb, Hg, Hn. reflexivity.
Qed.

Lemma elf_cmd_words : forall h name board config defines,
  plain_cell h board config -> plain name = true ->
  words (elf_cmd h name (cell_sdk board config)
           (cell_build_dir name board config) board defines)
  = ("BOARD=" ++ board_name board)%string
    :: ("BUILD_DIR="
          ++ path_str (absolute h (cell_build_dir name board config)))%string
    :: ("GCC_CPU=" ++ gcc_cpu board)%string
    :: ("SEL4_SDK=" ++ path_str (absolute h (cell_sdk board config)))%string
    :: words (defines_str defines ++ " make  -C " ++ name)%string.
Proof.
  intros h name board config defines Hcell Hn.
  pose proof (plain_cell_sdk _ _ _ Hcell) as Hsdk.
  pose proof (plain_cell_build_dir _ _ _ _ Hcell Hn) as Hbd.
  destruct (plain_cell_plain _ _ _ Hcell) as (_ & Hb & _ & Hg).
  unfold elf_cmd.
  etransitivity; [apply (words_kv "BOARD="); auto; discriminate|f_equal].
  etransitivity; [apply (words_kv "BUILD_DIR="); auto; discriminate|f_equal].
  etransitivity; [apply (words_kv "GCC_CPU="); auto; discriminate|f_equal].
  etransitivity; [apply (words_kv "SEL4_SDK="); auto; discriminate|].
  reflexivity.
Qed.

Lemma lib_cmd_words : forall h name board config,
  plain_cell h board config -> plain name = true ->
  words (lib_cmd h name (cell_sdk board config)
           (cell_build_dir name board config) board)
  = ("BUILD_DIR="
          ++ path_str (absolute h (cell_build_dir name board config)))%string
    :: ("GCC_CPU=" ++ gcc_cpu board)%string
    :: ("SEL4_SDK=" ++ path_str (absolute h (cell_sdk board config)))%string
    :: words ("make -C " ++ name)%string.
Proof.
  intros h name board config Hcell Hn.
  pose proof (plain_cell_sdk _ _ _ Hcell) as Hsdk.
  pose proof (plain_cell_build_dir _ _ _ _ Hcell Hn) as Hbd.
  destruct (plain_cell_plain _ _ _ Hcell) as (_ & Hb & _ & Hg).
  unfold lib_cmd.
  etransitivity; [apply (words_kv "BUILD_DIR="); auto; discriminate|f_equal].
  etransitivity; [apply (words_kv "GCC_CPU="); auto; discriminate|f_equal].
  etransitivity; [apply (words_kv "SEL4_SDK="); auto; discriminate|].
  reflexivity.
Qed.

(** C5 (as the code has it): in every cell whose names are made of
    characters the shell takes as they are (letters, digits and
    [_ - . / + , : @ % =]), the names of the board and of the config
    being path components, the loader and the monitor are built with
    [BOARD], [BUILD_DIR], [GCC_CPU] and [SEL4_SDK] in the environment, the
    loader with [LINK_ADDRESS] (the link address in hexadecimal) besides;
    the library is built with [BUILD_DIR], [GCC_CPU] and [SEL4_SDK] only.
    Each of the three builds runs exactly one command, and each command
    line is within what is modelled of the shell. *)
Theorem component_environments : forall h board config hist,
  plain_cell h board config ->
  map command_env
    (commands (snd (build_elf_component h "loader" root_dir ["build"]
                      board config (loader_defines board) hist)))
  = [ Some
        [ ("BOARD", board_name board);
          ("BUILD_DIR",
           path_str (absolute h (cell_build_dir "loader" board config)));
          ("GCC_CPU", gcc_cpu board);
          ("SEL4_SDK", path_str (absolute h (cell_sdk board config)));
          ("LINK_ADDRESS", hex (loader_link_address board)) ] ]
  /\ map command_env
       (commands (snd (build_elf_component h "monitor" root_dir ["build"]
                         board config [] hist)))
     = [ Some
           [ ("BOARD", board_name board);
             ("BUILD_DIR",
              path_str (absolute h (cell_build_dir "monitor" board config)));
             ("GCC_CPU", gcc_cpu board);
             ("SEL4_SDK", path_str (absolute h (cell_sdk board config))) ] ]
  /\ map command_env
       (commands (snd (build_lib_component h "libmicrokit" root_dir ["build"]
                         board config hist)))
     = [ Some
           [ ("BUILD_DIR",
              path_str
                (absolute h (cell_build_dir "libmicrokit" board config)));
             ("GCC_CPU", gcc_cpu board);
             ("SEL4_SDK", path_str (absolute h (cell_sdk board config))) ] ].
Proof.
  intros h board config hist Hcell.
  rewrite !elf_component_commands, lib_component_commands.
  unfold command_env. simpl map.
  assert (Hdef : (defines_str (loader_defines board)
                  = "LINK_ADDRESS=" ++ hex (loader_link_address board))%string).
  { unfold defines_str, loader_defines, join. reflexivity. }
  rewrite !elf_cmd_understood, lib_cmd_understood;
    try solve [ assumption | reflexivity ].
  2:{ rewrite Hdef. unfold simple. rewrite all_chars_app.
      change (simple (hex (loader_link_address board)) = true).
      apply simple_hex. }
  rewrite !elf_cmd_words, lib_cmd_words by (auto; reflexivity).
  split; [|split].
  - do 2 f_equal.
    replace (defines_str (loader_defines board) ++ " make  -C " ++ "loader")%string
      with (("LINK_ADDRESS=" ++ hex (loader_link_address board))
              ++ String " " "make  -C loader")%string.
    2:{ rewrite Hdef. rewrite !str_app_assoc. reflexivity. }
    rewrite words_word.
    + reflexivity.
    + rewrite plain_app. simpl. apply plain_hex.
    + discriminate.
  - reflexivity.
  - reflexivity.
Qed.

(** The theorem at the example cell. *)
Lemma component_environments_witness :
  map command_env
    (commands (snd (build_elf_component good_host "loader" root_dir ["build"]
                      example_board example_config
                      (loader_defines example_board) [])))
  = [ Some
        [ ("BOARD", board_name example_board);
          ("BUILD_DIR",
           path_str (absolute good_host
                       (cell_build_dir "loader" example_board
                          example_config)));
          ("GCC_CPU", gcc_cpu example_board);
          ("SEL4_SDK",
           path_str (absolute good_host
                       (cell_sdk example_board example_config)));
          ("LINK_ADDRESS", hex (loader_link_address example_board)) ] ]
  /\ map command_env
       (commands (snd (build_elf_component good_host "monitor" root_dir
                         ["build"] example_board example_config [] [])))
     = [ Some
           [ ("BOARD", board_name example_board);
             ("BUILD_DIR",
              path_str (absolute good_host
                          (cell_build_dir "monitor" example_board
                             example_config)));
             ("GCC_CPU", gcc_cpu example_board);
             ("SEL4_SDK",
              path_str (absolute good_host
                          (cell_sdk example_board example_config))) ] ]
  /\ map command_env
       (commands (snd (build_lib_component good_host "libmicrokit" root_dir
                         ["build"] example_board example_config [])))
     = [ Some
           [ ("BUILD_DIR",
              path_str (absolute good_host
                          (cell_build_dir "libmicrokit" example_board
                             example_config)));
             ("GCC_CPU", gcc_cpu example_board);
             ("SEL4_SDK",
              path_str (absolute good_host
                          (cell_sdk example_board example_config))) ] ].
Proof.
  apply (component_environments good_host example_board example_config []).
  repeat split; reflexivity.
Defined.

(** C5 (as stated) fails: the command that builds the library sets no
    [BOARD]. *)
Lemma library_build_gets_no_board :
  map command_env
    (commands (snd (build_lib_component good_host "libmicrokit" root_dir
                      ["build"] example_board example_config [])))
  = [ Some
        [ ("BUILD_DIR", "/work/build/zcu102/debug/libmicrokit");
          ("GCC_CPU", "cortex-a53");
          ("SEL4_SDK",
           "/work/release/microkit-sdk-1.2.6/board/zcu102/debug") ] ]
  /\ option_map (Options.get "BOARD")
       (command_env
          (lib_cmd good_host "libmicrokit"
             (cell_sdk example_board example_config)
             (cell_build_dir "libmicrokit" example_board example_config)
             example_board))
     = Some None.
Proof.
  split; vm_compute; reflexivity.
Qed.

(** The hypothesis of C5 is needed: a CPU name with a [$] or a working
    directory with an ampersand gives a command line the shell does not
    read word by word, and no environment is claimed for it. *)
Lemma metacharacters_are_not_modelled :
  command_env "GCC_CPU=cortex-$a53 make -C loader" = None
  /\ command_env "BUILD_DIR=/home/dev/R&D/build make -C loader" = None
  /\ simple "cortex-$a53" = false /\ simple "R&D" = false.
Proof. repeat split; reflexivity. Qed.

End ShellFacts.

(* ================================================================== *)
(** * Theorems: a failed command stops the run *)
(* ================================================================== *)

Module FailFastFacts.
Import Build Props Fixtures TraceFacts.

Lemma silent_succeeded : forall tr, Forall silent tr -> Forall succeeded tr.
Proof.
  intros tr H. eapply Forall_impl; [|exact H].
  intros [] Ha; simpl in *; tauto.
Qed.

Lemma Forall_removelast : forall A (P : A -> Prop) l,
  Forall P l -> Forall P (removelast l).
Proof.
  intros A P l H; induction H as [|x l Hx Hl IH]; [constructor|].
  simpl. destruct l; [constructor|]. constructor; assumption.
Qed.

(** [x] occurs in [pre' ++ [y]]: as its last element, or within [pre']. *)
Lemma snoc_split : forall A (x y : A) pre post pre',
  pre ++ x :: post = pre' ++ [y] ->
  (post = [] /\ pre = pre' /\ x = y) \/ In x pre'.
Proof.
  intros A x y pre; induction pre as [|a pre IH]; intros post pre' H.
  - destruct pre' as [|b pre']; simpl in H.
    + injection H as -> ->. left; auto.
    + injection H as -> _. right; left; reflexivity.
  - destruct pre' as [|b pre']; simpl in H.
    + injection H as _ H. destruct pre; discriminate.
    + injection H as -> H. destruct (IH _ _ H) as [(Hp & He & Hx)|Hin].
      * left; subst; auto.
      * right; right; assumption.
Qed.

Lemma stage_outcome_failed : forall A (r : result A) e pre cmd status post,
  stage_outcome (r, e) ->
  e = pre ++ System cmd status :: post -> status <> 0%Z ->
  is_raise r = true /\ post = [] /\ Forall neutral pre.
Proof.
  intros A r e pre cmd status post [Hs|(Hr & pre' & c & s & He & Hne & Hs & Hn)]
    Heq Hst; simpl in *.
  - exfalso. subst e. apply Forall_app in Hs as [_ Hs].
    inversion Hs; subst. simpl in *. contradiction.
  - rewrite Heq in He.
    destruct (snoc_split _ _ _ _ _ _ He) as [(Hp & Hpre & _)|Hin].
    + subst. auto.
    + exfalso. rewrite Forall_forall in Hs. apply Hs in Hin.
      simpl in Hin. contradiction.
Qed.

Lemma fail_fast_outcome_failed :
  forall A (r : result A) e pre cmd status post,
  fail_fast_outcome (r, e) ->
  e = pre ++ System cmd status :: post -> status <> 0%Z ->
  is_raise r = true /\ post = [].
Proof.
  intros A r e pre cmd status post [Hok Hrl] Heq Hst; simpl in *.
  assert (Hbad : ~ Forall succeeded (pre ++ System cmd status :: post)).
  { intros H. apply Forall_app in H as [_ H]. inversion H; subst.
    simpl in *; contradiction. }
  split.
  - destruct r; simpl in *; [|reflexivity].
    exfalso. apply Hbad. rewrite <- Heq. apply Hok. reflexivity.
  - destruct post as [|b post]; [reflexivity|exfalso].
    subst e. rewrite removelast_app in Hrl by discriminate.
    apply Forall_app in Hrl as [_ Hrl]. simpl in Hrl.
    inversion Hrl; subst. simpl in *; contradiction.
Qed.

(** ** One stage *)

Lemma stage_ok_silent : forall A (m : M A),
  always (Forall silent) m -> stage_ok m.
Proof.
  intros A m H hist. left. apply silent_succeeded, H.
Qed.

Lemma stage_ok_raise : forall A msg, stage_ok (@raise A msg).
Proof. intros A msg hist. left. constructor. Qed.

Lemma stage_outcome_cons : forall A (r : result A) a e,
  neutral a -> succeeded a ->
  stage_outcome (r, e) -> stage_outcome (r, a :: e).
Proof.
  intros A r a e Hn Hs [H|(Hr & pre & c & s & He & Hne & Hp & Hq)];
    simpl in *.
  - left. constructor; assumption.
  - right. split; [assumption|].
    exists (a :: pre), c, s. subst e.
    repeat split; try assumption; constructor; assumption.
Qed.

Lemma stage_ok_emit : forall A a (k : M A),
  neutral a -> succeeded a -> stage_ok k -> stage_ok (emit a ;; k).
Proof.
  intros A a k Hn Hs Hk hist. unfold bind, emit.
  specialize (Hk (hist ++ [a])).
  destruct (k (hist ++ [a])) as [r e].
  apply stage_outcome_cons; assumption.
Qed.

Lemma stage_ok_system : forall A h cmd (k : Z -> M A),
  checks_status k -> stage_ok (k 0%Z) -> stage_ok (bind (system h cmd) k).
Proof.
  intros A h cmd k Hc Hk hist. unfold bind, system.
  destruct (Z.eq_dec (system_status h hist cmd) 0) as [Hz|Hnz].
  - rewrite Hz. specialize (Hk (hist ++ [System cmd 0%Z])).
    destruct (k 0%Z _) as [r e].
    apply stage_outcome_cons; simpl; auto.
  - destruct (Hc _ (hist ++ [System cmd (system_status h hist cmd)]) Hnz)
      as [msg ->].
    right. split; [reflexivity|].
    exists [], cmd, (system_status h hist cmd). simpl. auto.
Qed.

Ltac checks_status :=
  let status := fresh "status" in
  let hist := fresh "hist" in
  let H := fresh "H" in
  intros status hist H; cbv beta;
  destruct (Z.eqb_spec status 0) as [|_]; [contradiction|];
  eexists; reflexivity.

Ltac silent_steps :=
  unfold mkdir, print, unlink, copy, chmod;
  repeat first
    [ apply each_emit; exact I
    | apply silent_stage_tree
    | apply always_ret; constructor
    | apply always_raise; constructor
    | apply each_for_each; intros ? _
    | apply each_bind; [|intros ?] ].

Lemma build_sel4_stage_ok : forall h sel4_dir root build_dir board config,
  stage_ok (build_sel4 h sel4_dir root build_dir board config).
Proof.
  intros. unfold build_sel4, mkdir, print. cbv zeta.
  repeat (apply stage_ok_emit; [exact I|exact I|]).
  destruct (Options.config_str board config) as [cs|];
    [|apply stage_ok_raise].
  apply stage_ok_system; [checks_status|]. cbv beta; simpl negb; cbv iota.
  apply stage_ok_system; [checks_status|]. cbv beta; simpl negb; cbv iota.
  apply stage_ok_system; [checks_status|]. cbv beta; simpl negb; cbv iota.
  apply stage_ok_silent. silent_steps.
Qed.

Lemma build_elf_component_stage_ok :
  forall h name root build_dir board config defines,
  stage_ok (build_elf_component h name root build_dir board config defines).
Proof.
  intros. unfold build_elf_component, mkdir. cbv zeta.
  apply stage_ok_emit; [exact I|exact I|].
  apply stage_ok_system; [checks_status|]. cbv beta; simpl negb; cbv iota.
  apply stage_ok_silent. silent_steps.
Qed.

Lemma build_lib_component_stage_ok :
  forall h name root build_dir board config,
  stage_ok (build_lib_component h name root build_dir board config).
Proof.
  intros. unfold build_lib_component, mkdir. cbv zeta.
  apply stage_ok_emit; [exact I|exact I|].
  apply stage_ok_system; [checks_status|]. cbv beta; simpl negb; cbv iota.
  apply stage_ok_silent. silent_steps.
Qed.

(** ** A whole run *)

Lemma stage_ok_fail_fast : forall A (m : M A), stage_ok m -> fail_fast m.
Proof.
  intros A m H hist. specialize (H hist).
  destruct (m hist) as [r e].
  destruct H as [H|(Hr & pre & c & s & He & Hne & Hp & Hq)]; simpl in *.
  - split; [auto|apply Forall_removelast; assumption].
  - split; [destruct r; [discriminate Hr|intros Hf; discriminate Hf]|].
    subst e. simpl snd. rewrite removelast_last. assumption.
Qed.

Lemma fail_fast_silent : forall A (m : M A),
  always (Forall silent) m -> fail_fast m.
Proof. intros. apply stage_ok_fail_fast, stage_ok_silent; assumption. Qed.

Lemma fail_fast_bind : forall A B (m : M A) (f : A -> M B),
  fail_fast m -> (forall a, fail_fast (f a)) -> fail_fast (bind m f).
Proof.
  intros A B m f Hm Hf hist. unfold bind.
  specialize (Hm hist).
  destruct (m hist) as [[a|msg] e1]; [|exact Hm].
  destruct Hm as [Hok _]. specialize (Hok eq_refl). simpl in Hok.
  specialize (Hf a (hist ++ e1)).
  destruct (f a (hist ++ e1)) as [r e2].
  destruct Hf as [Hok2 Hrl2]. simpl in *.
  split; simpl.
  - intros Hr. apply Forall_app; auto.
  - destruct e2 as [|x e2].
    + rewrite app_nil_r. apply Forall_removelast; assumption.
    + rewrite removelast_app by discriminate.
      apply Forall_app; auto.
Qed.

Lemma fail_fast_system : forall A h cmd (k : Z -> M A),
  checks_status k -> fail_fast (k 0%Z) -> fail_fast (bind (system h cmd) k).
Proof.
  intros A h cmd k Hc Hk hist. unfold bind, system.
  destruct (Z.eq_dec (system_status h hist cmd) 0) as [Hz|Hnz].
  - rewrite Hz. specialize (Hk (hist ++ [System cmd 0%Z])).
    destruct (k 0%Z _) as [r e]. destruct Hk as [Hok Hrl]; simpl in *.
    split; simpl.
    + intros Hr. constructor; [reflexivity|auto].
    + destruct e; [constructor|].
      constructor; [reflexivity|assumption].
  - destruct (Hc _ (hist ++ [System cmd (system_status h hist cmd)]) Hnz)
      as [msg ->].
    split; simpl; [discriminate|constructor].
Qed.

Lemma fail_fast_for_each : forall A (l : list A) (body : A -> M unit),
  (forall x, fail_fast (body x)) -> fail_fast (for_each l body).
Proof.
  intros A l body H; induction l as [|x l IH]; simpl.
  - apply fail_fast_silent, always_ret. constructor.
  - apply fail_fast_bind; [apply H|intros _; exact IH].
Qed.

Ltac checks_assert :=
  let status := fresh "status" in
  let hist := fresh "hist" in
  let H := fresh "H" in
  intros status hist H; cbv beta;
  unfold bind, py_assert, raise;
  destruct (Z.eqb_spec status 0) as [|_]; [contradiction|];
  eexists; reflexivity.

Lemma main_fail_fast : forall h arg_sel4 arg_triple,
  fail_fast (main h arg_sel4 arg_triple).
Proof.
  intros. unfold main.
  apply fail_fast_bind; [apply fail_fast_silent, always_lift; constructor|].
  intros default_triple. cbv zeta.
  apply fail_fast_bind; [apply fail_fast_silent, always_lift; constructor|].
  intros sel4_dir.
  apply fail_fast_bind; [apply fail_fast_silent, always_exists; constructor|].
  intros [|]; simpl negb; cbv iota;
    [|apply fail_fast_silent, always_raise; constructor].
  apply fail_fast_bind; [apply fail_fast_silent; silent_steps|intros _].
  apply fail_fast_bind; [apply fail_fast_silent; silent_steps|intros _].
  apply fail_fast_bind; [apply fail_fast_silent; silent_steps|intros _].
  apply fail_fast_bind; [apply fail_fast_silent, always_exists; constructor|].
  intros ex.
  apply fail_fast_bind.
  { destruct ex; simpl negb; cbv iota;
      [apply fail_fast_silent, always_ret; constructor|].
    apply fail_fast_bind.
    - unfold test_tool. apply fail_fast_system; [checks_assert|].
      apply fail_fast_silent, always_assert; constructor.
    - intros _. unfold build_tool. cbv zeta.
      apply fail_fast_bind;
        [apply fail_fast_silent, always_exists; constructor|].
      intros [|]; simpl negb; cbv iota;
        [|apply fail_fast_silent, always_raise; constructor].
      apply fail_fast_system; [checks_assert|].
      apply fail_fast_bind;
        [apply fail_fast_silent, always_assert; constructor|intros _].
      apply fail_fast_system; [checks_assert|].
      apply fail_fast_bind;
        [apply fail_fast_silent, always_assert; constructor|intros _].
      apply fail_fast_silent; silent_steps. }
  intros _.
  apply fail_fast_bind.
  { unfold build_doc. cbv zeta. apply fail_fast_system; [checks_assert|].
    apply fail_fast_silent, always_assert; constructor. }
  intros _.
  apply fail_fast_for_each. intros board.
  apply fail_fast_bind.
  - apply fail_fast_for_each. intros config. unfold build_cell.
    apply fail_fast_bind;
      [apply stage_ok_fail_fast, build_sel4_stage_ok|intros _].
    apply fail_fast_bind;
      [apply stage_ok_fail_fast, build_elf_component_stage_ok|intros _].
    apply fail_fast_bind;
      [apply stage_ok_fail_fast, build_elf_component_stage_ok|intros _].
    apply stage_ok_fail_fast, build_lib_component_stage_ok.
  - intros _. apply fail_fast_for_each. intros example.
    apply fail_fast_silent; silent_steps.
Qed.

(** C6: in each stage of a cell (the kernel with its three commands, the
    loader, the monitor, the library) a command that returns a non-zero
    status is the last action of the stage, the stage raises, and before
    it the stage has only created build directories, printed and run
    commands: nothing was removed, copied or made read-only.  In a run of
    [main] a failed command is the last action of the run, which raises:
    no later stage and no later cell runs. *)
Theorem failed_stage_stages_nothing :
  forall h sel4_dir arg_sel4 arg_triple board config hist,
  (forall stage pre cmd status post,
      In stage (cell_stages h sel4_dir board config) ->
      snd (stage hist) = pre ++ System cmd status :: post ->
      status <> 0%Z ->
      is_raise (fst (stage hist)) = true /\ post = []
      /\ Forall neutral pre)
  /\ (forall pre cmd status post,
        snd (main h arg_sel4 arg_triple hist)
        = pre ++ System cmd status :: post ->
        status <> 0%Z ->
        is_raise (fst (main h arg_sel4 arg_triple hist)) = true
        /\ post = []).
Proof.
  intros h sel4_dir arg_sel4 arg_triple board config hist. split.
  - intros stage pre cmd status post Hin Heq Hst.
    assert (Hok : stage_ok stage).
    { simpl in Hin.
      destruct Hin as [<-|[<-|[<-|[<-|[]]]]].
      - apply build_sel4_stage_ok.
      - apply build_elf_component_stage_ok.
      - apply build_elf_component_stage_ok.
      - apply build_lib_component_stage_ok. }
    specialize (Hok hist).
    destruct (stage hist) as [r e]; simpl in *.
    eapply stage_outcome_failed; eauto.
  - intros pre cmd status post Heq Hst.
    pose proof (main_fail_fast h arg_sel4 arg_triple hist) as Hff.
    destruct (main h arg_sel4 arg_triple hist) as [r e]; simpl in *.
    eapply fail_fast_outcome_failed; eauto.
Qed.

(** The theorem on a host where the kernel build ([cmake --build]) fails
    in the first cell. *)
Lemma failed_stage_stages_nothing_witness :
  (is_raise
     (fst (build_sel4 (host_failing "cmake --build") ["seL4"] root_dir
             ["build"] example_board example_config [])) = true
   /\ @nil Action = []
   /\ Forall neutral
        (removelast
           (snd (build_sel4 (host_failing "cmake --build") ["seL4"] root_dir
                   ["build"] example_board example_config []))))
  /\ (is_raise
        (fst (main (host_failing "cmake --build") ["seL4"] None [])) = true
      /\ @nil Action = []).
Proof.
  pose proof
    (failed_stage_stages_nothing (host_failing "cmake --build")
       ["seL4"] ["seL4"] None example_board example_config []) as T.
  split.
  - apply (proj1 T
             (build_sel4 (host_failing "cmake --build") ["seL4"] root_dir
                ["build"] example_board example_config))
      with (cmd := "cmake --build /work/build/zcu102/debug/sel4/build")
           (status := 256%Z).
    + left; reflexivity.
    + vm_compute; reflexivity.
    + intros H; discriminate H.
  - apply (proj2 T
             (removelast
                (snd (main (host_failing "cmake --build") ["seL4"] None [])))
             "cmake --build /work/build/tqma8xqp1gb/release/sel4/build"
             256%Z []).
    + vm_compute; reflexivity.
    + intros H; discriminate H.
Defined.

End FailFastFacts.

(* ================================================================== *)
(** * Theorems: how files are put into the release tree *)
(* ================================================================== *)

Module StagingFacts.
Import Build Props Fixtures TraceFacts.

Lemma Staged_app : forall l1 l2, Staged l1 -> Staged l2 -> Staged (l1 ++ l2).
Proof.
  intros l1 l2 H1 H2; induction H1; simpl; try assumption;
    constructor; assumption.
Qed.

Lemma frozen_dest_app : forall d rel, frozen_dest d -> frozen_dest (d ++ rel).
Proof.
  intros d rel [rest [->| ->]]; exists (rest ++ rel);
    [left|right]; rewrite <- app_assoc; reflexivity.
Qed.

Lemma tool_target_not_frozen : ~ frozen_dest tool_target.
Proof.
  intros [rest [H|H]]; unfold tool_target, pdiv in H;
    rewrite <- app_assoc in H; apply app_inv_head in H; discriminate H.
Qed.

Lemma root_dir_not_frozen : forall rest,
  frozen_dest (root_dir ++ rest) ->
  exists rest', rest = "board" :: rest' \/ rest = "LICENSES" :: rest'.
Proof.
  intros rest [rest' [H|H]]; apply app_inv_head in H; exists rest'; auto.
Qed.

Ltac frozen :=
  unfold frozen_dest, pdiv; eexists;
  first [ left; repeat rewrite <- app_assoc; reflexivity
        | right; repeat rewrite <- app_assoc; reflexivity ].

Lemma staged_bind : forall A B (m : M A) (f : A -> M B),
  always Staged m -> (forall a, always Staged (f a)) ->
  always Staged (bind m f).
Proof. intros. apply always_bind; auto. apply Staged_app. Qed.

Lemma staged_for_each : forall A (l : list A) (body : A -> M unit),
  (forall x, always Staged (body x)) -> always Staged (for_each l body).
Proof.
  intros. apply always_for_each; auto; [constructor|apply Staged_app].
Qed.

Lemma staged_neutral : forall a, neutral a -> always Staged (emit a).
Proof.
  intros a H hist. simpl. apply Staged_neutral; [assumption|constructor].
Qed.

Lemma staged_system : forall h cmd, always Staged (system h cmd).
Proof.
  intros h cmd hist. simpl. apply Staged_neutral; [exact I|constructor].
Qed.

Lemma staged_file : forall src d,
  frozen_dest d -> always Staged (unlink d ;; copy src d ;; chmod d o444).
Proof.
  intros src d H hist. simpl. apply Staged_file; [assumption|constructor].
Qed.

Lemma staged_file_then : forall A src d (k : M A),
  frozen_dest d -> always Staged k ->
  always Staged (unlink d ;; copy src d ;; chmod d o444 ;; k).
Proof.
  intros A src d k H Hk hist.
  unfold bind, unlink, copy, chmod, emit.
  match goal with |- context [k ?hh] =>
    specialize (Hk hh); destruct (k hh) as [r e] end.
  simpl in *. apply Staged_file; assumption.
Qed.

Lemma staged_license_then : forall A (k : M A),
  always Staged k -> always Staged (copy ["LICENSE.md"] root_dir ;; k).
Proof.
  intros A k Hk hist. unfold bind, copy, emit.
  match goal with |- context [k ?hh] =>
    specialize (Hk hh); destruct (k hh) as [r e] end.
  simpl in *. apply Staged_license; assumption.
Qed.

Lemma staged_tool : forall src,
  always Staged (copy src tool_target ;; chmod tool_target o777).
Proof. intros src hist. simpl. apply Staged_tool. constructor. Qed.

Lemma staged_stage_tree : forall h source_dir dest_dir,
  frozen_dest dest_dir -> always Staged (stage_tree h source_dir dest_dir).
Proof.
  intros h source_dir dest_dir Hd. unfold stage_tree.
  apply staged_bind; [apply always_rglob; constructor|].
  intros ps. apply staged_for_each. intros p.
  apply staged_bind; [apply always_is_file; constructor|].
  intros [|]; simpl; [|apply always_ret; constructor].
  destruct (relative_to p source_dir) as [rel|];
    [|apply always_raise; constructor].
  apply staged_bind; [apply staged_neutral; exact I|intros _].
  apply staged_file, frozen_dest_app; assumption.
Qed.

Ltac staged_steps :=
  repeat first
    [ apply staged_system
    | apply always_ret; constructor
    | apply always_raise; constructor
    | apply always_assert; constructor
    | apply always_exists; constructor
    | apply always_lift; constructor
    | apply staged_neutral; exact I
    | apply staged_tool
    | apply staged_stage_tree; frozen
    | apply staged_file; frozen
    | apply staged_file_then; [frozen|]
    | apply staged_license_then
    | apply staged_for_each; intros ?
    | match goal with
      | |- always Staged (if ?b then _ else _) => destruct b
      | |- always Staged (match ?o with Some _ => _ | None => _ end) =>
          destruct o
      end
    | apply staged_bind; [|intros ?] ].

Lemma build_sel4_staged : forall h sel4_dir build_dir board config,
  always Staged (build_sel4 h sel4_dir root_dir build_dir board config).
Proof.
  intros. unfold build_sel4, mkdir, print. cbv zeta. staged_steps.
Qed.

Lemma build_elf_component_staged : forall h name build_dir board config defs,
  always Staged
    (build_elf_component h name root_dir build_dir board config defs).
Proof.
  intros. unfold build_elf_component, mkdir. cbv zeta. staged_steps.
Qed.

Lemma build_lib_component_staged : forall h name build_dir board config,
  always Staged (build_lib_component h name root_dir build_dir board config).
Proof.
  intros. unfold build_lib_component, mkdir. cbv zeta. staged_steps.
Qed.

Lemma main_staged : forall h arg_sel4 arg_triple,
  always Staged (main h arg_sel4 arg_triple).
Proof.
  intros. unfold main, build_cell, test_tool, build_tool, build_doc, mkdir.
  cbv zeta.
  fold tool_target.
  staged_steps;
    first [ apply build_sel4_staged | apply build_elf_component_staged
          | apply build_lib_component_staged ].
Qed.

(** ** What the shape says about the copies and the modes *)

Lemma Staged_chmod : forall l p m,
  Staged l -> In (Chmod p m) l ->
  (p = tool_target /\ m = o777) \/ (frozen_dest p /\ m = o444).
Proof.
  intros l p m H; induction H as [|a l Ha _ IH|src d l Hd _ IH|l _ IH|src l _ IH];
    intros Hin; simpl in Hin.
  - contradiction.
  - destruct Hin as [->|Hin]; [contradiction|auto].
  - destruct Hin as [Heq|[Heq|[Heq|Hin]]]; try discriminate; auto.
    injection Heq as -> ->. right; auto.
  - destruct Hin as [Heq|Hin]; [discriminate|auto].
  - destruct Hin as [Heq|[Heq|Hin]]; try discriminate; auto.
    injection Heq as <- <-. left; auto.
Qed.

Lemma Staged_unlink : forall l p,
  Staged l -> In (Unlink p) l -> frozen_dest p.
Proof.
  intros l p H; induction H as [|a l Ha _ IH|src d l Hd _ IH|l _ IH|src l _ IH];
    intros Hin; simpl in Hin.
  - contradiction.
  - destruct Hin as [->|Hin]; [contradiction|auto].
  - destruct Hin as [Heq|[Heq|[Heq|Hin]]]; try discriminate; auto.
    injection Heq as ->. assumption.
  - destruct Hin as [Heq|Hin]; [discriminate|auto].
  - destruct Hin as [Heq|[Heq|Hin]]; try discriminate; auto.
Qed.

Lemma Staged_copy : forall l,
  Staged l ->
  forall pre src d post,
    l = pre ++ Copy src d :: post ->
    (src = ["LICENSE.md"] /\ d = root_dir)
    \/ (d = tool_target /\ exists post', post = Chmod tool_target o777 :: post')
    \/ (frozen_dest d
        /\ exists pre' post',
             pre = pre' ++ [Unlink d] /\ post = Chmod d o444 :: post').
Proof.
  intros l H;
    induction H as [|a l Ha _ IH|s0 d0 l Hd _ IH|l _ IH|s0 l _ IH];
    intros pre src d post Heq.
  - destruct pre; discriminate.
  - destruct pre as [|b pre]; simpl in Heq.
    + injection Heq as -> _. contradiction.
    + injection Heq as <- Heq.
      destruct (IH _ _ _ _ Heq) as [H1|[H2|(Hf & pre' & post' & -> & ->)]];
        auto.
      right; right. split; [assumption|].
      exists (a :: pre'), post'. auto.
  - destruct pre as [|b1 [|b2 [|b3 pre]]]; simpl in Heq; try discriminate.
    + injection Heq as <- <- <-.
      right; right. split; [assumption|]. exists [], l. auto.
    + injection Heq as <- <- <- Heq.
      destruct (IH _ _ _ _ Heq) as [H1|[H2|(Hf & pre' & post' & -> & ->)]];
        auto.
      right; right. split; [assumption|].
      exists (Unlink d0 :: Copy s0 d0 :: Chmod d0 o444 :: pre'), post'. auto.
  - destruct pre as [|b pre]; simpl in Heq.
    + injection Heq as <- <- <-. left; auto.
    + injection Heq as <- Heq.
      destruct (IH _ _ _ _ Heq) as [H1|[H2|(Hf & pre' & post' & -> & ->)]];
        auto.
      right; right. split; [assumption|].
      exists (Copy ["LICENSE.md"] root_dir :: pre'), post'. auto.
  - destruct pre as [|b1 [|b2 pre]]; simpl in Heq; try discriminate.
    + injection Heq as <- <- <-. right; left. split; [reflexivity|].
      exists l; reflexivity.
    + injection Heq as <- <- Heq.
      destruct (IH _ _ _ _ Heq) as [H1|[H2|(Hf & pre' & post' & -> & ->)]];
        auto.
      right; right. split; [assumption|].
      exists (Copy s0 tool_target :: Chmod tool_target o777 :: pre'), post'.
      auto.
Qed.

(** Every copy of a run is the copy of the top-level license, the copy of
    the packaged tool (followed by its [chmod 0o777]), or the copy of a file
    below [board/] or [LICENSES/], which comes right after the removal of
    the destination and right before its [chmod 0o444]. *)
Lemma every_copy_of_main : forall h arg_sel4 arg_triple hist pre src d post,
  snd (main h arg_sel4 arg_triple hist) = pre ++ Copy src d :: post ->
  (src = ["LICENSE.md"] /\ d = root_dir)
  \/ (d = tool_target
      /\ exists post', post = Chmod tool_target o777 :: post')
  \/ (frozen_dest d
      /\ exists pre' post',
           pre = pre' ++ [Unlink d] /\ post = Chmod d o444 :: post').
Proof.
  intros h arg_sel4 arg_triple hist pre src d post Heq.
  exact (Staged_copy _ (main_staged h arg_sel4 arg_triple hist) _ _ _ _ Heq).
Qed.

(** C10 (as the code has it): when the packaged tool is copied to
    [bin/microkit] its mode is set to [0o777] by the next action; no action
    of the run removes it, and no action sets its mode to anything else:
    every other [chmod] of the run sets [0o444] on a file below [board/] or
    [LICENSES/], and every copy to such a file comes right after the
    removal of the destination and right before that [chmod]. *)
Theorem tool_is_left_writable : forall h arg_sel4 arg_triple hist,
  (forall pre src post,
      snd (main h arg_sel4 arg_triple hist)
      = pre ++ Copy src tool_target :: post ->
      exists post', post = Chmod tool_target o777 :: post')
  /\ (forall p m,
        In (Chmod p m) (snd (main h arg_sel4 arg_triple hist)) ->
        (p = tool_target /\ m = o777)
        \/ (p <> tool_target /\ frozen_dest p /\ m = o444))
  /\ (forall p,
        In (Unlink p) (snd (main h arg_sel4 arg_triple hist)) ->
        p <> tool_target)
  /\ (forall pre src d post,
        snd (main h arg_sel4 arg_triple hist) = pre ++ Copy src d :: post ->
        frozen_dest d ->
        exists pre' post',
          pre = pre' ++ [Unlink d] /\ post = Chmod d o444 :: post')
  /\ o777 = 511%Z /\ o444 = 292%Z.
Proof.
  intros h arg_sel4 arg_triple hist.
  pose proof (main_staged h arg_sel4 arg_triple hist) as HS.
  split; [|split; [|split; [|split]]].
  - intros pre src post Heq.
    destruct (Staged_copy _ HS _ _ _ _ Heq)
      as [[_ Hd]|[[_ Hp]|[Hf _]]]; [discriminate Hd|exact Hp|].
    exfalso; exact (tool_target_not_frozen Hf).
  - intros p m Hin.
    destruct (Staged_chmod _ _ _ HS Hin) as [H|[Hf Hm]]; [left; exact H|].
    right. split; [|auto].
    intros ->. exact (tool_target_not_frozen Hf).
  - intros p Hin ->.
    exact (tool_target_not_frozen (Staged_unlink _ _ HS Hin)).
  - intros pre src d post Heq Hf.
    destruct (Staged_copy _ HS _ _ _ _ Heq)
      as [[_ Hd]|[[Hd _]|[_ Hp]]]; [| |exact Hp]; exfalso; subst d.
    + destruct Hf as [rest [H|H]];
        rewrite <- (app_nil_r root_dir) in H at 1;
        apply app_inv_head in H; discriminate H.
    + exact (tool_target_not_frozen Hf).
  - split; reflexivity.
Qed.

(** The theorem on the host where every command succeeds. *)
Lemma tool_is_left_writable_witness :
  exists post',
    skipn 84 (snd good_run) = Chmod tool_target o777 :: post'.
Proof.
  apply (proj1 (tool_is_left_writable good_host ["seL4"] None [])
           (firstn 83 (snd good_run))
           [ "."; "tool"; "build"; "x86_64-unknown-linux-musl"; "release";
             "install"; "microkit" ]
           (skipn 84 (snd good_run))).
  vm_compute. reflexivity.
Defined.

(** C10 (as stated) fails: in a complete run the top-level license is
    copied into the release tree as well, and no action removes it or
    sets its mode: the packaged tool is not the only file that is left
    as it was copied. *)
Lemma license_copy_is_not_frozen_either :
  fst good_run = Ok tt
  /\ existsb is_license_copy (snd good_run) = true
  /\ existsb (removes_or_chmods root_dir) (snd good_run) = false
  /\ existsb (removes_or_chmods (root_dir // "LICENSE.md")) (snd good_run)
     = false.
Proof.
  repeat split; vm_compute; reflexivity.
Qed.

Lemma path_eqb_eq : forall p q, path_eqb p q = true -> p = q.
Proof.
  induction p as [|x p IH]; intros [|y q] H; simpl in H;
    try discriminate; [reflexivity|].
  apply andb_prop in H as [Hx Hp].
  apply String.eqb_eq in Hx. subst. f_equal. apply IH; assumption.
Qed.

Lemma license_not_frozen :
  ~ frozen_dest root_dir /\ ~ frozen_dest (root_dir // "LICENSE.md").
Proof.
  split; intros [rest [H|H]].
  - rewrite <- (app_nil_r root_dir) in H at 1.
    apply app_inv_head in H; discriminate H.
  - rewrite <- (app_nil_r root_dir) in H at 1.
    apply app_inv_head in H; discriminate H.
  - unfold pdiv in H. apply app_inv_head in H; discriminate H.
  - unfold pdiv in H. apply app_inv_head in H; discriminate H.
Qed.

Lemma Staged_license_untouched : forall l a,
  Staged l -> In a l ->
  removes_or_chmods root_dir a = false
  /\ removes_or_chmods (root_dir // "LICENSE.md") a = false.
Proof.
  intros l a HS Hin.
  destruct license_not_frozen as [Hr Hl].
  assert (Hp : forall p,
             (p = tool_target \/ frozen_dest p) ->
             path_eqb root_dir p = false
             /\ path_eqb (root_dir // "LICENSE.md") p = false).
  { intros p Hp. split.
    - destruct (path_eqb root_dir p) eqn:E; [|reflexivity].
      apply path_eqb_eq in E. subst p.
      destruct Hp as [Hp|Hp]; [discriminate Hp|contradiction].
    - destruct (path_eqb (root_dir // "LICENSE.md") p) eqn:E; [|reflexivity].
      apply path_eqb_eq in E. subst p.
      destruct Hp as [Hp|Hp]; [discriminate Hp|contradiction]. }
  destruct a; simpl; auto.
  - apply Hp. right. eapply Staged_unlink; eassumption.
  - apply Hp. destruct (Staged_chmod _ _ _ HS Hin) as [[-> _]|[Hf _]]; auto.
Qed.

(** C7 on the code: the top-level license is staged by a bare copy.  In a
    complete run it is copied between two directory creations, with no
    removal before and no [chmod] after; and in no run at all is the
    destination of that copy removed or given a mode, whereas the files
    below [LICENSES/], staged by the next lines, are removed first and
    made read-only. *)
Theorem license_md_is_copied_bare :
  fst good_run = Ok tt
  /\ around_license_copy None (snd good_run)
     = Some (Some (Mkdir (root_dir // "board" // "qemu_virt_aarch64"
                                   // "debug" // "elf")),
             Some (Mkdir (root_dir // "LICENSES")))
  /\ (forall h arg_sel4 arg_triple hist a,
        In a (snd (main h arg_sel4 arg_triple hist)) ->
        removes_or_chmods root_dir a = false
        /\ removes_or_chmods (root_dir // "LICENSE.md") a = false).
Proof.
  split; [vm_compute; reflexivity|].
  split; [vm_compute; reflexivity|].
  intros h arg_sel4 arg_triple hist a Hin.
  exact (Staged_license_untouched _ _
           (main_staged h arg_sel4 arg_triple hist) Hin).
Qed.

End StagingFacts.

(* ================================================================== *)
(** * Theorems: the archives *)
(* ================================================================== *)

Module ArchiveFacts.
Import Build Props Fixtures TraceFacts.

(** ** No archive is written *)

Lemma under_root_safe : forall p,
  under root_dir p -> p <> tar_file /\ p <> source_tar_file.
Proof.
  intros p [rest ->]. split; intros H; discriminate H.
Qed.

Lemma under_build_safe : forall p,
  under ["build"] p -> p <> tar_file /\ p <> source_tar_file.
Proof.
  intros p [rest ->]. split; intros H; discriminate H.
Qed.

Lemma under_app : forall d p rest, under d p -> under d (p ++ rest).
Proof.
  intros d p rest [r ->]. exists (r ++ rest). symmetry; apply app_assoc.
Qed.

Lemma under_parent : forall d x rest,
  under d (parent (d ++ x :: rest)).
Proof.
  intros d x rest. unfold parent.
  rewrite removelast_app by discriminate. eexists; reflexivity.
Qed.

Lemma no_archive_mkdir : forall p, safe p -> no_archive (Mkdir p).
Proof.
  intros p Hp q [<-|[]].
  destruct Hp; [apply under_root_safe|apply under_build_safe]; assumption.
Qed.

Lemma no_archive_unlink : forall p, under root_dir p -> no_archive (Unlink p).
Proof. intros p Hp q [<-|[]]. apply under_root_safe; assumption. Qed.

Lemma no_archive_chmod : forall p m,
  under root_dir p -> no_archive (Chmod p m).
Proof. intros p m Hp q [<-|[]]. apply under_root_safe; assumption. Qed.

Lemma no_archive_copy : forall src p,
  under root_dir p -> no_archive (Copy src p).
Proof.
  intros src p Hp q [<-|[<-|[]]]; apply under_root_safe; [assumption|].
  apply under_app; assumption.
Qed.

Lemma no_archive_system : forall h cmd,
  always (Forall no_archive) (system h cmd).
Proof.
  intros h cmd hist. simpl. constructor; [|constructor].
  intros p [].
Qed.

Ltac under_root :=
  unfold under, pdiv; eexists; repeat rewrite <- app_assoc; reflexivity.

Lemma no_archive_stage_tree : forall h source_dir x rest,
  always (Forall no_archive)
    (stage_tree h source_dir (root_dir ++ x :: rest)).
Proof.
  intros. apply each_stage_tree. intros p rel.
  assert (Hu : under root_dir ((root_dir ++ x :: rest) ++ rel)).
  { exists ((x :: rest) ++ rel). symmetry; apply app_assoc. }
  split; [|split; [|split]].
  - apply no_archive_mkdir. left.
    rewrite <- app_assoc. apply under_parent.
  - apply no_archive_unlink; assumption.
  - apply no_archive_copy; assumption.
  - apply no_archive_chmod; assumption.
Qed.

Lemma stage_tree_dest : forall h source_dir dest_dir,
  (exists x rest, dest_dir = root_dir ++ x :: rest) ->
  always (Forall no_archive) (stage_tree h source_dir dest_dir).
Proof.
  intros h source_dir dest_dir (x & rest & ->).
  apply no_archive_stage_tree.
Qed.

Ltac below_root :=
  unfold pdiv; do 2 eexists; repeat rewrite <- app_assoc; reflexivity.

Ltac archive_steps :=
  unfold mkdir, print, unlink, copy, chmod;
  repeat first
    [ apply always_ret; constructor
    | apply always_raise; constructor
    | apply always_assert; constructor
    | apply always_exists; constructor
    | apply always_lift; constructor
    | apply no_archive_system
    | apply each_emit;
      first [ apply no_archive_mkdir; first [left; under_root
                                            |right; under_root]
            | apply no_archive_unlink; under_root
            | apply no_archive_copy; under_root
            | apply no_archive_chmod; under_root
            | intros ? [] ]
    | apply stage_tree_dest; below_root
    | apply each_for_each; intros ? ?
    | match goal with
      | |- always _ (if ?b then _ else _) => destruct b
      | |- always _ (match ?o with Some _ => _ | None => _ end) =>
          destruct o
      end
    | apply each_bind; [|intros ?] ].

Lemma dir_structure_safe : forall p, In p dir_structure -> safe p.
Proof.
  intros p Hp. left. unfold dir_structure in Hp.
  apply in_app_or in Hp. destruct Hp as [Hp|Hp].
  - simpl in Hp. destruct Hp as [<-|[<-|[<-|[]]]]; under_root.
  - apply in_flat_map in Hp as (board & _ & [<-|Hp]); [under_root|].
    apply in_flat_map in Hp as (config & _ & Hp).
    simpl in Hp. destruct Hp as [<-|[<-|[<-|[<-|[]]]]]; under_root.
Qed.

(** C1 on the code: [main] names the two archives after the product and
    the version, but no run writes them: no action of a run opens an
    archive, and none creates, copies to, removes or changes a file at the
    path of either archive; the run on the host where every command
    succeeds returns normally after the last example file. *)
Theorem main_writes_no_archive : forall h arg_sel4 arg_triple hist,
  Forall no_archive (snd (main h arg_sel4 arg_triple hist))
  /\ tar_file = ["release"; "microkit-sdk-1.2.6.tar.gz"]
  /\ source_tar_file = ["release"; "microkit-source-1.2.6.tar.gz"]
  /\ fst good_run = Ok tt
  /\ last (snd good_run) (Print EmptyString)
     = Chmod (root_dir // "board" // "qemu_virt_aarch64" // "example"
                       // "hello" // "a.h") o444.
Proof.
  intros h arg_sel4 arg_triple hist.
  split; [|repeat split; vm_compute; reflexivity].
  revert hist. change (always (Forall no_archive) (main h arg_sel4 arg_triple)).
  unfold main, build_cell, test_tool, build_tool, build_doc,
    build_sel4, build_elf_component, build_lib_component.
  cbv zeta.
  apply each_bind; [apply always_lift; constructor|intros ?].
  apply each_bind; [apply always_lift; constructor|intros ?].
  apply each_bind; [apply always_exists; constructor|intros [|]];
    simpl negb; cbv iota; [|apply always_raise; constructor].
  apply each_bind.
  { apply each_for_each. intros p Hp. apply each_emit.
    apply no_archive_mkdir, dir_structure_safe, Hp. }
  intros _.
  archive_steps.
Qed.

End ArchiveFacts.

(* ================================================================== *)
(** * More on the tar metadata filter *)
(* ================================================================== *)

Module TarMore.
Import Tar Props MoreProps Fixtures TarFacts.

Lemma prefix_app_l : forall n b : string, String.prefix n (n ++ b) = true.
Proof.
  induction n as [|c n IH]; intros b; simpl; [destruct b; reflexivity|].
  destruct (Ascii.ascii_dec c c); [apply IH|congruence].
Qed.

Lemma prefix_inv : forall n s : string,
  String.prefix n s = true -> exists b, s = (n ++ b)%string.
Proof.
  induction n as [|c n IH]; intros s H.
  - exists s; reflexivity.
  - destruct s as [|d s]; simpl in H; [discriminate|].
    destruct (Ascii.ascii_dec c d) as [Hcd|]; [|discriminate].
    subst d. destruct (IH _ H) as [b ->]. exists b; reflexivity.
Qed.

Lemma contains_spec : forall n s : string,
  contains n s = true <-> exists a b, s = (a ++ n ++ b)%string.
Proof.
  intros n s; split.
  - induction s as [|c s IH]; intros H.
    + destruct n; [|discriminate H].
      exists EmptyString, EmptyString; reflexivity.
    + change (contains n (String c s))
        with (String.prefix n (String c s) || contains n s)%bool in H.
      apply orb_true_iff in H as [H|H].
      * apply prefix_inv in H as [b Hb]. exists EmptyString, b; exact Hb.
      * destruct (IH H) as (a & b & ->). exists (String c a), b; reflexivity.
  - intros (a & b & ->). induction a as [|c a IH].
    + change (EmptyString ++ n ++ b)%string with (n ++ b)%string.
      destruct (n ++ b)%string as [|c r] eqn:E.
      * destruct n; [reflexivity|discriminate E].
      * change (contains n (String c r))
          with (String.prefix n (String c r) || contains n r)%bool.
        rewrite <- E, prefix_app_l. reflexivity.
    + change (contains n (String c a ++ n ++ b))
        with (String.prefix n (String c (a ++ n ++ b))
              || contains n (a ++ n ++ b))%bool.
      rewrite IH. apply orb_true_r.
Qed.

Local Open Scope Z_scope.

Lemma with_perm_low : forall m p,
  0 <= p < 512 -> Z.land (with_perm m p) (Z.ones 9) = p.
Proof.
  intros m p Hp. rewrite with_perm_high_bits.
  rewrite Z.land_lor_distr_l, !Z.land_ones by lia.
  rewrite Z.shiftl_mul_pow2 by lia.
  rewrite Z.mod_mul by lia.
  rewrite Z.mod_small by (simpl; lia). reflexivity.
Qed.

Lemma with_perm_high : forall m p,
  0 <= p < 512 -> Z.shiftr (with_perm m p) 9 = Z.shiftr m 9.
Proof.
  intros m p Hp. rewrite with_perm_high_bits.
  rewrite Z.shiftr_lor.
  rewrite Z.shiftr_shiftl_l by lia. rewrite Z.sub_diag, Z.shiftl_0_r.
  rewrite (Z.shiftr_div_pow2 p) by lia.
  rewrite Z.div_small by (simpl; lia). apply Z.lor_0_r.
Qed.

Lemma perm_range : forall t,
  0 <= perm_of t < 512.
Proof.
  intros t. unfold perm_of.
  destruct (isdir t); [vm_compute; split; congruence|].
  destruct (contains "/bin/" (name t)); vm_compute; split; congruence.
Qed.

Lemma tar_filter_ok_kind : forall t t',
  tar_filter t = Ok t' -> (isfile t || isdir t)%bool = true.
Proof.
  intros t t' H. unfold tar_filter in H.
  change (isfile (set_owner t)) with (isfile t) in H.
  change (isdir (set_owner t)) with (isdir t) in H.
  destruct (isfile t || isdir t)%bool; [reflexivity|discriminate H].
Qed.

Lemma normalized_perm : forall t,
  mode (normalized t) = with_perm (mode t) (perm_of t).
Proof. reflexivity. Qed.

Lemma with_perm_idem : forall m p,
  0 <= p < 512 -> with_perm (with_perm m p) p = with_perm m p.
Proof.
  intros m p Hp.
  rewrite (with_perm_high_bits (with_perm m p)).
  rewrite with_perm_high by exact Hp.
  symmetry. apply with_perm_high_bits.
Qed.

Lemma normalized_idem : forall t, normalized (normalized t) = normalized t.
Proof.
  intros t. unfold normalized at 1.
  change (isdir (normalized t)) with (isdir t).
  change (name (normalized t)) with (name t).
  change (mode (normalized t)) with (with_perm (mode t) (perm_of t)).
  fold (perm_of t).
  rewrite with_perm_idem by apply perm_range.
  reflexivity.
Qed.

(** X1: the filter is idempotent: an entry it returns is returned
    unchanged when it is filtered again. *)
Theorem tar_filter_idempotent : forall t t',
  tar_filter t = Ok t' -> tar_filter t' = Ok t'.
Proof.
  intros t t' H.
  pose proof (tar_filter_ok_kind _ _ H) as Hk.
  rewrite (tar_filter_normalized t Hk) in H. injection H as <-.
  rewrite tar_filter_normalized by exact Hk.
  f_equal. apply normalized_idem.
Qed.

(** X2: the entry returned by the filter has the permission bits [0o557]
    when it is a directory, [0o755] when it is a regular file whose name
    contains [/bin/], and [0o644] when it is any other regular file; the
    mode bits above them, the name, the kind, the size and the link target
    are those of the entry given. *)
Theorem tar_filter_permissions : forall t t',
  tar_filter t = Ok t' ->
  (isdir t = true ->
   Z.land (mode t') (octal [7; 7; 7]%nat) = octal [5; 5; 7]%nat)
  /\ (isfile t = true ->
      (exists a b, name t = (a ++ "/bin/" ++ b)%string) ->
      Z.land (mode t') (octal [7; 7; 7]%nat) = octal [7; 5; 5]%nat)
  /\ (isfile t = true ->
      ~ (exists a b, name t = (a ++ "/bin/" ++ b)%string) ->
      Z.land (mode t') (octal [7; 7; 7]%nat) = octal [6; 4; 4]%nat)
  /\ Z.shiftr (mode t') 9 = Z.shiftr (mode t) 9
  /\ name t' = name t /\ type t' = type t /\ size t' = size t
  /\ linkname t' = linkname t.
Proof.
  intros t t' H.
  pose proof (tar_filter_ok_kind _ _ H) as Hk.
  rewrite (tar_filter_normalized t Hk) in H. injection H as <-.
  pose proof (with_perm_low (mode t) (perm_of t) (perm_range t)) as Hlow.
  change (Z.ones 9) with (octal [7; 7; 7]%nat) in Hlow.
  change (with_perm (mode t) (perm_of t)) with (mode (normalized t)) in Hlow.
  pose proof (contains_spec "/bin/" (name t)) as Hc.
  assert (Hfd : isfile t = true -> isdir t = false).
  { unfold isfile, isdir. destruct (type t); congruence. }
  split; [|split; [|split]].
  - intros Hd. rewrite Hlow. unfold perm_of. rewrite Hd. reflexivity.
  - intros Hf He. rewrite Hlow. unfold perm_of. rewrite (Hfd Hf).
    apply Hc in He. rewrite He. reflexivity.
  - intros Hf He. rewrite Hlow. unfold perm_of. rewrite (Hfd Hf).
    destruct (contains "/bin/" (name t)); [|reflexivity].
    exfalso. apply He, Hc. reflexivity.
  - split; [apply (with_perm_high (mode t) (perm_of t)), perm_range|].
    repeat split; reflexivity.
Qed.

(** The theorem at the packaged tool. *)
Lemma tar_filter_permissions_witness :
  Z.land (mode (normalized tool_entry_a)) (octal [7; 7; 7]%nat)
  = octal [7; 5; 5]%nat.
Proof.
  apply (proj1 (proj2 (tar_filter_permissions tool_entry_a
                         (normalized tool_entry_a) eq_refl))).
  - reflexivity.
  - exists "microkit-sdk-1.2.6"%string, "microkit"%string. reflexivity.
Defined.

(** The theorem at the packaged tool. *)
Lemma tar_filter_idempotent_witness :
  tar_filter (normalized tool_entry_a) = Ok (normalized tool_entry_a).
Proof.
  apply (tar_filter_idempotent tool_entry_a). reflexivity.
Defined.

End TarMore.

(* ================================================================== *)
(** * More on the kernel option list *)
(* ================================================================== *)

Module OptionMore.
Import Options Build Props MoreProps Fixtures OptionFacts.

Lemma insert_fresh : forall x l,
  (forall y, In y l -> fst y <> fst x) -> exists s, insert x l = Some s.
Proof.
  intros x l; induction l as [|y l IH]; intros H; simpl.
  - eexists; reflexivity.
  - unfold tuple_lt.
    destruct (String.eqb_spec (fst y) (fst x)) as [He|_].
    + exfalso. apply (H y); [left; reflexivity|exact He].
    + destruct (String.ltb (fst y) (fst x)); [|eexists; reflexivity].
      destruct IH as [s ->]; [|eexists; reflexivity].
      intros z Hz. apply H; right; exact Hz.
Qed.

Lemma sorted_distinct : forall l,
  NoDup (map fst l) -> exists s, sorted l = Some s.
Proof.
  induction l as [|x l IH]; intros Hnd; simpl.
  - eexists; reflexivity.
  - inversion Hnd as [|? ? Hx Hl]; subst.
    destruct (IH Hl) as [s Hs]. rewrite Hs.
    apply insert_fresh. intros y Hy He.
    apply Hx. rewrite <- He. apply in_map.
    apply (Permutation_in _ (Permutation_sym (sorted_perm _ _ Hs))).
    exact Hy.
Qed.

(** X3: when no option name occurs twice among the options of the board
    and of the config, the sort of the items cannot fail: the flag string
    is built, with one flag for each option of the board and of the
    config. *)
Theorem distinct_options_always_sort : forall board config,
  NoDup (keys (config_args board config)) ->
  exists args,
    sorted (config_args board config) = Some args
    /\ config_str board config = Some (join " " (map render args))
    /\ List.length args
       = (List.length (board_kernel_options board)
          + List.length (config_kernel_options config))%nat.
Proof.
  intros board config Hnd.
  destruct (sorted_distinct _ Hnd) as [args Hs].
  exists args. split; [exact Hs|]. split.
  - unfold config_str, config_strs. rewrite Hs. reflexivity.
  - rewrite <- (Permutation_length (sorted_perm _ _ Hs)).
    unfold config_args, items. apply length_app.
Qed.

(** The theorem at the option-merge example. *)
Lemma distinct_options_always_sort_witness :
  exists args,
    sorted (config_args example_board example_config) = Some args
    /\ config_str example_board example_config
       = Some (join " " (map render args))
    /\ List.length args
       = (List.length (board_kernel_options example_board)
          + List.length (config_kernel_options example_config))%nat.
Proof.
  apply (distinct_options_always_sort example_board example_config).
  repeat constructor; simpl; intuition discriminate.
Defined.

Lemma leb_neq_ltb : forall a b,
  String.leb a b = true -> a <> b -> String.ltb a b = true.
Proof.
  intros a b Hle Hne. unfold String.leb, String.ltb in *.
  destruct (String.compare a b) eqn:E; try reflexivity; try discriminate.
  exfalso. apply Hne. apply String.compare_eq_iff. exact E.
Qed.

Lemma insert_clash : forall x y s,
  StronglySorted key_le s -> In y s -> fst y = fst x ->
  val_lt (snd y) (snd x) = None ->
  (forall z, In z s -> fst z = fst x -> z = y) ->
  insert x s = None.
Proof.
  intros x y s Hs; induction Hs as [|z s Hs IH Hz]; intros Hin Hk Hlt Huniq.
  - contradiction.
  - simpl. unfold tuple_lt.
    destruct (String.eqb_spec (fst z) (fst x)) as [He|Hne].
    + assert (z = y) by (apply Huniq; [left; reflexivity|exact He]).
      subst z.
      assert (Hv : val_eqb (snd y) (snd x) = false).
      { destruct (snd y), (snd x); simpl in *; try reflexivity;
          discriminate. }
      rewrite Hv, Hlt. reflexivity.
    + destruct Hin as [->|Hin]; [congruence|].
      assert (Hlt' : String.ltb (fst z) (fst x) = true).
      { apply leb_neq_ltb; [|exact Hne].
        rewrite <- Hk. rewrite Forall_forall in Hz. apply (Hz y Hin). }
      rewrite Hlt'. rewrite IH; auto.
      intros w Hw. apply Huniq; right; exact Hw.
Qed.

Lemma sorted_clash : forall l1 l2 x y,
  fst y = fst x -> val_lt (snd y) (snd x) = None -> In y l2 ->
  (forall z, In z l2 -> fst z = fst x -> z = y) ->
  sorted (l1 ++ x :: l2) = None.
Proof.
  induction l1 as [|a l1 IH]; intros l2 x y Hk Hlt Hin Huniq; simpl.
  - destruct (sorted l2) as [s|] eqn:Hs; [|reflexivity].
    pose proof (sorted_perm _ _ Hs) as Hp.
    apply insert_clash with y; auto.
    + eapply sorted_StronglySorted; eassumption.
    + apply (Permutation_in _ Hp); exact Hin.
    + intros z Hz. apply Huniq.
      apply (Permutation_in _ (Permutation_sym Hp)); exact Hz.
  - rewrite (IH l2 x y); auto.
Qed.

Lemma get_In : forall k v (d : KERNEL_OPTIONS),
  get k d = Some v -> In (k, v) d.
Proof.
  intros k v d; induction d as [|[k' v'] d IH]; simpl; intros H;
    [discriminate|].
  destruct (String.eqb_spec k k') as [->|Hne].
  - injection H as ->. left; reflexivity.
  - right; apply IH; exact H.
Qed.

Lemma wf_dict_unique : forall k v v' (d : KERNEL_OPTIONS),
  wf_dict d -> In (k, v) d -> In (k, v') d -> v = v'.
Proof.
  intros k v v' d; induction d as [|[k0 v0] d IH]; intros Hwf H1 H2;
    [contradiction|].
  inversion Hwf as [|? ? Hnot Hwf']; subst.
  destruct H1 as [H1|H1], H2 as [H2|H2].
  - congruence.
  - injection H1 as -> ->. exfalso. apply Hnot.
    change k with (fst (k, v')). apply in_map; exact H2.
  - injection H2 as -> ->. exfalso. apply Hnot.
    change k with (fst (k, v)). apply in_map; exact H1.
  - apply IH; assumption.
Qed.

(** X4: when the board and the config set the same option, one to a
    boolean and the other to a string, the sort of the items compares the
    two values and fails; [build_sel4] then raises [TypeError] after it
    has created its build directories and printed its message, without
    running any command. *)
Theorem mixed_clash_raises : forall board config k vb vc,
  wf_dict (board_kernel_options board) ->
  wf_dict (config_kernel_options config) ->
  get k (board_kernel_options board) = Some vb ->
  get k (config_kernel_options config) = Some vc ->
  val_lt vc vb = None ->
  sorted (config_args board config) = None
  /\ forall h sel4_dir root build_dir hist,
       fst (build_sel4 h sel4_dir root build_dir board config hist)
       = Raise "TypeError"
       /\ commands
            (snd (build_sel4 h sel4_dir root build_dir board config hist))
          = [].
Proof.
  intros board config k vb vc Hwb Hwc Hb Hc Hlt.
  assert (Hs : sorted (config_args board config) = None).
  { apply get_In in Hb. apply get_In in Hc.
    destruct (in_split _ _ Hb) as (b1 & b2 & Hsplit).
    unfold config_args, items. rewrite Hsplit, <- app_assoc. simpl.
    apply sorted_clash with (k, vc); auto.
    - apply in_or_app; right; exact Hc.
    - intros [kz vz] Hz Hkz. simpl in Hkz. subst kz.
      apply in_app_or in Hz as [Hz|Hz].
      + exfalso. unfold wf_dict, keys in Hwb. rewrite Hsplit in Hwb.
        rewrite map_app in Hwb. simpl in Hwb.
        apply NoDup_remove_2 in Hwb. apply Hwb.
        apply in_or_app; right.
        change k with (fst (k, vz)). apply in_map; exact Hz.
      + f_equal. eapply wf_dict_unique; eassumption. }
  split; [exact Hs|].
  intros h sel4_dir root build_dir hist.
  unfold build_sel4, config_str, config_strs. rewrite Hs. simpl.
  split; reflexivity.
Qed.

(** The theorem at a board and a config that set [KernelIsMCS] to a
    boolean and to a string. *)
Lemma mixed_clash_raises_witness :
  sorted (config_args clash_board mixed_config) = None
  /\ forall h sel4_dir root build_dir hist,
       fst (build_sel4 h sel4_dir root build_dir clash_board mixed_config
              hist)
       = Raise "TypeError"
       /\ commands
            (snd (build_sel4 h sel4_dir root build_dir clash_board
                    mixed_config hist))
          = [].
Proof.
  apply (mixed_clash_raises clash_board mixed_config "KernelIsMCS"
           (VBool true) (VStr "yes")).
  - constructor; [simpl; tauto|constructor].
  - constructor; [simpl; tauto|constructor].
  - reflexivity.
  - reflexivity.
  - reflexivity.
Defined.

End OptionMore.

(* ================================================================== *)
(** * More on the runs of the pipeline: the commands *)
(* ================================================================== *)

Module RunMore.
Import Options Build Props MoreProps Fixtures TraceFacts FailFastFacts.

Lemma when_ok_bind :
  forall A B (S1 S2 S : list Action -> Prop) (m : M A) (f : A -> M B),
  when_ok S1 m -> (forall a, when_ok S2 (f a)) ->
  (forall l1 l2, S1 l1 -> S2 l2 -> S (l1 ++ l2)) ->
  when_ok S (bind m f).
Proof.
  intros A B S1 S2 S m f Hm Hf HS hist. unfold bind.
  specialize (Hm hist).
  destruct (m hist) as [[a|msg] e1]; simpl in *; [|discriminate].
  specialize (Hf a (hist ++ e1)).
  destruct (f a (hist ++ e1)) as [r e2]; simpl in *.
  intros Hr. apply HS; auto.
Qed.

Lemma when_ok_system :
  forall A (S2 S : list Action -> Prop) h cmd (k : Z -> M A),
  checks_status k -> when_ok S2 (k 0%Z) ->
  (forall l, S2 l -> S (System cmd 0%Z :: l)) ->
  when_ok S (bind (system h cmd) k).
Proof.
  intros A S2 S h cmd k Hc Hk HS hist. unfold bind, system.
  destruct (Z.eq_dec (system_status h hist cmd) 0) as [Hz|Hnz].
  - rewrite Hz. specialize (Hk (hist ++ [System cmd 0%Z])).
    destruct (k 0%Z _) as [r e]; simpl in *.
    intros Hr. apply HS; auto.
  - destruct (Hc _ (hist ++ [System cmd (system_status h hist cmd)]) Hnz)
      as [msg ->].
    simpl. discriminate.
Qed.

Lemma when_ok_always : forall A (S : list Action -> Prop) (m : M A),
  always S m -> when_ok S m.
Proof. intros A S m H hist _. apply H. Qed.

(** ** The commands of a run that returns normally *)

Lemma runs_in_silent : forall A (P : list string -> Prop) (m : M A),
  always (Forall silent) m -> P [] -> runs_in P m.
Proof.
  intros A P m H HP hist _. rewrite (commands_silent _ (H hist)). exact HP.
Qed.

Lemma runs_in_bind :
  forall A B (c1 c2 : list string) (m : M A) (f : A -> M B),
  runs_in (eq c1) m -> (forall a, runs_in (eq c2) (f a)) ->
  runs_in (eq (c1 ++ c2)) (bind m f).
Proof.
  intros A B c1 c2 m f Hm Hf.
  eapply when_ok_bind; [exact Hm|exact Hf|].
  intros l1 l2 H1 H2. simpl in *. rewrite commands_app, <- H1, <- H2.
  reflexivity.
Qed.

Lemma runs_in_silent_then :
  forall A B (P : list string -> Prop) (m : M A) (f : A -> M B),
  always (Forall silent) m -> (forall a, runs_in P (f a)) ->
  runs_in P (bind m f).
Proof.
  intros A B P m f Hm Hf.
  eapply when_ok_bind; [apply when_ok_always; exact Hm|exact Hf|].
  intros l1 l2 H1 H2. simpl in *.
  rewrite commands_app, (commands_silent _ H1). exact H2.
Qed.

Lemma runs_in_system :
  forall A (c : list string) h cmd (k : Z -> M A),
  checks_status k -> runs_in (eq c) (k 0%Z) ->
  runs_in (eq (cmd :: c)) (bind (system h cmd) k).
Proof.
  intros A c h cmd k Hc Hk.
  eapply when_ok_system; [exact Hc|exact Hk|].
  intros l Hl. simpl in *. unfold commands in *. simpl. rewrite <- Hl.
  reflexivity.
Qed.

Lemma runs_in_for_each :
  forall A (c : A -> list string) (l : list A) (body : A -> M unit),
  (forall x, runs_in (eq (c x)) (body x)) ->
  runs_in (eq (flat_map c l)) (for_each l body).
Proof.
  intros A c l body H; induction l as [|x l IH]; simpl.
  - apply runs_in_silent; [apply always_ret; constructor|reflexivity].
  - apply runs_in_bind; [apply H|intros _; exact IH].
Qed.

Lemma runs_in_unconditional : forall A (c : list string) (m : M A),
  (forall hist, commands (snd (m hist)) = c) -> runs_in (eq c) m.
Proof. intros A c m H hist _. symmetry. apply H. Qed.

Lemma build_sel4_runs : forall h sel4_dir board config,
  runs_in (eq (kernel_commands h sel4_dir board config))
    (build_sel4 h sel4_dir root_dir ["build"] board config).
Proof.
  intros. unfold build_sel4, kernel_commands, mkdir, print. cbv zeta.
  repeat (apply runs_in_silent_then; [apply each_emit; exact I|intros _]).
  destruct (config_str board config) as [flags|].
  - apply runs_in_system; [checks_status|]. cbv beta; simpl negb; cbv iota.
    apply runs_in_system; [checks_status|]. cbv beta; simpl negb; cbv iota.
    apply runs_in_system; [checks_status|]. cbv beta; simpl negb; cbv iota.
    apply runs_in_silent; [silent_steps|reflexivity].
  - intros hist Hr. discriminate Hr.
Qed.

Lemma build_cell_runs : forall h sel4_dir board config,
  runs_in (eq (cell_commands h sel4_dir board config))
    (build_cell h sel4_dir ["build"] board config).
Proof.
  intros. unfold build_cell, cell_commands.
  apply runs_in_bind; [apply build_sel4_runs|intros _].
  apply (runs_in_bind _ _ [_] [_; _]);
    [apply runs_in_unconditional; intros;
     apply elf_component_commands|intros _].
  apply (runs_in_bind _ _ [_] [_]);
    [apply runs_in_unconditional; intros;
     apply elf_component_commands|intros _].
  apply runs_in_unconditional; intros.
  apply lib_component_commands.
Qed.

Lemma runs_in_then_silent :
  forall A B (c : list string) (m : M A) (f : A -> M B),
  runs_in (eq c) m -> (forall a, always (Forall silent) (f a)) ->
  runs_in (eq c) (bind m f).
Proof.
  intros A B c m f Hm Hf.
  eapply when_ok_bind;
    [exact Hm|intros a; apply when_ok_always; exact (Hf a)|].
  intros l1 l2 H1 H2. simpl in *.
  rewrite commands_app, (commands_silent _ H2), app_nil_r. exact H1.
Qed.

Lemma runs_in_weaken :
  forall A (P : list string -> Prop) (c : list string) (m : M A),
  runs_in (eq c) m -> P c -> runs_in P m.
Proof.
  intros A P c m H HP hist Hr. specialize (H hist Hr). simpl in H.
  rewrite <- H. exact HP.
Qed.

Lemma runs_in_raise : forall A (P : list string -> Prop) msg,
  runs_in P (@raise A msg).
Proof. intros A P msg hist Hr. discriminate Hr. Qed.

Lemma when_ok_lift :
  forall A B (S : list Action -> Prop) (r : result A) (f : A -> M B),
  (forall a, r = Ok a -> when_ok S (f a)) -> when_ok S (bind (lift r) f).
Proof.
  intros A B S r f H hist. unfold bind, lift.
  destruct r as [a|msg]; simpl; [|discriminate].
  specialize (H a eq_refl (hist ++ [])).
  destruct (f a (hist ++ [])) as [r e]; simpl in *. exact H.
Qed.

Lemma runs_in_lift :
  forall A B (P : list string -> Prop) (r : result A) (f : A -> M B),
  (forall a, r = Ok a -> runs_in P (f a)) -> runs_in P (bind (lift r) f).
Proof. intros A B P r f H. apply when_ok_lift. exact H. Qed.

Lemma test_tool_runs : forall h,
  runs_in (eq [(path_str (executable h)
                  ++ " -m unittest discover -s tool -v")%string])
          (test_tool h).
Proof.
  intros. unfold test_tool.
  apply runs_in_system; [checks_assert|].
  apply runs_in_silent; [apply always_assert; constructor|reflexivity].
Qed.

Lemma build_tool_runs : forall h target triple,
  runs_in (eq (tl (tool_commands h triple))) (build_tool h target triple).
Proof.
  intros. unfold build_tool, tool_commands. cbv zeta. simpl tl.
  apply runs_in_silent_then; [apply always_exists; constructor|].
  intros [|]; simpl negb; cbv iota; [|apply runs_in_raise].
  apply runs_in_system; [checks_assert|].
  apply runs_in_silent_then; [apply always_assert; constructor|intros _].
  apply runs_in_system; [checks_assert|].
  apply runs_in_silent_then; [apply always_assert; constructor|intros _].
  apply runs_in_silent; [silent_steps|reflexivity].
Qed.

Lemma build_doc_runs : forall h,
  runs_in (eq [doc_command]) (build_doc h root_dir).
Proof.
  intros. unfold build_doc, doc_command. cbv zeta.
  apply runs_in_system; [checks_assert|].
  apply runs_in_silent; [apply always_assert; constructor|reflexivity].
Qed.

Lemma matrix_runs : forall h sel4_dir,
  runs_in (eq (matrix_commands h sel4_dir))
    (for_each SUPPORTED_BOARDS (fun board =>
       for_each SUPPORTED_CONFIGS (fun config =>
         build_cell h sel4_dir ["build"] board config) ;;
       for_each (examples board) (fun ex =>
         stage_tree h (snd ex)
           (root_dir // "board" // board_name board // "example"
                     // fst ex)))).
Proof.
  intros. unfold matrix_commands.
  apply runs_in_for_each. intros board.
  apply runs_in_then_silent.
  - apply runs_in_for_each. intros config. apply build_cell_runs.
  - intros _. silent_steps.
Qed.

Lemma after_tool_check_runs : forall h sel4_dir target triple (b : bool),
  runs_in
    (eq ((if b then [] else tool_commands h triple)
           ++ doc_command :: matrix_commands h sel4_dir))
    ((if negb b then test_tool h ;; build_tool h target triple else ret tt) ;;
     build_doc h root_dir ;;
     for_each SUPPORTED_BOARDS (fun board =>
       for_each SUPPORTED_CONFIGS (fun config =>
         build_cell h sel4_dir ["build"] board config) ;;
       for_each (examples board) (fun ex =>
         stage_tree h (snd ex)
           (root_dir // "board" // board_name board // "example"
                     // fst ex)))).
Proof.
  intros h sel4_dir target triple b.
  assert (HA : runs_in (eq (doc_command :: matrix_commands h sel4_dir))
                 (build_doc h root_dir ;;
                  for_each SUPPORTED_BOARDS (fun board =>
                    for_each SUPPORTED_CONFIGS (fun config =>
                      build_cell h sel4_dir ["build"] board config) ;;
                    for_each (examples board) (fun ex =>
                      stage_tree h (snd ex)
                        (root_dir // "board" // board_name board
                                  // "example" // fst ex))))).
  { apply (runs_in_bind _ _ [_]); [apply build_doc_runs|intros _].
    apply matrix_runs. }
  destruct b; simpl negb; cbv iota.
  - apply (runs_in_bind _ _ []); [|intros _; exact HA].
    apply runs_in_silent; [apply always_ret; constructor|reflexivity].
  - apply runs_in_bind; [|intros _; exact HA].
    change (tool_commands h triple)
      with ([hd EmptyString (tool_commands h triple)]
              ++ tl (tool_commands h triple)).
    apply runs_in_bind; [apply test_tool_runs|intros _].
    apply build_tool_runs.
Qed.

(** X5: a run of [main] that returns normally has run, in this order:
    the three commands that test, build and strip the packaged tool,
    exactly when the host answered that [bin/microkit] was not there at
    the moment [main] asked (after the directories were made and the
    licenses staged); the command that renders the manual; and then, for
    each board of the catalogue and for each config of the catalogue, in
    their order, the six commands of the cell: configure, build and
    install the kernel, build the loader, the monitor and the library.
    It has run nothing else. *)
Theorem successful_run_commands : forall h arg_sel4 arg_triple hist,
  is_raise (fst (main h arg_sel4 arg_triple hist)) = false ->
  exists sel4_dir,
    expanduser h arg_sel4 = Ok sel4_dir
    /\ commands (snd (main h arg_sel4 arg_triple hist))
       = (if path_exists h (hist ++ before_tool h hist) tool_target
          then []
          else tool_commands h (chosen_triple h arg_triple))
           ++ doc_command :: matrix_commands h sel4_dir.
Proof.
  intros h arg_sel4 arg_triple hist H.
  unfold main, before_tool in *. cbv zeta in *. fold tool_target in *.
  unfold copy in *.
  remember dir_structure as ds eqn:Hds in *.
  remember (Copy ["LICENSE.md"] root_dir) as lic eqn:Hlic in *.
  destruct (bind_inv _ _ _ _ _ H) as (t & e & Hm & H1 & ->). clear H.
  unfold lift in Hm. injection Hm as Ht <-. cbv beta in H1 |- *.
  rewrite app_nil_r in *.
  destruct (bind_inv _ _ _ _ _ H1) as (sel4_dir & e & Hm & H2 & ->). clear H1.
  unfold lift in Hm. injection Hm as Hs <-. cbv beta in H2 |- *.
  rewrite app_nil_r in *.
  exists sel4_dir. split; [exact Hs|].
  destruct (bind_inv _ _ _ _ _ H2) as (ex & e & Hm & H3 & ->). clear H2.
  unfold exists_ in Hm. injection Hm as Hex <-. cbv beta in H3 |- *.
  rewrite app_nil_r in *.
  destruct ex; [|discriminate H3].
  change (negb true) with false in *. cbv iota in *.
  destruct (bind_inv _ _ _ _ _ H3) as ([] & e & Hm & H4 & ->). clear H3.
  rewrite for_each_mkdir in Hm. injection Hm as <-. cbv beta in H4 |- *.
  destruct (bind_inv _ _ _ _ _ H4) as ([] & e & Hm & H5 & ->). clear H4.
  unfold emit in Hm. injection Hm as <-. cbv beta in H5 |- *.
  destruct (bind_inv _ _ _ _ _ H5) as ([] & e & Hm & H6 & ->). clear H5.
  cbv beta in H6 |- *.
  destruct (bind_inv _ _ _ _ _ H6) as (b & e' & Hm' & H7 & ->). clear H6.
  unfold exists_ in Hm'. injection Hm' as Hb <-. cbv beta in H7 |- *.
  pose proof (silent_stage_tree h ["LICENSES"] (root_dir // "LICENSES")
                ((hist ++ map Mkdir ds) ++ [lic])) as Hsilent.
  rewrite Hm in Hsilent. simpl snd in Hsilent.
  rewrite <- app_assoc in Hm. rewrite Hm. simpl snd.
  replace (path_exists h (hist ++ map Mkdir ds ++ lic :: e) tool_target)
    with b.
  2:{ rewrite <- Hb. f_equal. rewrite ?app_nil_r, <- ?app_assoc.
      reflexivity. }
  rewrite !commands_app.
  rewrite (commands_silent (map Mkdir ds))
    by (apply Forall_forall; intros a Ha; apply in_map_iff in Ha as [q [<- _]];
        exact I).
  rewrite (commands_silent e Hsilent).
  subst lic.
  change (commands [Copy ["LICENSE.md"] root_dir]) with (@nil string).
  change (commands []) with (@nil string).
  cbn [app].
  replace (match arg_triple with Some t0 => t0 | None => t end)
    with (chosen_triple h arg_triple) in *
    by (unfold chosen_triple; rewrite Ht; reflexivity).
  symmetry.
  apply (after_tool_check_runs h sel4_dir tool_target
           (chosen_triple h arg_triple) b _ H7).
Qed.

(** The theorem on the host where every command succeeds and the tool
    is not there yet. *)
Lemma successful_run_commands_witness :
  exists sel4_dir,
    expanduser good_host ["seL4"] = Ok sel4_dir
    /\ commands (snd (main good_host ["seL4"] None []))
       = (if path_exists good_host ([] ++ before_tool good_host [])
               tool_target
          then []
          else tool_commands good_host (chosen_triple good_host None))
           ++ doc_command :: matrix_commands good_host sel4_dir.
Proof.
  apply (successful_run_commands good_host ["seL4"] None []).
  vm_compute. reflexivity.
Defined.

End RunMore.

(* ================================================================== *)
(** * More on staging: what the tree holds at the end *)
(* ================================================================== *)

Module StagingMore.
Import Options Build Props MoreProps Fixtures TraceFacts FailFastFacts
       StagingFacts RunMore.

Lemma path_eqb_refl : forall p, path_eqb p p = true.
Proof.
  induction p as [|x p IH]; simpl; [reflexivity|].
  rewrite String.eqb_refl, IH. reflexivity.
Qed.

Lemma frozen_not_tool : forall d, frozen_dest d -> d <> tool_target.
Proof. intros d Hf ->. exact (tool_target_not_frozen Hf). Qed.

Lemma frozen_not_root : forall d, frozen_dest d -> d <> root_dir.
Proof. intros d Hf ->. exact (proj1 license_not_frozen Hf). Qed.

Lemma path_eqb_neq : forall p q, p <> q -> path_eqb p q = false.
Proof.
  intros p q H. destruct (path_eqb p q) eqn:E; [|reflexivity].
  apply path_eqb_eq in E. contradiction.
Qed.

Lemma scan_frozen : forall tr d,
  Staged tr -> frozen_dest d ->
  forall acc, scan d acc tr = acc \/ scan d acc tr = Some (Chmod d o444).
Proof.
  intros tr d HS Hf;
    induction HS as [|a l Ha _ IH|src d0 l Hd _ IH|l _ IH|src l _ IH];
    intros acc.
  - left; reflexivity.
  - simpl. replace (touches d a) with false; [apply IH|].
    destruct a; simpl in *; try reflexivity; contradiction.
  - simpl. destruct (path_eqb d d0) eqn:E.
    + apply path_eqb_eq in E. subst d0.
      destruct (IH (Some (Chmod d o444))) as [H|H]; right; exact H.
    + apply IH.
  - simpl. rewrite (path_eqb_neq _ _ (frozen_not_root _ Hf)). apply IH.
  - simpl. rewrite (path_eqb_neq _ _ (frozen_not_tool _ Hf)). apply IH.
Qed.

Lemma scan_copied : forall tr d src,
  Staged tr -> frozen_dest d -> In (Copy src d) tr ->
  forall acc, scan d acc tr = Some (Chmod d o444).
Proof.
  intros tr d src HS Hf;
    induction HS as [|a l Ha _ IH|s0 d0 l Hd HSl IH|l _ IH|s0 l _ IH];
    intros Hin acc.
  - contradiction.
  - destruct Hin as [->|Hin]; [contradiction|].
    simpl. destruct (touches d a); apply IH; exact Hin.
  - destruct Hin as [Heq|[Heq|[Heq|Hin]]]; try discriminate.
    + injection Heq as -> ->. simpl. rewrite path_eqb_refl.
      destruct (scan_frozen l d HSl Hf (Some (Chmod d o444))) as [H|H];
        exact H.
    + simpl. destruct (path_eqb d d0); apply IH; exact Hin.
  - destruct Hin as [Heq|Hin].
    + injection Heq as _ <-. exfalso. exact (frozen_not_root _ Hf eq_refl).
    + simpl. destruct (path_eqb d root_dir); apply IH; exact Hin.
  - destruct Hin as [Heq|[Heq|Hin]]; try discriminate.
    + injection Heq as _ <-. exfalso. exact (frozen_not_tool _ Hf eq_refl).
    + simpl. destruct (path_eqb d tool_target); apply IH; exact Hin.
Qed.

(** X6: in a run of [main] that returns normally, a file that was
    copied to a destination below [board/] or [LICENSES/] of the SDK
    tree is read-only at the end: the last action of the run that
    unlinks, copies to or changes the mode of that destination is
    [chmod 0o444]. *)
Theorem staged_file_ends_read_only :
  forall h arg_sel4 arg_triple hist src d,
  is_raise (fst (main h arg_sel4 arg_triple hist)) = false ->
  In (Copy src d) (snd (main h arg_sel4 arg_triple hist)) ->
  frozen_dest d ->
  last_touch d (snd (main h arg_sel4 arg_triple hist))
  = Some (Chmod d o444).
Proof.
  intros h arg_sel4 arg_triple hist src d _ Hin Hf.
  apply (scan_copied _ d src (main_staged h arg_sel4 arg_triple hist) Hf Hin).
Qed.

Lemma staged_file_ends_read_only_witness :
  last_touch (root_dir // "LICENSES" // "a.h")
    (snd (main good_host ["seL4"] None []))
  = Some (Chmod (root_dir // "LICENSES" // "a.h") o444).
Proof.
  apply (staged_file_ends_read_only good_host ["seL4"] None []
           ["LICENSES"; "a.h"]).
  - vm_compute. reflexivity.
  - vm_compute. do 78 right. left. reflexivity.
  - exists ["a.h"]. right. reflexivity.
Defined.

(** ** The files of a run that returns normally *)

Lemma copies_to_nil : forall A (m : M A), copies_to [] m.
Proof. intros A m hist _ d []. Qed.

Lemma copies_to_bind :
  forall A B (D1 D2 : list Path) (m : M A) (f : A -> M B),
  copies_to D1 m -> (forall a, copies_to D2 (f a)) ->
  copies_to (D1 ++ D2) (bind m f).
Proof.
  intros A B D1 D2 m f Hm Hf.
  eapply when_ok_bind; [exact Hm|exact Hf|].
  intros l1 l2 H1 H2 d Hd. simpl in *.
  apply in_app_or in Hd as [Hd|Hd].
  - destruct (H1 d Hd) as [src Hs]. exists src. apply in_or_app; auto.
  - destruct (H2 d Hd) as [src Hs]. exists src. apply in_or_app; auto.
Qed.

Lemma copies_to_skip :
  forall A B (D : list Path) (m : M A) (f : A -> M B),
  (forall a, copies_to D (f a)) -> copies_to D (bind m f).
Proof.
  intros A B D m f Hf.
  apply (copies_to_bind _ _ [] D); [apply copies_to_nil|exact Hf].
Qed.

Lemma copies_to_system :
  forall A (D : list Path) h cmd (k : Z -> M A),
  checks_status k -> copies_to D (k 0%Z) ->
  copies_to D (bind (system h cmd) k).
Proof.
  intros A D h cmd k Hc Hk.
  eapply when_ok_system; [exact Hc|exact Hk|].
  intros l Hl d Hd. destruct (Hl d Hd) as [src Hs].
  exists src. right; exact Hs.
Qed.

Lemma copies_to_file : forall src d,
  copies_to [d] (unlink d ;; copy src d ;; chmod d o444).
Proof.
  intros src d hist _ d' [<-|[]]. exists src. simpl. auto.
Qed.

Lemma copies_to_file_then : forall A src d (D : list Path) (k : M A),
  copies_to D k ->
  copies_to (d :: D) (unlink d ;; copy src d ;; chmod d o444 ;; k).
Proof.
  intros A src d D k Hk hist.
  unfold bind, unlink, copy, chmod, emit.
  match goal with |- context [k ?hh] =>
    specialize (Hk hh); destruct (k hh) as [r e] end.
  simpl in *. intros Hr d' [<-|Hd].
  - exists src. auto.
  - destruct (Hk Hr d' Hd) as [s Hs]. exists s. auto.
Qed.

Lemma copies_to_for_each :
  forall A (D : A -> list Path) (l : list A) (body : A -> M unit),
  (forall x, copies_to (D x) (body x)) ->
  copies_to (flat_map D l) (for_each l body).
Proof.
  intros A D l body H; induction l as [|x l IH]; simpl.
  - apply copies_to_nil.
  - apply copies_to_bind; [apply H|intros _; exact IH].
Qed.

Lemma build_sel4_copies : forall h sel4_dir build_dir board config,
  copies_to [cell_sdk board config // "elf" // "sel4.elf"]
    (build_sel4 h sel4_dir root_dir build_dir board config).
Proof.
  intros. unfold build_sel4, mkdir, print. cbv zeta.
  do 4 (apply copies_to_skip; intros _).
  destruct (config_str board config) as [flags|];
    [|intros hist Hr; discriminate Hr].
  apply copies_to_system; [checks_status|]. cbv beta; simpl negb; cbv iota.
  apply copies_to_system; [checks_status|]. cbv beta; simpl negb; cbv iota.
  apply copies_to_system; [checks_status|]. cbv beta; simpl negb; cbv iota.
  apply copies_to_file_then. apply copies_to_nil.
Qed.

Lemma build_elf_component_copies :
  forall h name build_dir board config defines,
  copies_to [cell_sdk board config // "elf" // (name ++ ".elf")%string]
    (build_elf_component h name root_dir build_dir board config defines).
Proof.
  intros. unfold build_elf_component, mkdir. cbv zeta.
  apply copies_to_skip; intros _.
  apply copies_to_system; [checks_status|]. cbv beta; simpl negb; cbv iota.
  apply copies_to_file.
Qed.

Lemma build_lib_component_copies : forall h name build_dir board config,
  copies_to [ cell_sdk board config // "lib" // (name ++ ".a")%string;
              cell_sdk board config // "lib" // "microkit.ld" ]
    (build_lib_component h name root_dir build_dir board config).
Proof.
  intros. unfold build_lib_component, mkdir. cbv zeta.
  apply copies_to_skip; intros _.
  apply copies_to_system; [checks_status|]. cbv beta; simpl negb; cbv iota.
  apply copies_to_file_then. apply copies_to_file_then. apply copies_to_nil.
Qed.

Lemma build_cell_copies : forall h sel4_dir build_dir board config,
  copies_to (cell_artifacts board config)
    (build_cell h sel4_dir build_dir board config).
Proof.
  intros. unfold build_cell, cell_artifacts.
  apply (copies_to_bind _ _ [_] [_; _; _; _]);
    [apply build_sel4_copies|intros _].
  apply (copies_to_bind _ _ [_] [_; _; _]);
    [apply (build_elf_component_copies h "loader")|intros _].
  apply (copies_to_bind _ _ [_] [_; _]);
    [apply (build_elf_component_copies h "monitor")|intros _].
  apply (build_lib_component_copies h "libmicrokit").
Qed.

Lemma main_copies : forall h arg_sel4 arg_triple,
  copies_to
    (flat_map
       (fun board =>
          flat_map (fun config => cell_artifacts board config)
                   SUPPORTED_CONFIGS)
       SUPPORTED_BOARDS)
    (main h arg_sel4 arg_triple).
Proof.
  intros. unfold main. cbv zeta.
  apply copies_to_skip; intros ?.
  apply copies_to_skip; intros ?.
  apply copies_to_skip; intros [|]; simpl negb; cbv iota;
    [|intros hist Hr; discriminate Hr].
  do 6 (apply copies_to_skip; intros ?).
  apply copies_to_for_each. intros board.
  rewrite <- (app_nil_r (flat_map _ SUPPORTED_CONFIGS)).
  apply copies_to_bind; [|intros _; apply copies_to_nil].
  apply copies_to_for_each. intros config. apply build_cell_copies.
Qed.

Lemma cell_artifact_frozen : forall board config d,
  In d (cell_artifacts board config) -> frozen_dest d.
Proof.
  intros board config d Hd. unfold cell_artifacts, cell_sdk in Hd.
  simpl in Hd.
  destruct Hd as [<-|[<-|[<-|[<-|[<-|[]]]]]]; frozen.
Qed.

(** X7: a run of [main] that returns normally has copied, for every
    supported board and every supported configuration, the five fixed
    files of the cell ([elf/sel4.elf], [elf/loader.elf],
    [elf/monitor.elf], [lib/libmicrokit.a], [lib/microkit.ld]), and
    the last action that touches each of them is [chmod 0o444]. *)
Theorem successful_run_stages_every_cell :
  forall h arg_sel4 arg_triple hist board config d,
  is_raise (fst (main h arg_sel4 arg_triple hist)) = false ->
  In board SUPPORTED_BOARDS -> In config SUPPORTED_CONFIGS ->
  In d (cell_artifacts board config) ->
  (exists src, In (Copy src d) (snd (main h arg_sel4 arg_triple hist)))
  /\ last_touch d (snd (main h arg_sel4 arg_triple hist))
     = Some (Chmod d o444).
Proof.
  intros h arg_sel4 arg_triple hist board config d Hok Hb Hc Hd.
  assert (Hcopy : exists src,
             In (Copy src d) (snd (main h arg_sel4 arg_triple hist))).
  { apply (main_copies h arg_sel4 arg_triple hist Hok).
    apply in_flat_map. exists board. split; [exact Hb|].
    apply in_flat_map. exists config. split; [exact Hc|exact Hd]. }
  split; [exact Hcopy|].
  destruct Hcopy as [src Hsrc].
  apply (scan_copied _ d src (main_staged h arg_sel4 arg_triple hist)).
  - eapply cell_artifact_frozen; eassumption.
  - exact Hsrc.
Qed.

Lemma successful_run_stages_every_cell_witness :
  (exists src,
      In (Copy src (root_dir // "board" // "zcu102" // "debug" // "elf"
                             // "loader.elf"))
         (snd (main good_host ["seL4"] None [])))
  /\ last_touch (root_dir // "board" // "zcu102" // "debug" // "elf"
                          // "loader.elf")
       (snd (main good_host ["seL4"] None []))
     = Some (Chmod (root_dir // "board" // "zcu102" // "debug" // "elf"
                             // "loader.elf") o444).
Proof.
  apply (successful_run_stages_every_cell good_host ["seL4"] None []
           (nth 1 SUPPORTED_BOARDS example_board)
           (nth 1 SUPPORTED_CONFIGS example_config)).
  - vm_compute. reflexivity.
  - right; left; reflexivity.
  - right; left; reflexivity.
  - right; left; reflexivity.
Defined.

End StagingMore.

(* ================================================================== *)
(** * More on the cells: where they work *)
(* ================================================================== *)

Module CellMore.
Import Options Build Props MoreProps Fixtures TraceFacts FailFastFacts
       StagingFacts ArchiveFacts RunMore.

(** ** Where a cell works *)

Lemma under_refl : forall d, under d d.
Proof. intros d. exists []. symmetry; apply app_nil_r. Qed.











(** The names of the catalogue are path components. *)
Lemma catalogue_names_are_components : forall board config,
  In board SUPPORTED_BOARDS -> In config SUPPORTED_CONFIGS ->
  component (board_name board) = true
  /\ component (config_name config) = true.
Proof.
  intros board config Hb Hc. split.
  - simpl in Hb.
    repeat (destruct Hb as [<-|Hb]; [reflexivity|]). destruct Hb.
  - simpl in Hc.
    repeat (destruct Hc as [<-|Hc]; [reflexivity|]). destruct Hc.
Qed.



End CellMore.

(* ================================================================== *)
(** * More on [stage_tree] and on [main] *)
(* ================================================================== *)

Module MainMore.
Import Options Build Props MoreProps Fixtures TraceFacts FailFastFacts
       StagingFacts ArchiveFacts RunMore StagingMore.

(** ** The layout [stage_tree] keeps *)




(** ** How [main] starts *)






(** How [expanduser] reads the first component: the home of the
    current user for a bare tilde, the home of the named user for a
    tilde and a name, [RuntimeError] for a user the host does not know,
    and any other path as it is. *)
Lemma expanduser_cases :
  expanduser good_host ["~"; "seL4"] = Ok [EmptyString; "home"; "dev"; "seL4"]
  /\ expanduser good_host ["~root"; "seL4"] = Raise "RuntimeError"
  /\ expanduser good_host ["seL4"] = Ok ["seL4"]
  /\ expanduser good_host [EmptyString; "~"; "seL4"]
     = Ok [EmptyString; "~"; "seL4"].
Proof. repeat split; reflexivity. Qed.

(** ** A packaged tool that is there already *)

Lemma each_exists_known :
  forall (P : Action -> Prop) A h p b (f : bool -> M A),
  (forall hist, path_exists h hist p = b) ->
  always (Forall P) (f b) ->
  always (Forall P) (bind (exists_ h p) f).
Proof.
  intros P A h p b f Hb Hf hist. unfold bind, exists_. rewrite Hb.
  specialize (Hf (hist ++ [])). destruct (f b (hist ++ [])) as [r e].
  exact Hf.
Qed.

Lemma bind_ext : forall A B (m : M A) (f g : A -> M B) hist,
  (forall a hist', f a hist' = g a hist') ->
  bind m f hist = bind m g hist.
Proof.
  intros A B m f g hist H. unfold bind.
  destruct (m hist) as [[a|msg] e1]; [rewrite H|]; reflexivity.
Qed.

Lemma bind_exists_known :
  forall A h p b (f g : bool -> M A) hist,
  (forall hist', path_exists h hist' p = b) ->
  (forall hist', f b hist' = g b hist') ->
  bind (exists_ h p) f hist = bind (exists_ h p) g hist.
Proof.
  intros A h p b f g hist Hb H. unfold bind, exists_.
  rewrite Hb, H. reflexivity.
Qed.

Lemma spares_frozen : forall d,
  frozen_dest d ->
  spares_tool (Unlink d) /\ (forall src, spares_tool (Copy src d))
  /\ (forall mode, spares_tool (Chmod d mode)).
Proof.
  intros d Hf. pose proof (frozen_not_tool d Hf) as H.
  repeat split; intros; exact H.
Qed.

Lemma spares_stage_tree : forall h source_dir dest_dir,
  frozen_dest dest_dir ->
  always (Forall spares_tool) (stage_tree h source_dir dest_dir).
Proof.
  intros h source_dir dest_dir Hf. apply each_stage_tree. intros p rel.
  destruct (spares_frozen _ (frozen_dest_app dest_dir rel Hf))
    as (H1 & H2 & H3).
  repeat split; [exact H1|apply H2|apply H3].
Qed.

Ltac spares_steps :=
  unfold mkdir, print, unlink, copy, chmod;
  repeat first
    [ apply always_system; intros; repeat constructor
    | apply always_ret; constructor
    | apply always_raise; constructor
    | apply always_assert; constructor
    | apply always_lift; constructor
    | apply each_emit; exact I
    | apply each_emit; unfold spares_tool; apply frozen_not_tool; frozen
    | apply spares_stage_tree; frozen
    | apply each_for_each; intros ? _
    | match goal with
      | |- always _ (if ?b then _ else _) => destruct b
      | |- always _ (match ?o with Some _ => _ | None => _ end) =>
          destruct o
      end
    | apply each_bind; [|intros ?] ].

Lemma build_cell_spares : forall h sel4_dir build_dir board config,
  always (Forall spares_tool)
    (build_cell h sel4_dir build_dir board config).
Proof.
  intros. unfold build_cell, build_sel4, build_elf_component,
    build_lib_component. cbv zeta. spares_steps.
Qed.

Lemma main_spares : forall h arg_sel4 arg_triple,
  (forall hist, path_exists h hist tool_target = true) ->
  always (Forall spares_tool) (main h arg_sel4 arg_triple).
Proof.
  intros h arg_sel4 arg_triple Hex. unfold main. cbv zeta.
  fold tool_target.
  apply each_bind; [spares_steps|intros t].
  apply each_bind; [spares_steps|intros sel4_dir].
  apply each_bind; [apply always_exists; constructor|intros ex].
  destruct (negb ex); [apply always_raise; constructor|].
  apply each_bind; [spares_steps|intros _].
  apply each_bind;
    [apply each_emit; unfold spares_tool; intros H; discriminate H
    |intros _].
  apply each_bind; [spares_steps|intros _].
  apply (each_exists_known _ _ _ _ true); [exact Hex|].
  change (negb true) with false. cbv iota.
  apply each_bind; [spares_steps|intros _].
  apply each_bind; [unfold build_doc; spares_steps|intros _].
  apply each_for_each; intros board _.
  apply each_bind; [|intros _].
  - apply each_for_each; intros config _. apply build_cell_spares.
  - spares_steps.
Qed.

Lemma main_ignores_triple : forall h arg_sel4 t1 t2 hist,
  (forall hist', path_exists h hist' tool_target = true) ->
  main h arg_sel4 t1 hist = main h arg_sel4 t2 hist.
Proof.
  intros h arg_sel4 t1 t2 hist Hex. unfold main. cbv zeta.
  fold tool_target.
  apply bind_ext; intros t hist1.
  apply bind_ext; intros sel4_dir hist1'.
  apply bind_ext; intros ex hist2.
  destruct (negb ex); [reflexivity|].
  apply bind_ext; intros _ hist3.
  apply bind_ext; intros _ hist4.
  apply bind_ext; intros _ hist5.
  apply (bind_exists_known _ _ _ true); [exact Hex|].
  intros hist6. reflexivity.
Qed.

(** X11: when [bin/microkit] is there already, a run of [main] never
    removes it, copies to it or changes its mode, and the run is the
    same whatever [--tool-target-triple] says. *)
Theorem existing_tool_is_kept : forall h arg_sel4 t1 t2 hist,
  (forall hist', path_exists h hist' tool_target = true) ->
  Forall spares_tool (snd (main h arg_sel4 t1 hist))
  /\ main h arg_sel4 t1 hist = main h arg_sel4 t2 hist.
Proof.
  intros h arg_sel4 t1 t2 hist Hex. split.
  - apply main_spares; exact Hex.
  - apply main_ignores_triple; exact Hex.
Qed.

Lemma existing_tool_is_kept_witness :
  Forall spares_tool
    (snd (main host_with_tool ["seL4"] (Some "aarch64-apple-darwin") []))
  /\ main host_with_tool ["seL4"] (Some "aarch64-apple-darwin") []
     = main host_with_tool ["seL4"] None [].
Proof.
  apply (existing_tool_is_kept host_with_tool ["seL4"]
           (Some "aarch64-apple-darwin") None []).
  intros hist'. reflexivity.
Defined.

End MainMore.

(* ================================================================== *)
(** * More on [main]: directories are made before they are used *)
(* ================================================================== *)

Module DirsMore.
Import Options Build Props MoreProps Fixtures TraceFacts FailFastFacts
       StagingFacts ArchiveFacts RunMore StagingMore CellMore MainMore.

Lemma prepared_mono : forall tr made made',
  incl made made' -> prepared made tr -> prepared made' tr.
Proof.
  induction tr as [|a tr IH]; intros made made' Hi H; [exact I|].
  destruct a; simpl in *;
    try (eapply IH; [exact Hi|exact H]).
  - eapply IH; [|exact H].
    intros q [<-|Hq]; [left; reflexivity|right; apply Hi; exact Hq].
  - destruct H as [[q [Hq Hu]] H]. split.
    + exists q. split; [apply Hi; exact Hq|exact Hu].
    + eapply IH; [exact Hi|exact H].
Qed.

Lemma prepared_app : forall made l1 l2,
  prepared made l1 -> prepared made l2 -> prepared made (l1 ++ l2).
Proof.
  intros made l1; revert made.
  induction l1 as [|a l1 IH]; intros made l2 H1 H2; [exact H2|].
  destruct a; simpl in *; try (apply IH; assumption).
  - apply IH; [exact H1|].
    eapply prepared_mono; [|exact H2]. intros q Hq; right; exact Hq.
  - destruct H1 as [Hq H1]. split; [exact Hq|apply IH; assumption].
Qed.

Lemma prepared_mkdirs : forall D made tr,
  prepared (D ++ made) tr -> prepared made (map Mkdir D ++ tr).
Proof.
  induction D as [|p D IH]; intros made tr H; [exact H|].
  simpl. apply IH. eapply prepared_mono; [|exact H].
  intros q Hq. simpl in Hq. apply in_or_app.
  destruct Hq as [<-|Hq]; [right; left; reflexivity|].
  apply in_app_or in Hq as [Hq|Hq]; [left; exact Hq|right; right; exact Hq].
Qed.

Lemma prepared_split : forall pre made src d post,
  prepared made (pre ++ Copy src d :: post) ->
  exists q, (In q made \/ In (Mkdir q) pre) /\ under (target_dir d) q.
Proof.
  induction pre as [|a pre IH]; intros made src d post H.
  - simpl in H. destruct H as [[q [Hq Hu]] _]. exists q; auto.
  - assert (Hrest : forall made', prepared made' (pre ++ Copy src d :: post) ->
              (forall q, In q made' -> In q made \/ In (Mkdir q) (a :: pre)) ->
              exists q, (In q made \/ In (Mkdir q) (a :: pre))
                        /\ under (target_dir d) q).
    { intros made' H' Hm. destruct (IH _ _ _ _ H') as [q [[Hq|Hq] Hu]].
      - exists q. split; [apply Hm; exact Hq|exact Hu].
      - exists q. split; [right; right; exact Hq|exact Hu]. }
    destruct a; simpl in H;
      try (apply (Hrest made H); intros q Hq; left; exact Hq).
    + apply (Hrest _ H). intros q [<-|Hq];
        [right; left; reflexivity|left; exact Hq].
    + destruct H as [_ H]. apply (Hrest made H); intros q Hq; left; exact Hq.
Qed.

Section Prepared.
Variable made : list Path.

Lemma prep_bind : forall A B (m : M A) (f : A -> M B),
  always (prepared made) m -> (forall a, always (prepared made) (f a)) ->
  always (prepared made) (bind m f).
Proof. intros. apply always_bind; auto. apply prepared_app. Qed.

Lemma prep_for_each : forall A (l : list A) (body : A -> M unit),
  (forall x, In x l -> always (prepared made) (body x)) ->
  always (prepared made) (for_each l body).
Proof.
  intros. apply always_for_each; auto; [exact I|apply prepared_app].
Qed.

Lemma prep_system : forall h cmd, always (prepared made) (system h cmd).
Proof. intros h cmd hist. exact I. Qed.

Lemma prep_mkdir : forall p, always (prepared made) (mkdir p).
Proof. intros p hist. exact I. Qed.

Lemma prep_print : forall s, always (prepared made) (print s).
Proof. intros s hist. exact I. Qed.

Lemma target_dir_frozen : forall d, frozen_dest d -> target_dir d = parent d.
Proof.
  intros d Hf. unfold target_dir.
  rewrite (path_eqb_neq _ _ (frozen_not_root d Hf)). reflexivity.
Qed.

(** A file staged right after its directory was made. *)
Lemma prep_stage_tree : forall h source_dir dest_dir,
  frozen_dest dest_dir ->
  always (prepared made) (stage_tree h source_dir dest_dir).
Proof.
  intros h source_dir dest_dir Hf. unfold stage_tree.
  apply prep_bind; [apply always_rglob; exact I|].
  intros ps. apply prep_for_each. intros p _.
  apply prep_bind; [apply always_is_file; exact I|].
  intros [|]; simpl negb; cbv iota; [|apply always_ret; exact I].
  destruct (relative_to p source_dir) as [rel|];
    [|apply always_raise; exact I].
  intros hist. cbv zeta. unfold bind, mkdir, unlink, copy, chmod, emit.
  simpl. split; [|exact I].
  exists (parent (dest_dir ++ rel)). split; [left; reflexivity|].
  rewrite (target_dir_frozen _ (frozen_dest_app dest_dir rel Hf)).
  apply under_refl.
Qed.

(** A file staged into a directory that is there. *)
Lemma prep_file : forall src d,
  frozen_dest d -> In (parent d) made ->
  always (prepared made) (unlink d ;; copy src d ;; chmod d o444).
Proof.
  intros src d Hf Hin hist. unfold bind, unlink, copy, chmod, emit. simpl.
  split; [|exact I]. exists (parent d). split; [exact Hin|].
  rewrite (target_dir_frozen _ Hf). apply under_refl.
Qed.

Lemma prep_file_then : forall A src d (k : M A),
  frozen_dest d -> In (parent d) made ->
  always (prepared made) k ->
  always (prepared made) (unlink d ;; copy src d ;; chmod d o444 ;; k).
Proof.
  intros A src d k Hf Hin Hk hist.
  unfold bind, unlink, copy, chmod, emit.
  match goal with |- context [k ?hh] =>
    specialize (Hk hh); destruct (k hh) as [r e] end.
  simpl in *. split; [|exact Hk]. exists (parent d). split; [exact Hin|].
  rewrite (target_dir_frozen _ Hf). apply under_refl.
Qed.

End Prepared.

Lemma prep_after_mkdirs : forall A (D made : list Path) (k : M A),
  always (prepared (D ++ made)) k ->
  always (prepared made) (for_each D mkdir ;; k).
Proof.
  intros A D made k Hk hist.
  erewrite bind_ok; [|apply for_each_mkdir]. simpl snd.
  apply prepared_mkdirs. apply Hk.
Qed.

Lemma dir_structure_cell : forall board config,
  In board SUPPORTED_BOARDS -> In config SUPPORTED_CONFIGS ->
  In (cell_sdk board config // "elf") dir_structure
  /\ In (cell_sdk board config // "lib") dir_structure.
Proof.
  intros board config Hb Hc. unfold dir_structure.
  split; apply in_or_app; right; apply in_flat_map; exists board;
    (split; [exact Hb|]); right; apply in_flat_map; exists config;
    (split; [exact Hc|]); unfold cell_sdk; simpl; auto.
Qed.

Ltac prep_steps :=
  repeat first
    [ apply prep_system
    | apply prep_mkdir
    | apply prep_print
    | apply always_ret; exact I
    | apply always_raise; exact I
    | apply always_assert; exact I
    | apply always_exists; exact I
    | apply always_lift; exact I
    | apply prep_stage_tree; frozen
    | apply prep_file; [frozen|assumption]
    | apply prep_file_then; [frozen|assumption|]
    | apply prep_for_each; intros ? _
    | match goal with
      | |- always _ (if ?b then _ else _) => destruct b
      | |- always _ (match ?o with Some _ => _ | None => _ end) =>
          destruct o
      end
    | apply prep_bind; [|intros ?] ].

Lemma build_cell_prepared : forall h sel4_dir board config made,
  In (cell_sdk board config // "elf") made ->
  In (cell_sdk board config // "lib") made ->
  always (prepared made) (build_cell h sel4_dir ["build"] board config).
Proof.
  intros h sel4_dir board config made Helf Hlib.
  unfold build_cell, build_sel4, build_elf_component, build_lib_component.
  cbv zeta.
  change (In (parent (cell_sdk board config // "elf" // "sel4.elf")) made)
    in Helf.
  prep_steps.
Qed.

Lemma main_prepared : forall h arg_sel4 arg_triple,
  always (prepared []) (main h arg_sel4 arg_triple).
Proof.
  intros h arg_sel4 arg_triple. unfold main. cbv zeta.
  apply prep_bind; [prep_steps|intros t].
  apply prep_bind; [prep_steps|intros sel4_dir].
  apply prep_bind; [prep_steps|intros ex].
  destruct (negb ex); [apply always_raise; exact I|].
  apply prep_after_mkdirs.
  apply prep_bind; [|intros _].
  { intros hist. simpl. split; [|exact I].
    exists (root_dir // "doc"). split; [left; reflexivity|].
    exists ["doc"]. reflexivity. }
  apply prep_bind; [prep_steps|intros _].
  apply prep_bind; [prep_steps|intros ex2].
  apply prep_bind; [|intros _].
  { destruct (negb ex2); [|apply always_ret; exact I].
    unfold test_tool, build_tool. cbv zeta.
    apply prep_bind; [prep_steps|intros _].
    apply prep_bind; [prep_steps|intros ex3].
    destruct (negb ex3); [apply always_raise; exact I|].
    do 4 (apply prep_bind; [prep_steps|intros ?]).
    intros hist. simpl. split; [|exact I].
    exists (root_dir // "bin"). split; [right; left; reflexivity|].
    exists []. reflexivity. }
  apply prep_bind; [unfold build_doc; prep_steps|intros _].
  apply prep_for_each. intros board Hb.
  apply prep_bind; [|intros _; prep_steps].
  apply prep_for_each. intros config Hc.
  destruct (dir_structure_cell board config Hb Hc) as [Helf Hlib].
  apply build_cell_prepared; apply in_or_app; left; assumption.
Qed.

(** ** The cells do not make the [elf] and [lib] directories *)

Lemma not_under_sibling : forall (d : Path) (x y : string) rest,
  x <> y -> ~ under (d // x) (d ++ y :: rest).
Proof.
  intros d x y rest Hxy [r H]. unfold pdiv in H.
  rewrite <- app_assoc in H. apply app_inv_head in H.
  injection H as H _. congruence.
Qed.

Lemma not_under_self : forall (d : Path) (x : string), ~ under (d // x) d.
Proof.
  intros d x [r H]. unfold pdiv in H. rewrite <- app_assoc in H.
  rewrite <- (app_nil_r d) in H at 1. apply app_inv_head in H.
  discriminate H.
Qed.

Lemma include_parent_leaves : forall board config rel,
  leaves_elf_lib board config
    (Mkdir (parent ((cell_sdk board config // "include") ++ rel))).
Proof.
  intros board config rel. unfold leaves_elf_lib, parent.
  change (cell_sdk board config // "include")
    with (cell_sdk board config ++ ["include"]).
  destruct rel as [|x rel].
  - rewrite app_nil_r, removelast_last.
    split; apply not_under_self.
  - rewrite <- app_assoc.
    rewrite removelast_app by discriminate.
    change (removelast (["include"] ++ x :: rel))
      with ("include" :: removelast (x :: rel)).
    split; apply not_under_sibling; discriminate.
Qed.

Lemma build_dir_leaves : forall board config rest,
  leaves_elf_lib board config (Mkdir ("build" :: rest)).
Proof.
  intros board config rest. unfold leaves_elf_lib, cell_sdk, root_dir, pdiv.
  split; intros [r H]; discriminate H.
Qed.

Lemma leaves_stage_tree : forall h board config source_dir,
  always (Forall (leaves_elf_lib board config))
    (stage_tree h source_dir (cell_sdk board config // "include")).
Proof.
  intros. apply each_stage_tree. intros p rel.
  split; [apply include_parent_leaves|repeat split].
Qed.

Ltac leaves_steps :=
  unfold mkdir, print, unlink, copy, chmod;
  repeat first
    [ apply each_emit; exact I
    | apply each_emit; apply build_dir_leaves
    | apply leaves_stage_tree
    | apply always_system; intros; repeat constructor
    | apply always_raise; constructor
    | apply always_ret; constructor
    | apply each_for_each; intros ? _
    | match goal with
      | |- always _ (if ?b then _ else _) => destruct b
      | |- always _ (match ?o with Some _ => _ | None => _ end) =>
          destruct o
      end
    | apply each_bind; [|intros ?] ].

Lemma cell_stages_leave : forall h sel4_dir board config stage,
  In stage (cell_stages h sel4_dir board config) ->
  always (Forall (leaves_elf_lib board config)) stage.
Proof.
  intros h sel4_dir board config stage Hin. simpl in Hin.
  destruct Hin as [<-|[<-|[<-|[<-|[]]]]];
    unfold build_sel4, build_elf_component, build_lib_component;
    cbv zeta; leaves_steps.
Qed.

(** X12: in any run of [main], whatever the host answers, every copy
    writes into a directory the run has made before: an earlier [mkdir]
    (which creates the parents too) names the directory the copy writes
    into, or a path below it.  The stages of a cell rely on [main] for
    this: none of them makes the [elf] or the [lib] directory it copies
    into, nor a directory below one of them. *)
Theorem directories_exist_before_copies :
  forall h arg_sel4 arg_triple hist,
  (forall pre src d post,
      snd (main h arg_sel4 arg_triple hist) = pre ++ Copy src d :: post ->
      exists q, In (Mkdir q) pre /\ under (target_dir d) q)
  /\ (forall sel4_dir board config stage hist' q,
        component (board_name board) = true ->
        component (config_name config) = true ->
        In stage (cell_stages h sel4_dir board config) ->
        In (Mkdir q) (snd (stage hist')) ->
        ~ under (cell_sdk board config // "elf") q
        /\ ~ under (cell_sdk board config // "lib") q).
Proof.
  intros h arg_sel4 arg_triple hist. split.
  - intros pre src d post Heq.
    pose proof (main_prepared h arg_sel4 arg_triple hist) as H.
    rewrite Heq in H.
    destruct (prepared_split _ _ _ _ _ H) as [q [[[]|Hq] Hu]].
    exists q. split; assumption.
  - intros sel4_dir board config stage hist' q _ _ Hstage Hin.
    pose proof (cell_stages_leave h sel4_dir board config stage Hstage hist')
      as H.
    rewrite Forall_forall in H. exact (H _ Hin).
Qed.

Lemma directories_exist_before_copies_witness :
  exists q,
    In (Mkdir q) (firstn 83 (snd good_run))
    /\ under (target_dir tool_target) q.
Proof.
  apply (proj1 (directories_exist_before_copies good_host ["seL4"] None [])
           (firstn 83 (snd good_run))
           [ "."; "tool"; "build"; "x86_64-unknown-linux-musl"; "release";
             "install"; "microkit" ]
           tool_target
           (skipn 84 (snd good_run))).
  vm_compute. reflexivity.
Defined.

End DirsMore.
